(** * Voice agent for appointment booking: dialogue state and tool orchestration

    A shallow embedding of [apps/voice-agent/src/agent.py] (class [VoiceAgent])
    and of the client interface of [apps/voice-agent/src/mcp_client.py].

    Conventions.
    - Python [str] values are modelled as [string]; the model covers ASCII
      text (case mapping, [\s], [\b], [\d] are the ASCII restrictions of the
      Python ones).
    - [print] calls are not modelled.
    - The collaborators (NLU endpoint, language model, backend API, health
      probe) and the library functions the agent calls ([json.loads],
      [datetime], float formatting) are parameters, gathered in [Env].
    - Exceptions are explicit: a computation returns [Ok v] or [Raise e]. *)

From Stdlib Require Import String Ascii List Bool Arith Lia ZArith QArith.
From Stdlib Require Import Numbers.DecimalString.
Import ListNotations.
Open Scope string_scope.
Open Scope bool_scope.
Open Scope nat_scope.
Set Warnings "-register-all".

(* ===================================================================== *)
(** ** Python strings *)
(* ===================================================================== *)

Module PyStr.

Definition dq : string := String (ascii_of_nat 34) EmptyString.
Definition nl : string := String (ascii_of_nat 10) EmptyString.
Definition nl_char : ascii := ascii_of_nat 10.

Definition between (lo hi c : ascii) : bool :=
  (nat_of_ascii lo <=? nat_of_ascii c) && (nat_of_ascii c <=? nat_of_ascii hi).

Definition is_upper (c : ascii) : bool := between "A" "Z" c.
Definition is_lower (c : ascii) : bool := between "a" "z" c.
Definition is_digit (c : ascii) : bool := between "0" "9" c.

Definition lower_char (c : ascii) : ascii :=
  if is_upper c then ascii_of_nat (nat_of_ascii c + 32) else c.
Definition upper_char (c : ascii) : ascii :=
  if is_lower c then ascii_of_nat (nat_of_ascii c - 32) else c.

(** [str.isspace] on ASCII: TAB, LF, VT, FF, CR, FS, GS, RS, US, space. *)
Definition is_space (c : ascii) : bool :=
  let n := nat_of_ascii c in
  ((9 <=? n) && (n <=? 13)) || ((28 <=? n) && (n <=? 32)).

(** [\w] on ASCII. *)
Definition is_word (c : ascii) : bool :=
  is_upper c || is_lower c || is_digit c || Ascii.eqb c "_".

(** [s.lower()] *)
Fixpoint lower (s : string) : string :=
  match s with
  | EmptyString => EmptyString
  | String c r => String (lower_char c) (lower r)
  end.

(** Truth value of a string: non-empty. *)
Definition nonempty (s : string) : bool :=
  match s with EmptyString => false | _ => true end.

(** [needle in hay] *)
Fixpoint contains (needle hay : string) : bool :=
  prefix needle hay ||
  match hay with
  | EmptyString => false
  | String _ r => contains needle r
  end.

(** [s.find(c)] for a one-character needle; [None] stands for -1. *)
Fixpoint find_char (c : ascii) (s : string) : option nat :=
  match s with
  | EmptyString => None
  | String d r =>
      if Ascii.eqb c d then Some 0
      else option_map S (find_char c r)
  end.

(** [s.rfind(c)] for a one-character needle. *)
Fixpoint rfind_char (c : ascii) (s : string) : option nat :=
  match s with
  | EmptyString => None
  | String d r =>
      match rfind_char c r with
      | Some i => Some (S i)
      | None => if Ascii.eqb c d then Some 0 else None
      end
  end.

(** [s[a:b]] for [0 <= a], [0 <= b]. *)
Definition slice (a b : nat) (s : string) : string := substring a (b - a) s.

Fixpoint lstrip (s : string) : string :=
  match s with
  | String c r => if is_space c then lstrip r else s
  | EmptyString => EmptyString
  end.

Fixpoint rstrip (s : string) : string :=
  match s with
  | EmptyString => EmptyString
  | String c r =>
      match rstrip r with
      | EmptyString => if is_space c then EmptyString else String c EmptyString
      | r' => String c r'
      end
  end.

(** [s.strip()] *)
Definition strip (s : string) : string := rstrip (lstrip s).

(** [s.split()]: maximal runs of non-space characters. *)
Fixpoint split_ws_aux (cur : string) (s : string) : list string :=
  match s with
  | EmptyString => if nonempty cur then [cur] else []
  | String c r =>
      if is_space c
      then (if nonempty cur then cur :: split_ws_aux "" r else split_ws_aux "" r)
      else split_ws_aux (cur ++ String c "") r
  end.
Definition split_ws (s : string) : list string := split_ws_aux "" s.

(** [sep.join(parts)] *)
Definition join (sep : string) (parts : list string) : string := String.concat sep parts.

(** [str(n)] for a natural number. *)
Definition of_nat (n : nat) : string := NilEmpty.string_of_uint (Nat.to_uint n).

(** [str(z)] for an integer. *)
Definition of_Z (z : Z) : string := NilEmpty.string_of_int (Z.to_int z).

(** [int(s)] for a non-empty run of ASCII digits. *)
Definition digits_to_nat (s : string) : nat :=
  fold_left (fun acc c => 10 * acc + (nat_of_ascii c - 48)) (list_ascii_of_string s) 0.

End PyStr.

(* ===================================================================== *)
(** ** A backtracking matcher for the [re] patterns of the agent *)
(* ===================================================================== *)

Module Re.
Import PyStr.

(** The fragment of [re] syntax that occurs in [agent.py].  Alternatives and
    repetitions are ordered as in Python's backtracking matcher. *)
Inductive regex : Type :=
| RChar (p : ascii -> bool)            (* one character satisfying [p] *)
| REmpty                               (* the empty pattern *)
| RSeq (r1 r2 : regex)
| RAlt (r1 r2 : regex)                 (* r1|r2, r1 tried first *)
| RStar (greedy : bool) (r : regex)    (* r* and r*? *)
| RBol                                 (* ^ *)
| REol                                 (* $ without MULTILINE *)
| RWordB                               (* \b *)
| RGroup (r : regex).                  (* capturing group 1 *)

Record mstate : Type := MState { pos : nat; grp : option (nat * nat) }.

Definition char_before (s : list ascii) (i : nat) : option ascii :=
  match i with 0 => None | S j => nth_error s j end.

Definition wordish (o : option ascii) : bool :=
  match o with Some c => is_word c | None => false end.

Fixpoint rmatch (s : list ascii) (r : regex) (k : mstate -> option mstate)
         (st : mstate) {struct r} : option mstate :=
  match r with
  | RChar p =>
      match nth_error s (pos st) with
      | Some c => if p c then k (MState (S (pos st)) (grp st)) else None
      | None => None
      end
  | REmpty => k st
  | RSeq a b => rmatch s a (rmatch s b k) st
  | RAlt a b =>
      match rmatch s a k st with
      | Some r' => Some r'
      | None => rmatch s b k st
      end
  | RStar greedy a =>
      (fix loop (fuel : nat) (st0 : mstate) {struct fuel} : option mstate :=
         match fuel with
         | 0 => k st0
         | S fuel' =>
             let again (_ : unit) :=
               rmatch s a
                 (fun st1 => if pos st0 <? pos st1 then loop fuel' st1 else None)
                 st0 in
             if greedy then
               match again tt with
               | Some r' => Some r'
               | None => k st0
               end
             else
               match k st0 with
               | Some r' => Some r'
               | None => again tt
               end
         end) (S (List.length s - pos st)) st
  | RBol => if pos st =? 0 then k st else None
  | REol =>
      if (pos st =? List.length s)
         || ((S (pos st) =? List.length s)
             && match nth_error s (pos st) with
                | Some c => Ascii.eqb c nl_char
                | None => false
                end)
      then k st else None
  | RWordB =>
      if xorb (wordish (char_before s (pos st))) (wordish (nth_error s (pos st)))
      then k st else None
  | RGroup a =>
      rmatch s a (fun st1 => k (MState (pos st1) (Some (pos st, pos st1)))) st
  end.

(** A match object: span of the whole match and span of group 1. *)
Record rmatch_obj : Type := MatchObj { m_start : nat; m_end : nat; m_grp : option (nat * nat) }.

Definition match_at (s : list ascii) (r : regex) (i : nat) : option rmatch_obj :=
  match rmatch s r Some (MState i None) with
  | Some st => Some (MatchObj i (pos st) (grp st))
  | None => None
  end.

(** Leftmost match starting at or after [i]; [n] bounds the start positions. *)
Fixpoint search_from (s : list ascii) (r : regex) (i n : nat) : option rmatch_obj :=
  match match_at s r i with
  | Some m => Some m
  | None =>
      match n with
      | 0 => None
      | S n' => search_from s r (S i) n'
      end
  end.

(** [re.search(r, s)] *)
Definition search (r : regex) (s : string) : option rmatch_obj :=
  let l := list_ascii_of_string s in search_from l r 0 (List.length l).

(** [m.group(0)] and [m.group(1)] *)
Definition group0 (s : string) (m : rmatch_obj) : string := slice (m_start m) (m_end m) s.
Definition group1 (s : string) (m : rmatch_obj) : string :=
  match m_grp m with
  | Some (a, b) => slice a b s
  | None => ""
  end.

(** [re.sub(r, repl, s)] for a pattern [r] that never matches the empty
    string (true of the two patterns the agent substitutes). *)
Fixpoint sub_from (l : list ascii) (s : string) (r : regex) (repl : string)
         (i fuel : nat) : string :=
  match fuel with
  | 0 => slice i (List.length l) s
  | S fuel' =>
      match search_from l r i (List.length l - i) with
      | Some m =>
          if m_start m <? m_end m
          then slice i (m_start m) s ++ repl ++ sub_from l s r repl (m_end m) fuel'
          else slice i (List.length l) s
      | None => slice i (List.length l) s
      end
  end.

Definition sub (r : regex) (repl s : string) : string :=
  let l := list_ascii_of_string s in sub_from l s r repl 0 (S (List.length l)).

(** *** Pattern syntax; [ic] is the [re.IGNORECASE] flag *)

Definition chr (ic : bool) (x : ascii) : regex :=
  RChar (fun c => Ascii.eqb c x || (ic && Ascii.eqb (lower_char c) (lower_char x))).

Definition in_range (ic : bool) (lo hi : ascii) (c : ascii) : bool :=
  between lo hi c || (ic && (between lo hi (lower_char c) || between lo hi (upper_char c))).

Definition one_of (ic : bool) (xs : string) (c : ascii) : bool :=
  existsb (fun x => Ascii.eqb c x || (ic && Ascii.eqb (lower_char c) (lower_char x)))
          (list_ascii_of_string xs).

Fixpoint lit (ic : bool) (s : string) : regex :=
  match s with
  | EmptyString => REmpty
  | String c r => RSeq (chr ic c) (lit ic r)
  end.

Definition plus (r : regex) : regex := RSeq r (RStar true r).        (* r+ *)
Definition lazy_plus (r : regex) : regex := RSeq r (RStar false r).  (* r+? *)
Definition opt (r : regex) : regex := RAlt r REmpty.                 (* r? *)
Definition star (r : regex) : regex := RStar true r.                 (* r* *)
Definition at_least2 (r : regex) : regex := RSeq r (RSeq r (RStar true r)). (* r{2,} *)
Definition ws : regex := RChar is_space.                             (* \s *)
Definition digit : regex := RChar is_digit.                          (* \d *)
Definition dot : regex := RChar (fun c => negb (Ascii.eqb c nl_char)). (* . *)

Fixpoint seq (rs : list regex) : regex :=
  match rs with
  | [] => REmpty
  | [r] => r
  | r :: rs' => RSeq r (seq rs')
  end.

Fixpoint alt (rs : list regex) : regex :=
  match rs with
  | [] => REmpty
  | [r] => r
  | r :: rs' => RAlt r (alt rs')
  end.

End Re.

(* ===================================================================== *)
(** ** Entity extractor, slot-selection parser, doctor matcher *)
(* ===================================================================== *)

(** The truth value Python gives an optional string ([None] and [""] are false). *)
Definition truthy_str (o : option string) : bool :=
  match o with Some s => PyStr.nonempty s | None => false end.

(** [a or b] on optional strings. *)
Definition or_str (a b : option string) : option string :=
  if truthy_str a then a else b.

Module Extract.
Import PyStr Re.

(** [[A-Z][a-z]+(?:\s+[A-Z][a-z]+)*], compiled with flag [ic]. *)
Definition cap_word (ic : bool) : regex :=
  RSeq (RChar (in_range ic "A" "Z")) (plus (RChar (in_range ic "a" "z"))).
Definition cap_words (ic : bool) : regex :=
  RSeq (cap_word ic) (star (RSeq (plus ws) (cap_word ic))).

(** [name_patterns], in list order; every one is searched with [re.IGNORECASE]. *)
Definition name_patterns (ic : bool) : list regex :=
  [ seq [lit ic "my name is "; RGroup (cap_words ic)];
    seq [chr ic "i"; opt (chr ic "'"); chr ic "m"; plus ws; RGroup (cap_words ic)];
    seq [lit ic "i am"; plus ws; RGroup (cap_words ic)];
    seq [lit ic "name is"; plus ws; RGroup (cap_words ic)];
    seq [lit ic "call me"; plus ws; RGroup (cap_words ic)] ].

(** [email_pattern], searched without flags. *)
Definition email_pattern : regex :=
  let local_part c := in_range false "A" "Z" c || in_range false "a" "z" c
                      || in_range false "0" "9" c || one_of false "._%+-" c in
  let domain c := in_range false "A" "Z" c || in_range false "a" "z" c
                  || in_range false "0" "9" c || one_of false ".-" c in
  let tld c := in_range false "A" "Z" c || one_of false "|" c || in_range false "a" "z" c in
  seq [RWordB; plus (RChar local_part); chr false "@"; plus (RChar domain);
       chr false "."; at_least2 (RChar tld); RWordB].

(** The common tail [(.+?)(?:\.|$|and|my)] of the symptom patterns. *)
Definition clause (ic : bool) : regex :=
  RSeq (RGroup (lazy_plus dot))
       (alt [chr ic "."; REol; lit ic "and"; lit ic "my"]).

Definition symptom_patterns (ic : bool) : list regex :=
  [ seq [lit ic "i feel"; plus ws; clause ic];
    seq [lit ic "i have"; plus ws; clause ic];
    seq [lit ic "symptom"; opt (chr ic "s"); plus ws;
         alt [lit ic "are"; lit ic "is"; chr ic ":"]; plus ws; clause ic];
    seq [lit ic "pain"; plus ws; alt [lit ic "in"; lit ic "at"]; plus ws; clause ic] ].

(** The loop [for pattern in patterns: match = re.search(...); if match: ...; break]. *)
Fixpoint first_match (ps : list regex) (message : string) : option rmatch_obj :=
  match ps with
  | [] => None
  | p :: ps' =>
      match search p message with
      | Some m => Some m
      | None => first_match ps' message
      end
  end.

Record user_info : Type := UserInfo
  { ui_name : option string; ui_email : option string;
    ui_symptoms : option string; ui_reason : option string }.

(** [VoiceAgent._extract_user_info] *)
Definition _extract_user_info (message : string) : user_info :=
  let name :=
    match first_match (name_patterns true) message with
    | Some m => Some (strip (group1 message m))
    | None => None
    end in
  let email :=
    match search email_pattern message with
    | Some m => Some (group0 message m)
    | None => None
    end in
  let symptoms :=
    match first_match (symptom_patterns true) message with
    | Some m => Some (sub (plus ws) " " (strip (group1 message m)))
    | None => None
    end in
  UserInfo name email symptoms
           (match symptoms with
            | Some t => Some ("Patient reports: " ++ t)
            | None => None
            end).

(** [number_words], in the insertion order of the dict literal. *)
Definition number_words : list (string * nat) :=
  [ ("zero", 0); ("one", 1); ("two", 2); ("three", 3); ("four", 4); ("five", 5);
    ("six", 6); ("seven", 7); ("eight", 8); ("nine", 9); ("ten", 10);
    ("first", 1); ("second", 2); ("third", 3); ("fourth", 4); ("fifth", 5);
    ("sixth", 6); ("seventh", 7); ("eighth", 8); ("ninth", 9); ("tenth", 10) ].

(** [VoiceAgent._parse_slot_selection] *)
Definition _parse_slot_selection (message : string) : option nat :=
  let lower_message := strip (lower message) in
  match find (fun wn => contains (fst wn) lower_message) number_words with
  | Some wn => Some (snd wn)
  | None =>
      match search (seq [RWordB; RGroup (plus digit); RWordB]) lower_message with
      | Some m => Some (digits_to_nat (group1 lower_message m))
      | None => None
      end
  end.

(** A doctor as the backend returns it; an absent key is [None]. *)
Record Doctor : Type := MkDoctor
  { d_id : option string; d_name : option string; d_specialty : option string;
    d_address : option string; d_distance : option Q; d_phone : option string }.

Definition get_default (o : option string) (d : string) : string :=
  match o with Some s => s | None => d end.

(** The test of one candidate in [_match_doctor_name]; [None] is [continue]. *)
Definition doctor_matches (lower_message : string) (doctor : Doctor) : bool :=
  let doctor_name := lower (get_default (d_name doctor) "") in
  let name_without_prefix :=
    sub (seq [RBol; lit true "dr"; opt (chr true "."); star ws]) "" doctor_name in
  match split_ws name_without_prefix with
  | [] => false
  | first_name :: rest =>
      let last_name := match rest with [] => "" | _ => join " " rest end in
      contains lower_message doctor_name
      || contains doctor_name lower_message
      || contains lower_message name_without_prefix
      || contains name_without_prefix lower_message
      || (nonempty first_name && contains first_name lower_message)
      || (nonempty last_name && contains last_name lower_message)
  end.

(** [VoiceAgent._match_doctor_name] *)
Definition _match_doctor_name (message : string) (doctors : list Doctor) : option string :=
  match doctors with
  | [] => None
  | _ =>
      match find (doctor_matches (lower message)) doctors with
      | Some doctor => d_id doctor
      | None => None
      end
  end.

End Extract.

(* ===================================================================== *)
(** ** Python values, exceptions, and the agent's data *)
(* ===================================================================== *)

(** Values decoded from the language model's JSON (untyped: the model's
    output is free text) and the arguments forwarded to the backend. *)
Inductive pyval : Type :=
| PNone
| PBool (b : bool)
| PInt (z : Z)
| PFloat (q : Q)
| PStr (s : string)
| PList (l : list pyval)
| PDict (d : list (string * pyval)).

Definition pydict : Type := list (string * pyval).

(** Python's truth value. *)
Definition truthy (v : pyval) : bool :=
  match v with
  | PNone => false
  | PBool b => b
  | PInt z => negb (Z.eqb z 0)
  | PFloat q => negb (Qeq_bool q 0)
  | PStr s => PyStr.nonempty s
  | PList l => match l with [] => false | _ => true end
  | PDict d => match d with [] => false | _ => true end
  end.

(** [a or b] *)
Definition py_or (a b : pyval) : pyval := if truthy a then a else b.

Definition of_opt_str (o : option string) : pyval :=
  match o with Some s => PStr s | None => PNone end.

Definition type_name (v : pyval) : string :=
  match v with
  | PNone => "NoneType" | PBool _ => "bool" | PInt _ => "int" | PFloat _ => "float"
  | PStr _ => "str" | PList _ => "list" | PDict _ => "dict"
  end.

(** [v == "literal"] *)
Definition is_str (v : pyval) (lit : string) : bool :=
  match v with PStr s => String.eqb s lit | _ => false end.

Inductive exn_kind : Type := JSONDecodeError | KeyError | OtherError.

(** An exception; [exn_msg] is [str(e)]. *)
Record exn : Type := Exn { exn_kind_of : exn_kind; exn_msg : string }.

Inductive res (A : Type) : Type :=
| Ok (a : A)
| Raise (e : exn).
Arguments Ok {A} a.
Arguments Raise {A} e.

Definition attribute_error (v : pyval) (attr : string) : exn :=
  Exn OtherError ("'" ++ type_name v ++ "' object has no attribute '" ++ attr ++ "'").

Fixpoint lookup (key : string) (d : pydict) : option pyval :=
  match d with
  | [] => None
  | (k, v) :: d' => if String.eqb k key then Some v else lookup key d'
  end.

(** [d.get(key, default)] on a dict. *)
Definition dict_get (d : pydict) (key : string) (default : pyval) : pyval :=
  match lookup key d with Some v => v | None => default end.

(** [v.get(key, default)] on an arbitrary value. *)
Definition py_get (v : pyval) (key : string) (default : pyval) : res pyval :=
  match v with
  | PDict d => Ok (dict_get d key default)
  | _ => Raise (attribute_error v "get")
  end.

(** [d[key] = v] *)
Fixpoint dict_set (d : pydict) (key : string) (v : pyval) : pydict :=
  match d with
  | [] => [(key, v)]
  | (k, w) :: d' => if String.eqb k key then (k, v) :: d' else (k, w) :: dict_set d' key v
  end.

(** A time range [{start, end}] (NLU date range, or a chosen slot). *)
Record TimeRange : Type := MkRange { tr_start : string; tr_end : string }.

(** A slot as the backend returns it; an absent key is [None]. *)
Record Slot : Type := MkSlot { s_start : option string; s_end : option string }.

(** The NLU response [{intent, entities: {specialty?, dateRange?}}]. *)
Record NluResult : Type := MkNlu
  { nlu_intent : option string;
    nlu_specialty : option string;
    nlu_dateRange : option TimeRange }.

Record SearchResult : Type := MkSearch { sr_doctors : option (list Extract.Doctor) }.
Record AvailabilityResult : Type := MkAvail { ar_slots : option (list Slot) }.
Record ScheduleResult : Type := MkSched
  { ap_appointmentId : option string; ap_calendarLink : option string }.
Record GeocodeResult : Type := MkGeo { geo_display_name : option string }.

(** Keyword arguments of [MCPClient.schedule_appointment]. *)
Record ScheduleArgs : Type := MkSchedArgs
  { sa_doctor_id : pyval; sa_start_utc : pyval; sa_user : pydict; sa_end_utc : pyval;
    sa_duration_minutes : pyval; sa_reason : pyval; sa_notes : pyval; sa_symptoms : pyval }.

Inductive Payload : Type :=
| PSearch (r : SearchResult)
| PAvail (r : AvailabilityResult)
| PSched (r : ScheduleResult)
| PGeo (r : GeocodeResult).

(** A tool result: the dict [{tool, result, summary}] or [{error}]; an
    absent key is [None]. *)
Record ToolResult : Type := MkToolResult
  { t_tool : option string; t_result : option Payload;
    t_summary : option string; t_error : option string }.

Definition tool_error (msg : string) : ToolResult := MkToolResult None None None (Some msg).
Definition tool_ok (tool : string) (r : Payload) (summary : string) : ToolResult :=
  MkToolResult (Some tool) (Some r) (Some summary) None.

Inductive Role : Type := system | user | assistant.
Record Turn : Type := MkTurn { role : Role; content : string }.

(** [self.context] *)
Record Context : Type := MkContext
  { specialty : option string;
    user_name : option string;
    user_email : option string;
    preferred_time : option TimeRange;
    last_search_results : option (list Extract.Doctor);
    selected_doctor_id : option string;
    symptoms : option string;
    reason : option string;
    available_slots : option (list Slot) }.

(** What the agent asked of its collaborators, in order.  [EvExecute] marks
    an entry into [_execute_tool]; the others are requests of [mcp_client]. *)
Inductive Event : Type :=
| EvProbe
| EvExecute (tool_call : pyval)
| EvSearch (specialty lat lng radius_km : pyval)
| EvAvailability (doctor_id start_utc end_utc slot_minutes : pyval)
| EvSchedule (args : ScheduleArgs)
| EvGeocode (query : pyval).

(** The mutable attributes of a [VoiceAgent]; [trace] is a ghost field
    recording the events above. *)
Record Agent : Type := MkAgent
  { _api_connection_tested : bool;
    context : Context;
    conversation_history : list Turn;
    trace : list Event }.

(** The collaborators and library functions, as the agent sees them. *)
Record Env : Type := MkEnv
  { (* mcp_client *)
    parse_message : string -> res NluResult;
    test_connection : bool;
    search_doctors : pyval -> pyval -> pyval -> pyval -> res SearchResult;
    check_availability : pyval -> pyval -> pyval -> pyval -> res AvailabilityResult;
    schedule_appointment : ScheduleArgs -> res ScheduleResult;
    geocode : pyval -> res GeocodeResult;
    (* ollama.chat(...)["message"]["content"] *)
    ollama_chat : list Turn -> res string;
    (* json.loads on the text between the first opening and the last closing
       brace: a dict, or JSONDecodeError *)
    json_loads : string -> res pydict;
    (* str() of floats, lists and dicts *)
    py_repr : pyval -> string;
    (* format(x, ".1f") *)
    format_1f : Q -> string;
    (* (datetime.fromisoformat(s.replace("Z", "+00:00")) + timedelta(days=1))
         .isoformat().replace("+00:00", "Z") *)
    plus_one_day : pyval -> res string;
    (* the two strftime renderings of a slot's start and end *)
    format_slot : string -> string -> res (string * string) }.

(** *** State-and-exception monad: attribute updates survive a raise *)

Definition M (A : Type) : Type := Agent -> Agent * res A.

Definition ret {A} (a : A) : M A := fun s => (s, Ok a).
Definition raise {A} (e : exn) : M A := fun s => (s, Raise e).
Definition bind {A B} (m : M A) (f : A -> M B) : M B :=
  fun s => match m s with
           | (s', Ok a) => f a s'
           | (s', Raise e) => (s', Raise e)
           end.
Definition lift {A} (r : res A) : M A := fun s => (s, r).
Definition get_context : M Context := fun s => (s, Ok (context s)).
Definition set_context (c : Context) : M unit :=
  fun s => (MkAgent (_api_connection_tested s) c (conversation_history s) (trace s), Ok tt).
Definition modify_context (f : Context -> Context) : M unit :=
  fun s => (MkAgent (_api_connection_tested s) (f (context s)) (conversation_history s) (trace s), Ok tt).
Definition emit (ev : Event) : M unit :=
  fun s => (MkAgent (_api_connection_tested s) (context s) (conversation_history s)
                    (trace s ++ [ev]), Ok tt).
Definition get_history : M (list Turn) := fun s => (s, Ok (conversation_history s)).
Definition append_turn (t : Turn) : M unit :=
  fun s => (MkAgent (_api_connection_tested s) (context s) (conversation_history s ++ [t])
                    (trace s), Ok tt).
(** [try: body except <kinds caught>: handler] *)
Definition try_except {A} (body : M A) (caught : exn_kind -> bool) (handler : exn -> M A) : M A :=
  fun s => match body s with
           | (s', Ok a) => (s', Ok a)
           | (s', Raise e) => if caught (exn_kind_of e) then handler e s' else (s', Raise e)
           end.

Declare Scope py_scope.
Delimit Scope py_scope with py.
Notation "x <- m ;; k" := (bind m (fun x => k))
  (at level 61, m at next level, right associativity) : py_scope.
Notation "m ;;; k" := (bind m (fun _ => k))
  (at level 61, right associativity) : py_scope.
Open Scope py_scope.

Definition any_exception (_ : exn_kind) : bool := true.
Definition json_or_key_error (k : exn_kind) : bool :=
  match k with JSONDecodeError | KeyError => true | OtherError => false end.

(* ===================================================================== *)
(** ** The tool executor *)
(* ===================================================================== *)

Section Agent.
Import PyStr Extract.

Variable env : Env.

(** [str(v)], as used by the f-strings. *)
Definition py_str (v : pyval) : string :=
  match v with
  | PStr s => s
  | PNone => "None"
  | PBool true => "True"
  | PBool false => "False"
  | PInt z => of_Z z
  | _ => py_repr env v
  end.

Definition str_of_opt (o : option string) : string :=
  match o with Some s => s | None => "None" end.

(** The first [args.get(...)] of a branch fails unless [args] is a dict. *)
Definition as_dict (v : pyval) : res pydict :=
  match v with
  | PDict d => Ok d
  | _ => Raise (attribute_error v "get")
  end.

Definition set_last_search_results (v : option (list Doctor)) (c : Context) : Context :=
  MkContext (specialty c) (user_name c) (user_email c) (preferred_time c) v
            (selected_doctor_id c) (symptoms c) (reason c) (available_slots c).
Definition set_available_slots (v : option (list Slot)) (c : Context) : Context :=
  MkContext (specialty c) (user_name c) (user_email c) (preferred_time c)
            (last_search_results c) (selected_doctor_id c) (symptoms c) (reason c) v.
Definition set_preferred_time (v : option TimeRange) (c : Context) : Context :=
  MkContext (specialty c) (user_name c) (user_email c) v (last_search_results c)
            (selected_doctor_id c) (symptoms c) (reason c) (available_slots c).
Definition set_selected_doctor_id (v : option string) (c : Context) : Context :=
  MkContext (specialty c) (user_name c) (user_email c) (preferred_time c)
            (last_search_results c) v (symptoms c) (reason c) (available_slots c).
Definition set_specialty (v : option string) (c : Context) : Context :=
  MkContext v (user_name c) (user_email c) (preferred_time c) (last_search_results c)
            (selected_doctor_id c) (symptoms c) (reason c) (available_slots c).
Definition set_user_name (v : option string) (c : Context) : Context :=
  MkContext (specialty c) v (user_email c) (preferred_time c) (last_search_results c)
            (selected_doctor_id c) (symptoms c) (reason c) (available_slots c).
Definition set_user_email (v : option string) (c : Context) : Context :=
  MkContext (specialty c) (user_name c) v (preferred_time c) (last_search_results c)
            (selected_doctor_id c) (symptoms c) (reason c) (available_slots c).
Definition set_symptoms (v : option string) (c : Context) : Context :=
  MkContext (specialty c) (user_name c) (user_email c) (preferred_time c)
            (last_search_results c) (selected_doctor_id c) v (reason c) (available_slots c).
Definition set_reason (v : option string) (c : Context) : Context :=
  MkContext (specialty c) (user_name c) (user_email c) (preferred_time c)
            (last_search_results c) (selected_doctor_id c) (symptoms c) v (available_slots c).

Definition nonempty_list {A} (o : option (list A)) : bool :=
  match o with Some (_ :: _) => true | _ => false end.

Definition is_some {A} (o : option A) : bool :=
  match o with Some _ => true | None => false end.

(** *** search_doctors *)

Definition err_specialty_required : string :=
  "Specialty is required. Please specify what type of doctor you're looking for (e.g., cardiologist, dentist).".
Definition err_location_required : string :=
  "Location is required. Please provide coordinates or enable location access.".

Definition render_doctor (i : nat) (doc : Doctor) : string :=
  let doc_id := get_default (d_id doc) "" in
  of_nat i ++ ". **" ++ get_default (d_name doc) "Unknown" ++ "** - "
    ++ get_default (d_specialty doc) "General Practice" ++ nl
    ++ (if truthy_str (d_address doc)
        then "   📍 " ++ get_default (d_address doc) "" ++ nl else "")
    ++ (match d_distance doc with
        | Some q => "   📏 " ++ format_1f env q ++ " km away" ++ nl
        | None => ""
        end)
    ++ (if truthy_str (d_phone doc)
        then "   📞 " ++ get_default (d_phone doc) "" ++ nl else "")
    ++ (if nonempty doc_id then "   🆔 ID: " ++ doc_id ++ nl else "")
    ++ nl.

(** [for i, x in enumerate(xs, i0): summary += render i x] *)
Fixpoint render_enum {A} (render : nat -> A -> string) (i0 : nat) (xs : list A) : string :=
  match xs with
  | [] => ""
  | x :: xs' => render i0 x ++ render_enum render (S i0) xs'
  end.

Definition search_summary (specialty : pyval) (doctors : list Doctor) : string :=
  match doctors with
  | [] =>
      "I couldn't find any " ++ py_str specialty
        ++ " doctors in your area within the search radius. Try:" ++ nl
        ++ "- Expanding your search radius" ++ nl
        ++ "- Checking a different specialty" ++ nl
        ++ "- Or specify a different location"
  | _ =>
      "I found " ++ of_nat (List.length doctors) ++ " doctor(s) matching your search:" ++ nl ++ nl
        ++ render_enum render_doctor 1 (firstn 10 doctors)
        ++ (if 10 <? List.length doctors
            then "... and " ++ of_nat (List.length doctors - 10) ++ " more doctors." ++ nl
            else "")
        ++ nl ++ "Would you like to book an appointment with one of these doctors? Just let me know which doctor and your preferred time."
  end.

Definition exec_search_doctors (args location : pyval) (nlu_result : option NluResult)
  : M ToolResult :=
  d <- lift (as_dict args) ;;
  let specialty0 := dict_get d "specialty" PNone in
  let specialty :=
    match nlu_result with
    | Some n => if negb (truthy specialty0) then of_opt_str (nlu_specialty n) else specialty0
    | None => specialty0
    end in
  if negb (truthy specialty) then ret (tool_error err_specialty_required)
  else if negb (truthy location) && negb (truthy (dict_get d "near" PNone))
  then ret (tool_error err_location_required)
  else
    let near := py_or (dict_get d "near" PNone) location in
    if negb (truthy near) then ret (tool_error "Location is required")
    else
      lat1 <- lift (py_get near "lat" PNone) ;;
      lat2 <- lift (py_get near "latitude" PNone) ;;
      lng1 <- lift (py_get near "lng" PNone) ;;
      lng2 <- lift (py_get near "longitude" PNone) ;;
      let lat := py_or lat1 lat2 in
      let lng := py_or lng1 lng2 in
      let radius_km := dict_get d "radiusKm" (PInt 10) in
      emit (EvSearch specialty lat lng radius_km) ;;;
      result <- lift (search_doctors env specialty lat lng radius_km) ;;
      let doctors := match sr_doctors result with Some l => l | None => [] end in
      modify_context (set_last_search_results (Some doctors)) ;;;
      ret (tool_ok "search_doctors" (PSearch result) (search_summary specialty doctors)).

(** *** check_availability *)

Definition render_slot (i : nat) (slot : Slot) : string :=
  let start_time := get_default (s_start slot) "" in
  let end_time := get_default (s_end slot) "" in
  match format_slot env start_time end_time with
  | Ok (start_str, end_str) => of_nat i ++ ". " ++ start_str ++ " - " ++ end_str ++ nl
  | Raise _ => of_nat i ++ ". " ++ start_time ++ " - " ++ end_time ++ nl
  end.

Definition availability_summary (slots : list Slot) : string :=
  match slots with
  | [] => "No available slots found in that time range. Would you like to check a different time?"
  | _ =>
      "I found " ++ of_nat (List.length slots) ++ " available time slot(s):" ++ nl ++ nl
        ++ render_enum render_slot 1 (firstn 10 slots)
        ++ (if 10 <? List.length slots
            then nl ++ "... and " ++ of_nat (List.length slots - 10) ++ " more slots available." ++ nl
            else "")
        ++ nl ++ "Which slot would you like to book? Just say the number (e.g., 'one', '1', 'first')."
  end.

Definition exec_check_availability (args : pyval) : M ToolResult :=
  d <- lift (as_dict args) ;;
  ctx <- get_context ;;
  let doctor_id := py_or (dict_get d "doctorId" PNone) (of_opt_str (selected_doctor_id ctx)) in
  let start0 := dict_get d "startUtc" PNone in
  let end0 := dict_get d "endUtc" PNone in
  times <-
    match preferred_time ctx with
    | Some preferred =>
        if negb (truthy start0) then
          let start1 := PStr (tr_start preferred) in
          if negb (truthy end0)
          then e <- lift (plus_one_day env start1) ;; ret (start1, PStr e)
          else ret (start1, end0)
        else ret (start0, end0)
    | None => ret (start0, end0)
    end ;;
  let start_utc := fst times in
  let end1 := snd times in
  if negb (truthy doctor_id)
  then ret (tool_error "Please select a doctor first. I can show you available doctors if you'd like.")
  else if negb (truthy start_utc)
  then ret (tool_error "Please specify when you'd like to check availability (e.g., tomorrow at 9 AM).")
  else
    end_utc <- (if negb (truthy end1)
                then e <- lift (plus_one_day env start_utc) ;; ret (PStr e)
                else ret end1) ;;
    let slot_minutes := dict_get d "slotMinutes" (PInt 30) in
    emit (EvAvailability doctor_id start_utc end_utc slot_minutes) ;;;
    result <- lift (check_availability env doctor_id start_utc end_utc slot_minutes) ;;
    let slots := match ar_slots result with Some l => l | None => [] end in
    modify_context (set_available_slots (Some slots)) ;;;
    (match slots with
     | [] => modify_context (set_available_slots None)
     | _ => ret tt
     end) ;;;
    ret (tool_ok "check_availability" (PAvail result) (availability_summary slots)).

(** *** schedule_appointment *)

Definition err_which_doctor : string :=
  "Please specify which doctor you'd like to book with. I can show you available doctors if you'd like.".
Definition err_when : string :=
  "Please specify when you'd like the appointment (e.g., tomorrow at 9 AM).".
Definition err_name : string := "Please provide your name.".
Definition err_email : string := "Please provide your email address.".

(** [doctor_id = args.get("doctorId") or self.context.get("selected_doctor_id")] *)
Definition resolve_doctor_id (d : pydict) (ctx : Context) : pyval :=
  py_or (dict_get d "doctorId" PNone) (of_opt_str (selected_doctor_id ctx)).

(** The resolution of [start_utc]: the explicit argument, else the start of the
    NLU date range when there is one, else the start of the preferred time. *)
Definition resolve_start_utc (d : pydict) (nlu_result : option NluResult) (ctx : Context)
  : pyval :=
  let start_utc := dict_get d "startUtc" PNone in
  if negb (truthy start_utc) then
    match nlu_result with
    | Some (MkNlu _ _ (Some date_range)) => PStr (tr_start date_range)
    | _ =>
        match preferred_time ctx with
        | Some preferred => PStr (tr_start preferred)
        | None => start_utc
        end
    end
  else start_utc.

(** One field of the user object: kept if already truthy, else taken from this
    turn's extraction, else from the context, else left as it is. *)
Definition fill_field (u : pydict) (key : string) (from_info from_ctx : option string)
  : pydict :=
  if negb (truthy (dict_get u key PNone)) then
    if truthy_str from_info then dict_set u key (of_opt_str from_info)
    else if truthy_str from_ctx then dict_set u key (of_opt_str from_ctx)
    else u
  else u.

(** The user object built from [args["user"]], [user_info] and the context. *)
Definition resolve_user (d : pydict) (info : user_info) (ctx : Context) : res pydict :=
  let user0 := dict_get d "user" PNone in
  match (if negb (truthy user0) then PDict [] else user0) with
  | PDict u =>
      Ok (fill_field (fill_field u "name" (ui_name info) (user_name ctx))
                     "email" (ui_email info) (user_email ctx))
  | v => Raise (attribute_error v "get")
  end.

Definition context_symptoms (ctx : Context) : pyval :=
  if truthy_str (symptoms ctx) then PList [of_opt_str (symptoms ctx)] else PNone.

Definition schedule_summary (result : ScheduleResult) : string :=
  "✅ Appointment scheduled successfully!" ++ nl ++ nl
    ++ "📋 Appointment ID: " ++ str_of_opt (ap_appointmentId result) ++ nl
    ++ (if truthy_str (ap_calendarLink result)
        then "📅 Calendar link: " ++ str_of_opt (ap_calendarLink result) ++ nl
        else "").

Definition exec_schedule_appointment (args : pyval) (nlu_result : option NluResult)
           (info : user_info) : M ToolResult :=
  d <- lift (as_dict args) ;;
  ctx <- get_context ;;
  let doctor_id := resolve_doctor_id d ctx in
  let start_utc := resolve_start_utc d nlu_result ctx in
  usr <- lift (resolve_user d info ctx) ;;
  if negb (truthy doctor_id) then ret (tool_error err_which_doctor)
  else if negb (truthy start_utc) then ret (tool_error err_when)
  else if negb (truthy (dict_get usr "name" PNone)) then ret (tool_error err_name)
  else if negb (truthy (dict_get usr "email" PNone)) then ret (tool_error err_email)
  else
    let call :=
      MkSchedArgs doctor_id start_utc usr
                  (dict_get d "endUtc" PNone)
                  (dict_get d "durationMinutes" (PInt 30))
                  (py_or (dict_get d "reason" PNone) (of_opt_str (reason ctx)))
                  (dict_get d "notes" PNone)
                  (py_or (dict_get d "symptoms" PNone) (context_symptoms ctx)) in
    emit (EvSchedule call) ;;;
    result <- lift (schedule_appointment env call) ;;
    ret (tool_ok "schedule_appointment" (PSched result) (schedule_summary result)).

(** *** geocode *)

Definition exec_geocode (args : pyval) : M ToolResult :=
  d <- lift (as_dict args) ;;
  let query := py_or (dict_get d "query" PNone) (dict_get d "q" PNone) in
  if negb (truthy query) then ret (tool_error "Location query is required")
  else
    emit (EvGeocode query) ;;;
    result <- lift (geocode env query) ;;
    ret (tool_ok "geocode" (PGeo result)
                 ("Found location: "
                    ++ match geo_display_name result with
                       | Some s => s
                       | None => py_str query
                       end)).

(** *** [VoiceAgent._execute_tool] *)

Definition err_no_connection : string :=
  "Could not connect to API server. Please ensure:" ++ nl
    ++ "1. API server is running" ++ nl
    ++ "2. API_BASE_URL is set correctly" ++ nl
    ++ "3. BACKEND_API_KEY is set if required".

(** The one-shot connectivity probe; [true] means "go on". *)
Definition probe_once : M bool :=
  fun s =>
    if _api_connection_tested s then (s, Ok true)
    else (MkAgent true (context s) (conversation_history s) (trace s ++ [EvProbe]),
          Ok (test_connection env)).

Definition dispatch (tool_name args location : pyval) (nlu_result : option NluResult)
           (info : user_info) : M ToolResult :=
  if is_str tool_name "search_doctors" then exec_search_doctors args location nlu_result
  else if is_str tool_name "check_availability" then exec_check_availability args
  else if is_str tool_name "schedule_appointment" then exec_schedule_appointment args nlu_result info
  else if is_str tool_name "geocode" then exec_geocode args
  else ret (tool_error ("Unknown tool: " ++ py_str tool_name)).

(** [_execute_tool] past the connectivity probe. *)
Definition run_tool (tool_call location : pyval) (nlu_result : option NluResult)
           (info : user_info) : M ToolResult :=
  tool_name <- lift (py_get tool_call "name" PNone) ;;
  args <- lift (py_get tool_call "arguments" (PDict [])) ;;
  try_except (dispatch tool_name args location nlu_result info)
             any_exception
             (fun e => ret (tool_error ("Tool execution failed: " ++ exn_msg e))).

Definition _execute_tool (tool_call location : pyval) (nlu_result : option NluResult)
           (info : user_info) : M ToolResult :=
  emit (EvExecute tool_call) ;;;
  connected <- probe_once ;;
  if negb connected then ret (tool_error err_no_connection)
  else run_tool tool_call location nlu_result info.


(* ===================================================================== *)
(** ** The dialogue session: [VoiceAgent.process_message] *)
(* ===================================================================== *)

(** What [process_message] returns: [{response, tool_result}] on the normal
    path, [{response, error}] from the outer exception handler. *)
Inductive Reply : Type :=
| Replied (response : string) (tool_result : option ToolResult)
| Failed (response : string) (error : string).

(** Steps 1-2: the NLU call is wrapped in [try/except Exception]. *)
Definition nlu_of (message : string) : option NluResult :=
  match parse_message env message with
  | Ok n => Some n
  | Raise _ => None
  end.

Definition absorb_nlu (nlu_result : option NluResult) (c : Context) : Context :=
  match nlu_result with
  | Some n =>
      let c1 := if truthy_str (nlu_specialty n) then set_specialty (nlu_specialty n) c else c in
      match nlu_dateRange n with
      | Some date_range => set_preferred_time (Some date_range) c1
      | None => c1
      end
  | None => c
  end.

(** Step 3 *)
Definition absorb_user_info (info : user_info) (c : Context) : Context :=
  let c1 := if truthy_str (ui_name info) then set_user_name (ui_name info) c else c in
  let c2 := if truthy_str (ui_email info) then set_user_email (ui_email info) c1 else c1 in
  let c3 := if truthy_str (ui_symptoms info) then set_symptoms (ui_symptoms info) c2 else c2 in
  if truthy_str (ui_reason info) then set_reason (ui_reason info) c3 else c3.

(** Step 4: the doctor matcher. *)
Definition select_doctor (message : string) (c : Context) : Context :=
  match last_search_results c with
  | Some ((_ :: _) as doctors) =>
      let matched_doctor_id := _match_doctor_name message doctors in
      if truthy_str matched_doctor_id then set_selected_doctor_id matched_doctor_id c else c
  | _ => c
  end.

(** The slot the utterance designates among [slots], with its number. *)
Definition chosen_slot (message : string) (slots : list Slot) : option (nat * TimeRange) :=
  match _parse_slot_selection message with
  | Some slot_number =>
      if (1 <=? slot_number) && (slot_number <=? List.length slots) then
        match nth_error slots (slot_number - 1) with
        | Some selected_slot =>
            Some (slot_number,
                  MkRange (get_default (s_start selected_slot) "")
                          (get_default (s_end selected_slot) ""))
        | None => None
        end
      else None
  | None => None
  end.

(** Step 5 *)
Definition select_slot (message : string) (c : Context) : Context :=
  match available_slots c with
  | Some ((_ :: _) as slots) =>
      match chosen_slot message slots with
      | Some (_, range) => set_preferred_time (Some range) c
      | None => c
      end
  | _ => c
  end.

(** Steps 1-5 on the context. *)
Definition absorb (message : string) (c : Context) : Context :=
  select_slot message
    (select_doctor message
       (absorb_user_info (_extract_user_info message)
          (absorb_nlu (nlu_of message) c))).

Definition already_given_phrases : list string :=
  ["i gave"; "i told"; "already told"; "i said"; "you have"].

Definition confirming_phrases : list string :=
  ["yes"; "book"; "schedule"; "confirm"; "proceed"; "ok"; "okay"; "go ahead"; "do it";
   "book the appointment"].

(** [any(phrase in lower_message for phrase in phrases)] *)
Definition any_phrase (phrases : list string) (lower_message : string) : bool :=
  existsb (fun phrase => contains phrase lower_message) phrases.

Definition search_call (specialty : option string) : pyval :=
  PDict [("name", PStr "search_doctors");
         ("arguments", PDict [("specialty", of_opt_str specialty)])].

(** The tool call both auto-booking paths build from the context. *)
Definition booking_call (start_utc : string) (c : Context) : pyval :=
  PDict [("name", PStr "schedule_appointment");
         ("arguments",
          PDict [("doctorId", of_opt_str (selected_doctor_id c));
                 ("startUtc", PStr start_utc);
                 ("user", PDict [("name", of_opt_str (user_name c));
                                 ("email", of_opt_str (user_email c))]);
                 ("reason", of_opt_str (reason c));
                 ("symptoms", context_symptoms c)])].

(** Lines 186-194: a search_doctors call without a specialty gets the one the
    NLU extracted.  [args["specialty"] = ...] updates the dict inside
    [tool_call] only when the key "arguments" is present; otherwise [args] is
    a fresh dict and [tool_call] is unchanged. *)
Definition enhance_tool_call (tool_call : pyval) (nlu_result : option NluResult) : res pyval :=
  match py_get tool_call "arguments" (PDict []), py_get tool_call "name" PNone with
  | Ok args, Ok name =>
      if is_str name "search_doctors" then
        match as_dict args with
        | Ok d =>
            if negb (truthy (dict_get d "specialty" PNone)) then
              match nlu_result, tool_call with
              | Some n, PDict tc =>
                  if truthy_str (nlu_specialty n) then
                    match lookup "arguments" tc with
                    | Some _ =>
                        Ok (PDict (dict_set tc "arguments"
                                     (PDict (dict_set d "specialty"
                                               (of_opt_str (nlu_specialty n))))))
                    | None => Ok tool_call
                    end
                  else Ok tool_call
              | _, _ => Ok tool_call
              end
            else Ok tool_call
        | Raise e => Raise e
        end
      else Ok tool_call
  | Raise e, _ => Raise e
  | _, Raise e => Raise e
  end.

(** Lines 185-208: a decoded reply with a ["tool"] key. *)
Definition run_tool_call (parsed : pydict) (tool_call : pyval) (assistant_message : string)
           (location : pyval) (nlu_result : option NluResult) (info : user_info)
  : M (string * option ToolResult) :=
  tool_call' <- lift (enhance_tool_call tool_call nlu_result) ;;
  tool_result <- _execute_tool tool_call' location nlu_result info ;;
  let reply := py_str (dict_get parsed "response" (PStr assistant_message)) in
  if truthy_str (t_error tool_result)
  then ret (reply ++ nl ++ nl ++ "Error: " ++ str_of_opt (t_error tool_result),
            Some tool_result)
  else ret (reply ++ nl ++ nl ++ get_default (t_summary tool_result) "", Some tool_result).

(** Lines 210-243: the handler of [except (json.JSONDecodeError, KeyError)]. *)
Definition implicit_search (message assistant_message : string) (location : pyval)
           (nlu_result : option NluResult) (info : user_info)
  : M (string * option ToolResult) :=
  ctx <- get_context ;;
  let context_specialty := specialty ctx in
  let specialty :=
    match nlu_result with
    | Some (MkNlu (Some "search_doctors") nlu_spec _) => nlu_spec
    | _ => if truthy_str context_specialty then context_specialty else None
    end in
  let lower_message := lower message in
  if (truthy_str specialty || truthy_str context_specialty) && truthy location then
    if any_phrase already_given_phrases lower_message then
      let specialty' := or_str specialty context_specialty in
      tool_result <- _execute_tool (search_call specialty') location nlu_result info ;;
      if negb (truthy_str (t_error tool_result))
      then ret (assistant_message ++ nl ++ nl ++ get_default (t_summary tool_result) "",
                Some tool_result)
      else ret (assistant_message, Some tool_result)
    else ret (assistant_message, None)
  else if truthy_str specialty && truthy location then
    tool_result <- _execute_tool (search_call specialty) location nlu_result info ;;
    if negb (truthy_str (t_error tool_result))
    then ret (assistant_message ++ nl ++ nl ++ get_default (t_summary tool_result) "",
              Some tool_result)
    else ret (assistant_message, Some tool_result)
  else ret (assistant_message, None).

(** [if "{" in assistant_message and "}" in assistant_message] *)
Definition has_braces (assistant_message : string) : bool :=
  contains "{" assistant_message && contains "}" assistant_message.

(** [json_str]: from the first opening brace to the last closing brace. *)
Definition json_span (assistant_message : string) : string :=
  let start := match find_char "{" assistant_message with Some i => i | None => 0 end in
  let stop := match rfind_char "}" assistant_message with Some i => S i | None => 0 end in
  slice start stop assistant_message.

(** Lines 174-243: decode the reply, run the requested tool, or fall back to
    the implicit search in the exception handler. *)
Definition decide (message assistant_message : string) (location : pyval)
           (nlu_result : option NluResult) (info : user_info)
  : M (string * option ToolResult) :=
  try_except
    (if has_braces assistant_message then
       parsed <- lift (json_loads env (json_span assistant_message)) ;;
       match lookup "tool" parsed with
       | Some tool_call =>
           run_tool_call parsed tool_call assistant_message location nlu_result info
       | None => ret (assistant_message, None)
       end
     else ret (assistant_message, None))
    json_or_key_error
    (fun _ => implicit_search message assistant_message location nlu_result info).

(** Lines 245-290: slot-booking auto-fire. *)
Definition slot_autobook (message : string) (location : pyval)
           (nlu_result : option NluResult) (info : user_info)
           (st : string * option ToolResult) : M (string * option ToolResult) :=
  let '(assistant_message, tool_result) := st in
  ctx <- get_context ;;
  match available_slots ctx with
  | Some ((_ :: _) as slots) =>
      if truthy_str (selected_doctor_id ctx) && truthy_str (user_name ctx)
         && truthy_str (user_email ctx) && negb (is_some tool_result)
      then
        match chosen_slot message slots with
        | Some (slot_number, range) =>
            modify_context (set_preferred_time (Some range)) ;;;
            ctx' <- get_context ;;
            booking_result <-
              _execute_tool (booking_call (tr_start range) ctx') location nlu_result info ;;
            if negb (truthy_str (t_error booking_result)) then
              modify_context (set_available_slots None) ;;;
              ret ("Perfect! Booking slot " ++ of_nat slot_number ++ " for you." ++ nl ++ nl
                     ++ get_default (t_summary booking_result) "",
                   Some booking_result)
            else
              ret (assistant_message ++ nl ++ nl ++ "Error: "
                     ++ str_of_opt (t_error booking_result),
                   tool_result)
        | None => ret st
        end
      else ret st
  | _ => ret st
  end.

(** [should_book] of lines 302-305. *)
Definition should_book (message : string) (info : user_info) : bool :=
  any_phrase confirming_phrases (lower message) || truthy_str (ui_email info).

(** Lines 292-331: full-information auto-fire. *)
Definition full_autobook (message : string) (location : pyval)
           (nlu_result : option NluResult) (info : user_info)
           (st : string * option ToolResult) : M (string * option ToolResult) :=
  let '(assistant_message, tool_result) := st in
  ctx <- get_context ;;
  match preferred_time ctx with
  | Some preferred =>
      if truthy_str (selected_doctor_id ctx) && truthy_str (user_name ctx)
         && truthy_str (user_email ctx) && negb (is_some tool_result)
      then
        if should_book message info then
          booking_result <-
            _execute_tool (booking_call (tr_start preferred) ctx) location nlu_result info ;;
          if negb (truthy_str (t_error booking_result)) then
            ret (assistant_message ++ nl ++ nl ++ get_default (t_summary booking_result) "",
                 Some booking_result)
          else
            ret (assistant_message ++ nl ++ nl ++ "Error: "
                   ++ str_of_opt (t_error booking_result),
                 tool_result)
        else ret st
      else ret st
  | None => ret st
  end.

(** The body of the outer [try] (lines 152-342). *)
Definition turn_body (message : string) (location : pyval)
           (nlu_result : option NluResult) (info : user_info) : M Reply :=
  history <- get_history ;;
  assistant_message <- lift (ollama_chat env history) ;;
  st1 <- decide message assistant_message location nlu_result info ;;
  st2 <- slot_autobook message location nlu_result info st1 ;;
  st3 <- full_autobook message location nlu_result info st2 ;;
  append_turn (MkTurn assistant (fst st3)) ;;;
  ret (Replied (fst st3) (snd st3)).

(** [VoiceAgent.process_message] *)
Definition process_message (message : string) (location : pyval) : M Reply :=
  let nlu_result := nlu_of message in
  let info := _extract_user_info message in
  modify_context (absorb message) ;;;
  append_turn (MkTurn user message) ;;;
  try_except (turn_body message location nlu_result info)
             any_exception
             (fun e =>
                let error_msg := "Sorry, I encountered an error: " ++ exn_msg e in
                append_turn (MkTurn assistant error_msg) ;;;
                ret (Failed error_msg (exn_msg e))).

(** [VoiceAgent.reset_conversation] *)
Definition reset_conversation (self : Agent) : Agent :=
  MkAgent (_api_connection_tested self)
          (MkContext None None None None None None None None None)
          [MkTurn system "You are a helpful AI assistant for booking doctor appointments."]
          (trace self).

End Agent.
(** The system prompt of [__init__]; [dq] stands for the double-quote character. *)
Definition system_prompt : string :=
  String.concat PyStr.dq
    [ "You are a helpful AI assistant for booking doctor appointments. 
You can help users:
1. Search for doctors by specialty and location
2. Check doctor availability
3. Schedule appointments

IMPORTANT RULES:
- Always use the available tools (search_doctors, check_availability, schedule_appointment) to get real data
- Never make up doctor names, locations, or availability
- When the user provides information like email, name, or time preference, extract and use it immediately
- If the user mentions a specialty (like ";
      "cardiologist";
      ", ";
      "dentist";
      ", ";
      "cardiology";
      "), ALWAYS call search_doctors tool FIRST
- When searching, use the specialty as mentioned by the user (the system will normalize it)
- After showing search results, if the user selects a doctor AND you have their name, time, and email, IMMEDIATELY call schedule_appointment
- Don't ask for confirmation if you have all required information - just book it!
- Be conversational and helpful
- Keep responses concise for voice interaction
- When showing doctor search results, clearly list all doctors with their names, addresses, and IDs
- When booking, use the EXACT doctor ID from the search results, not the name

When you need to use a tool, respond with JSON in this format:
{
  ";
      "response";
      ": ";
      "Your conversational response to the user";
      ",
  ";
      "tool";
      ": {
    ";
      "name";
      ": ";
      "tool_name";
      ",
    ";
      "arguments";
      ": {...}
  }
}

If no tool is needed, just respond with:
{
  ";
      "response";
      ": ";
      "Your conversational response";
      "
}

EXAMPLES:
User: ";
      "I need a cardiologist";
      "
You: {";
      "response";
      ": ";
      "I'll search for cardiologists near you.";
      ", ";
      "tool";
      ": {";
      "name";
      ": ";
      "search_doctors";
      ", ";
      "arguments";
      ": {";
      "specialty";
      ": ";
      "cardiologist";
      "}}}

User: ";
      "book for Dr Leila Benali";
      " (after search results shown, and you have name, time from context)
You: {";
      "response";
      ": ";
      "I'll book your appointment with Dr. Leila Benali for tomorrow at 9:00 AM. What's your email address?";
      ", ";
      "tool";
      ": null}

User: ";
      "my email is ahmed@example.com";
      " (after you have doctor ID, name, time)
You: {";
      "response";
      ": ";
      "Perfect! Booking your appointment now.";
      ", ";
      "tool";
      ": {";
      "name";
      ": ";
      "schedule_appointment";
      ", ";
      "arguments";
      ": {";
      "doctorId";
      ": ";
      "cmi3rnrxr0003c1wf56celpxw";
      ", ";
      "startUtc";
      ": ";
      "2024-01-15T09:00:00Z";
      ", ";
      "user";
      ": {";
      "name";
      ": ";
      "Ahmed";
      ", ";
      "email";
      ": ";
      "ahmed@example.com";
      "}}}}

User: ";
      "can you book an appointment to me tomorrow 9:00 a.m. for cardiologist my name is Ahmed and I feel some sharp pain in my heart";
      "
You: {";
      "response";
      ": ";
      "I'll search for cardiologists near you, Ahmed. Then we can book your appointment for tomorrow at 9 AM.";
      ", ";
      "tool";
      ": {";
      "name";
      ": ";
      "search_doctors";
      ", ";
      "arguments";
      ": {";
      "specialty";
      ": ";
      "cardiologist";
      "}}}" ].

(** [VoiceAgent.__init__] *)
Definition __init__ : Agent :=
  MkAgent false
          (MkContext None None None None None None None None None)
          [MkTurn system system_prompt]
          [].

(* ===================================================================== *)
(** ** Observations on a run *)
(* ===================================================================== *)

(** The name of a tool call, [PNone] when it has none. *)
Definition tool_name_of (tool_call : pyval) : pyval :=
  match tool_call with
  | PDict d => dict_get d "name" PNone
  | _ => PNone
  end.

Definition is_execute (ev : Event) : bool :=
  match ev with EvExecute _ => true | _ => false end.

Definition is_probe (ev : Event) : bool :=
  match ev with EvProbe => true | _ => false end.

(** Events that invoke schedule_appointment: an entry into the executor with
    that tool name, or the backend request itself. *)
Definition is_schedule_event (ev : Event) : bool :=
  match ev with
  | EvExecute tool_call => is_str (tool_name_of tool_call) "schedule_appointment"
  | EvSchedule _ => true
  | _ => false
  end.

(** The tool call the language model's reply carries, if it decodes to one. *)
Definition requested_tool (env : Env) (assistant_message : string) : option pyval :=
  if has_braces assistant_message then
    match json_loads env (json_span assistant_message) with
    | Ok parsed => lookup "tool" parsed
    | Raise _ => None
    end
  else None.

(** The agent at the point where [process_message] calls the language model. *)
Definition at_chat (env : Env) (message : string) (self : Agent) : Agent :=
  MkAgent (_api_connection_tested self) (absorb env message (context self))
          (conversation_history self ++ [MkTurn user message]) (trace self).

(** The turn up to line 290, just before the full-information auto-fire. *)
Definition before_full_autobook (env : Env) (message : string) (location : pyval)
  : M (string * option ToolResult) :=
  let nlu_result := nlu_of env message in
  let info := Extract._extract_user_info message in
  history <- get_history ;;
  assistant_message <- lift (ollama_chat env history) ;;
  st1 <- decide env message assistant_message location nlu_result info ;;
  slot_autobook env message location nlu_result info st1.

(** What a transport adapter does with an agent. *)
Inductive Op : Type :=
| OpMessage (message : string) (location : pyval)
| OpReset
| OpTool (tool_call location : pyval) (nlu_result : option NluResult)
         (info : Extract.user_info).

Definition step (env : Env) (op : Op) (self : Agent) : Agent :=
  match op with
  | OpMessage message location => fst (process_message env message location self)
  | OpReset => reset_conversation self
  | OpTool tool_call location nlu_result info =>
      fst (_execute_tool env tool_call location nlu_result info self)
  end.

Definition run (env : Env) (ops : list Op) (self : Agent) : Agent :=
  fold_left (fun a op => step env op a) ops self.

(* ===================================================================== *)
(** ** Concrete collaborators and sessions, for the examples *)
(* ===================================================================== *)

Module Demo.
Import PyStr.

Definition decode_error : exn := Exn JSONDecodeError "Expecting value: line 1 column 1 (char 0)".

(** Collaborators that answer every request the same way. *)
Definition env_of (nlu : res NluResult) (llm : res string) (connected : bool)
           (booking : res ScheduleResult) (json : string -> res pydict) : Env :=
  MkEnv (fun _ => nlu) connected
        (fun _ _ _ _ => Ok (MkSearch (Some [])))
        (fun _ _ _ _ => Ok (MkAvail (Some [])))
        (fun _ => booking)
        (fun _ => Ok (MkGeo None))
        (fun _ => llm)
        json
        (fun _ => "<repr>")
        (fun _ => "<float>")
        (fun _ => Raise (Exn OtherError "Invalid isoformat string"))
        (fun _ _ => Raise (Exn OtherError "Invalid isoformat string")).

Definition no_json : string -> res pydict := fun _ => Raise decode_error.

Definition here : pyval := PDict [("lat", PFloat (36 # 1)); ("lng", PFloat (3 # 1))].

Definition booked : ScheduleResult := MkSched (Some "apt_1") None.

Definition amina_said : Extract.Doctor :=
  Extract.MkDoctor (Some "d1") (Some "Dr. Amina Said") (Some "cardiology") None None None.
Definition leila_noor : Extract.Doctor :=
  Extract.MkDoctor (Some "d2") (Some "Dr. Leila Noor") (Some "cardiology") None None None.

Definition morning : Slot := MkSlot (Some "2024-01-15T09:00:00Z") (Some "2024-01-15T09:30:00Z").

(** A session in which doctor, name, time and email are all known. *)
Definition full_context : Context :=
  MkContext (Some "cardiology") (Some "Ahmed") (Some "ahmed@example.com")
            (Some (MkRange "2024-01-15T09:00:00Z" "2024-01-15T09:30:00Z"))
            (Some [amina_said; leila_noor]) (Some "d1") None None None.

Definition full_agent : Agent :=
  MkAgent true full_context [MkTurn system system_prompt] [].

(** The same session with slots fetched for the selected doctor [d1]. *)
Definition slotted_context : Context :=
  MkContext (Some "cardiology") (Some "Ahmed") (Some "ahmed@example.com")
            (Some (MkRange "2024-01-15T09:00:00Z" "2024-01-15T09:30:00Z"))
            (Some [amina_said; leila_noor]) (Some "d1") None None (Some [morning]).

Definition quiet_env : Env :=
  env_of (Raise decode_error) (Ok "Sure.") true (Ok booked) no_json.

(** A language-model reply that asks for schedule_appointment. *)
Definition booking_reply : string :=
  "{" ++ dq ++ "response" ++ dq ++ ": " ++ dq ++ "Booking now." ++ dq ++ ", "
      ++ dq ++ "tool" ++ dq ++ ": {" ++ dq ++ "name" ++ dq ++ ": "
      ++ dq ++ "schedule_appointment" ++ dq ++ ", " ++ dq ++ "arguments" ++ dq ++ ": {}}}".

(** [json.loads] at [booking_reply]; any other text is taken not to decode. *)
Definition json_booking (s : string) : res pydict :=
  if String.eqb s booking_reply then
    Ok [("response", PStr "Booking now.");
        ("tool", PDict [("name", PStr "schedule_appointment"); ("arguments", PDict [])])]
  else Raise decode_error.

End Demo.

(* ===================================================================== *)
(** ** Relations between the agent before and after a computation *)
(* ===================================================================== *)

(** [m] takes every agent to an [R]-related agent, whether it returns or raises. *)
Definition respects (R : Agent -> Agent -> Prop) {A} (m : M A) : Prop :=
  forall s, R s (fst (m s)).

(** The events selected by [p] are the same before and after. *)
Definition same_on (p : Event -> bool) (s s' : Agent) : Prop :=
  filter p (trace s') = filter p (trace s).

(** Once the connectivity flag is set it stays set and no probe is sent. *)
Definition probe_settled (s s' : Agent) : Prop :=
  _api_connection_tested s = true ->
  _api_connection_tested s' = true
  /\ filter is_probe (trace s') = filter is_probe (trace s).

(** How many times the executor was entered. *)
Definition executions (s : Agent) : nat := List.length (filter is_execute (trace s)).

(** The executor was entered at least as often after as before. *)
Definition grows (s s' : Agent) : Prop := executions s <= executions s'.

(** The agent once [_execute_tool] has been entered with [tool_call] and the
    connectivity probe is behind it. *)
Definition entered (tool_call : pyval) (self : Agent) : Agent :=
  MkAgent true (context self) (conversation_history self)
          (trace self ++ EvExecute tool_call
             :: (if _api_connection_tested self then [] else [EvProbe]))%list.

(** The exception handler of [_execute_tool]. *)
Definition tool_failed (e : exn) : M ToolResult :=
  ret (tool_error ("Tool execution failed: " ++ exn_msg e)).

(* ===================================================================== *)
(** ** Further observations, used by the properties below *)
(* ===================================================================== *)

(** [name_without_prefix] of [_match_doctor_name], for a lower-cased name. *)
Definition name_without_prefix (doctor_name : string) : string :=
  Re.sub (Re.seq [Re.RBol; Re.lit true "dr"; Re.opt (Re.chr true "."); Re.star Re.ws])
         "" doctor_name.

(** The time range a slot stands for once chosen. *)
Definition slot_range (slot : Slot) : TimeRange :=
  MkRange (Extract.get_default (s_start slot) "") (Extract.get_default (s_end slot) "").



(** [m], when it returns, returns a value satisfying [P]. *)
Definition returns {A} (P : A -> Prop) (m : M A) : Prop :=
  forall s s' a, m s = (s', Ok a) -> P a.

(** [m], when it raises, raises an exception satisfying [P]. *)
Definition raises {A} (P : exn -> Prop) (m : M A) : Prop :=
  forall s s' e, m s = (s', Raise e) -> P e.

(** The two shapes of a tool result. *)
Definition is_error_result (r : ToolResult) : Prop :=
  exists msg, r = tool_error msg /\ PyStr.nonempty msg = true.

Definition is_success_result (tool : string) (r : ToolResult) : Prop :=
  exists payload summary, r = tool_ok tool payload summary.

(** The context fields the executor never writes, and the history. *)
Definition same_profile (s s' : Agent) : Prop :=
  specialty (context s') = specialty (context s)
  /\ user_name (context s') = user_name (context s)
  /\ user_email (context s') = user_email (context s)
  /\ preferred_time (context s') = preferred_time (context s)
  /\ selected_doctor_id (context s') = selected_doctor_id (context s)
  /\ symptoms (context s') = symptoms (context s)
  /\ reason (context s') = reason (context s)
  /\ conversation_history s' = conversation_history s.

(** Context and history are both untouched. *)
Definition same_session (s s' : Agent) : Prop :=
  context s' = context s /\ conversation_history s' = conversation_history s.

(** The history is untouched. *)
Definition same_history (s s' : Agent) : Prop :=
  conversation_history s' = conversation_history s.


(** [available_slots] is never left as an empty list. *)
Definition slots_not_empty (s : Agent) : Prop := available_slots (context s) <> Some [].
Definition keeps_slots_not_empty (s s' : Agent) : Prop :=
  slots_not_empty s -> slots_not_empty s'.

(** The turn up to the point where the assistant turn is appended. *)
Definition turn_prefix (env : Env) (message : string) (location : pyval)
           (nlu_result : option NluResult) (info : Extract.user_info)
  : M (string * option ToolResult) :=
  history <- get_history ;;
  assistant_message <- lift (ollama_chat env history) ;;
  st1 <- decide env message assistant_message location nlu_result info ;;
  st2 <- slot_autobook env message location nlu_result info st1 ;;
  full_autobook env message location nlu_result info st2.

(** The specialty a search_doctors call ends up with: the argument, else the
    one the NLU extracted. *)
Definition search_specialty (d : pydict) (nlu_result : option NluResult) : pyval :=
  match nlu_result with
  | Some n =>
      if negb (truthy (dict_get d "specialty" PNone)) then of_opt_str (nlu_specialty n)
      else dict_get d "specialty" PNone
  | None => dict_get d "specialty" PNone
  end.

(** [near = args.get("near") or location] *)
Definition search_near (d : pydict) (location : pyval) : pyval :=
  py_or (dict_get d "near" PNone) location.

(** The agent after a backend request [ev] was sent from inside the executor. *)
Definition requested (ev : Event) (tool_call : pyval) (self : Agent) : Agent :=
  MkAgent true (context self) (conversation_history self)
          (trace (entered tool_call self) ++ [ev]).

(** The same, with the context updated by [f]. *)
Definition updated (f : Context -> Context) (self : Agent) : Agent :=
  MkAgent (_api_connection_tested self) (f (context self)) (conversation_history self)
          (trace self).

(** [slots] as [check_availability] stores them: an empty list is stored as
    [None]. *)
Definition stored_slots (slots : list Slot) : option (list Slot) :=
  match slots with
  | [] => None
  | _ => Some slots
  end.

(** Collaborators like [Demo.quiet_env], with a working calendar: the day after
    is always the 16th, and the backend offers one slot. *)
Definition day_env : Env :=
  MkEnv (fun _ => Raise Demo.decode_error) true
        (fun _ _ _ _ => Ok (MkSearch (Some [Demo.amina_said; Demo.leila_noor])))
        (fun _ _ _ _ => Ok (MkAvail (Some [Demo.morning])))
        (fun _ => Ok Demo.booked)
        (fun _ => Ok (MkGeo (Some "Algiers, Algeria")))
        (fun _ => Ok "Sure.")
        Demo.no_json
        (fun _ => "<repr>")
        (fun _ => "<float>")
        (fun _ => Ok "2024-01-16T09:00:00Z")
        (fun _ _ => Raise (Exn OtherError "Invalid isoformat string")).

(** A session as a transport adapter drives it: a sequence of operations,
    each with the collaborators as they answer at that moment. *)
Definition run_session (steps : list (Env * Op)) (self : Agent) : Agent :=
  fold_left (fun a eo => step (fst eo) (snd eo) a) steps self.

(** User and assistant turns, strictly alternating, the user first. *)
Fixpoint alternates (turns : list Turn) : bool :=
  match turns with
  | [] => true
  | first :: rest =>
      match rest with
      | [] => false
      | second :: rest' =>
          match role first, role second with
          | user, assistant => alternates rest'
          | _, _ => false
          end
      end
  end.

(** A history the language model can be called with: one system turn, then
    complete exchanges. *)
Definition dialogue_shaped (history : list Turn) : bool :=
  match history with
  | MkTurn system _ :: turns => alternates turns
  | _ => false
  end.

(* ===================================================================== *)
(** ** [mcp_client.MCPClient]: the body of a booking request *)
(* ===================================================================== *)

Module MCPClient.

(** [if value: payload[key] = value] *)
Definition optional (key : string) (value : pyval) : pydict :=
  if truthy value then [(key, value)] else [].

(** The [payload] that [MCPClient.schedule_appointment] posts to
    [/appointments/schedule], keys in insertion order. *)
Definition schedule_appointment_payload (call : ScheduleArgs) : pydict :=
  ([("doctorId", sa_doctor_id call);
    ("startUtc", sa_start_utc call);
    ("user", PDict (sa_user call))]
     ++ optional "endUtc" (sa_end_utc call)
     ++ optional "durationMinutes" (sa_duration_minutes call)
     ++ optional "reason" (sa_reason call)
     ++ optional "notes" (sa_notes call)
     ++ optional "symptoms" (sa_symptoms call))%list.

End MCPClient.

(** A booking request names a doctor, a start time, and a user with a name
    and an e-mail address. *)
Definition complete_request (call : ScheduleArgs) : bool :=
  truthy (sa_doctor_id call) && truthy (sa_start_utc call)
  && truthy (dict_get (sa_user call) "name" PNone)
  && truthy (dict_get (sa_user call) "email" PNone).

(** No entry of a JSON body is [null], empty or zero. *)
Definition no_empty_entry (body : pydict) : bool :=
  forallb (fun entry => truthy (snd entry)) body.

Definition booking_is_sound (ev : Event) : bool :=
  match ev with
  | EvSchedule call =>
      complete_request call && no_empty_entry (MCPClient.schedule_appointment_payload call)
  | _ => true
  end.

Definition keeps_bookings_sound (s s' : Agent) : Prop :=
  forallb booking_is_sound (trace s) = true -> forallb booking_is_sound (trace s') = true.

(* ===================================================================== *)
(** ** [server.py]: the HTTP chat endpoint *)
(* ===================================================================== *)

Module Server.













End Server.

(* ===================================================================== *)
(** ** Properties: reset and initial state *)
(* ===================================================================== *)

Lemma reset_conversation_context (self : Agent) :
  context (reset_conversation self) = context __init__.
Proof. reflexivity. Qed.

Lemma reset_conversation_idempotent (self : Agent) :
  reset_conversation (reset_conversation self) = reset_conversation self.
Proof. reflexivity. Qed.

Lemma system_prompt_length : String.length system_prompt = 2537.
Proof. vm_compute. reflexivity. Qed.

(** C4. After [reset_conversation], whatever the earlier turns, the context
    is the initial all-empty one and the history is a single system turn; but
    that turn is not the one supplied by [__init__]: its content is only the
    first sentence of the initial system prompt, so the history after a reset
    differs from the initial history. *)
Theorem reset_conversation_system_turn_differs :
  forall self : Agent,
    context (reset_conversation self) = context __init__
    /\ conversation_history (reset_conversation self)
       = [MkTurn system "You are a helpful AI assistant for booking doctor appointments."]
    /\ conversation_history (reset_conversation self) <> conversation_history __init__.
Proof.
  intros self. split; [reflexivity | split; [reflexivity | ]].
  intros H. simpl in H.
  assert (L : String.length "You are a helpful AI assistant for booking doctor appointments."
              = String.length system_prompt) by (injection H as ->; reflexivity).
  rewrite system_prompt_length in L. vm_compute in L. discriminate L.
Qed.

(* ===================================================================== *)
(** ** Properties: entity extraction *)
(* ===================================================================== *)

Module ExtractFacts.
Import Extract.

Example name_capitalised :
  ui_name (_extract_user_info "my name is Ahmed Benali.") = Some "Ahmed Benali".
Proof. vm_compute. reflexivity. Qed.

Example name_priority_order :
  ui_name (_extract_user_info "call me Sam, my name is Samuel") = Some "Samuel".
Proof. vm_compute. reflexivity. Qed.

Example name_absent : ui_name (_extract_user_info "book a dentist for 9:00") = None.
Proof. vm_compute. reflexivity. Qed.

(** With the character classes read as written (no case folding) a
    lower-case word is not a name. *)
Example name_patterns_as_written :
  first_match (name_patterns false) "my name is ahmed" = None.
Proof. vm_compute. reflexivity. Qed.

Example name_from_ordinary_words :
  ui_name (_extract_user_info "I'm looking for a dentist") = Some "looking for".
Proof. vm_compute. reflexivity. Qed.

(** C9. Under [re.IGNORECASE] the classes [[A-Z]] and [[a-z]] of the name
    patterns match letters of either case, so the extractor returns a name
    for words that are not capitalised: on "my name is ahmed" the name is
    "ahmed", where the claim has it absent. *)
Theorem extract_name_ignores_capitalisation :
  ui_name (_extract_user_info "my name is ahmed") = Some "ahmed".
Proof. vm_compute. reflexivity. Qed.

End ExtractFacts.

(* ===================================================================== *)
(** ** Reasoning about computations in [M] *)
(* ===================================================================== *)

Section Respects.
Context (R : Agent -> Agent -> Prop) (R_refl : forall s, R s s)
        (R_trans : forall a b c, R a b -> R b c -> R a c).

Lemma respects_ret {A} (a : A) : respects R (ret a).
Proof. intros s. apply R_refl. Qed.

Lemma respects_raise {A} (e : exn) : respects R (@raise A e).
Proof. intros s. apply R_refl. Qed.

Lemma respects_lift {A} (r : res A) : respects R (lift r).
Proof. intros s. apply R_refl. Qed.

Lemma respects_get_context : respects R get_context.
Proof. intros s. apply R_refl. Qed.

Lemma respects_get_history : respects R get_history.
Proof. intros s. apply R_refl. Qed.

Lemma respects_bind {A B} (m : M A) (f : A -> M B) :
  respects R m -> (forall a, respects R (f a)) -> respects R (bind m f).
Proof.
  intros Hm Hf s. unfold bind. specialize (Hm s).
  destruct (m s) as [s1 [a | e]]; simpl in *.
  - eapply R_trans; [exact Hm | apply Hf].
  - exact Hm.
Qed.

Lemma respects_bind_lift {A B} (r : res A) (f : A -> M B) :
  (forall a, r = Ok a -> respects R (f a)) -> respects R (bind (lift r) f).
Proof.
  intros Hf s. unfold bind, lift. destruct r as [a | e]; simpl.
  - apply Hf. reflexivity.
  - apply R_refl.
Qed.

Lemma respects_try_except {A} (body : M A) caught (handler : exn -> M A) :
  respects R body -> (forall e, respects R (handler e)) ->
  respects R (try_except body caught handler).
Proof.
  intros Hm Hh s. unfold try_except. specialize (Hm s).
  destruct (body s) as [s1 [a | e]]; simpl in *.
  - exact Hm.
  - destruct (caught (exn_kind_of e)); simpl.
    + eapply R_trans; [exact Hm | apply Hh].
    + exact Hm.
Qed.

Lemma respects_try_except_at {A} (body : M A) caught (handler : exn -> M A) s :
  R s (fst (body s)) -> (forall e, respects R (handler e)) ->
  R s (fst (try_except body caught handler s)).
Proof.
  intros Hm Hh. unfold try_except.
  destruct (body s) as [s1 [a | e]]; simpl in *.
  - exact Hm.
  - destruct (caught (exn_kind_of e)); simpl.
    + eapply R_trans; [exact Hm | apply Hh].
    + exact Hm.
Qed.

End Respects.

(** One step of a syntax-directed proof of [respects R m]: [leaf] closes the
    goals for the primitive state changes, which depend on [R]. *)
Ltac respects_step refl trans leaf :=
  lazymatch goal with
  | |- respects _ (bind _ _) => apply (respects_bind _ trans); [ | intros ]
  | |- respects _ (try_except _ _ _) => apply (respects_try_except _ trans); [ | intros ]
  | |- respects _ (ret _) => apply (respects_ret _ refl)
  | |- respects _ (raise _) => apply (respects_raise _ refl)
  | |- respects _ (lift _) => apply (respects_lift _ refl)
  | |- respects _ get_context => apply (respects_get_context _ refl)
  | |- respects _ get_history => apply (respects_get_history _ refl)
  | |- respects _ (if ?b then _ else _) => destruct b
  | |- respects _ (match ?x with _ => _ end) => destruct x
  | |- respects _ _ => leaf
  end.

Ltac respects_auto refl trans leaf :=
  cbv zeta; repeat (respects_step refl trans leaf; cbv zeta).

(** Running a computation: the shapes a result can take. *)
Lemma bind_ok {A B} (m : M A) (f : A -> M B) s s1 a :
  m s = (s1, Ok a) -> bind m f s = f a s1.
Proof. intros H. unfold bind. rewrite H. reflexivity. Qed.

Lemma bind_raise {A B} (m : M A) (f : A -> M B) s s1 e :
  m s = (s1, Raise e) -> bind m f s = (s1, Raise e).
Proof. intros H. unfold bind. rewrite H. reflexivity. Qed.

(** A [try] whose handler catches everything and returns, returns. *)
Lemma try_except_all_returns {A} (body : M A) (handler : exn -> M A) :
  (forall e s, exists s' a, handler e s = (s', Ok a)) ->
  forall s, exists s' a, try_except body any_exception handler s = (s', Ok a).
Proof.
  intros Hh s. unfold try_except.
  destruct (body s) as [s1 [a | e]].
  - eauto.
  - simpl. apply Hh.
Qed.

(* ===================================================================== *)
(** ** Properties: failures of a turn *)
(* ===================================================================== *)

Lemma process_message_unfold env message location self :
  process_message env message location self
  = try_except (turn_body env message location (nlu_of env message)
                          (Extract._extract_user_info message))
               any_exception
               (fun e =>
                  append_turn (MkTurn assistant ("Sorry, I encountered an error: " ++ exn_msg e)) ;;;
                  ret (Failed ("Sorry, I encountered an error: " ++ exn_msg e) (exn_msg e)))
               (at_chat env message self).
Proof. reflexivity. Qed.



(* ===================================================================== *)
(** ** Properties: the schedule_appointment branch of the executor *)
(* ===================================================================== *)

Section ScheduleBranch.
Variable env : Env.
Variables (tc d : pydict) (location : pyval) (nlu_result : option NluResult)
          (info : Extract.user_info) (self : Agent).

Hypothesis tool_is_schedule : dict_get tc "name" PNone = PStr "schedule_appointment".
Hypothesis arguments_are : dict_get tc "arguments" (PDict []) = PDict d.
Hypothesis probe_passes : _api_connection_tested self = true \/ test_connection env = true.

(** Past the probe, the executor runs the schedule branch under its [try]. *)
Lemma execute_tool_schedule :
  _execute_tool env (PDict tc) location nlu_result info self
  = try_except (exec_schedule_appointment env (PDict d) nlu_result info)
               any_exception tool_failed (entered (PDict tc) self).
Proof.
  unfold _execute_tool, run_tool, bind, emit, probe_once, entered. simpl.
  destruct (_api_connection_tested self) eqn:Hflag; simpl.
  - rewrite tool_is_schedule, arguments_are. reflexivity.
  - destruct probe_passes as [H | H]; [discriminate H | ]. rewrite H. simpl.
    rewrite tool_is_schedule, arguments_are. rewrite <- app_assoc. reflexivity.
Qed.

Variable usr : pydict.
Hypothesis user_resolved : resolve_user d info (context self) = Ok usr.

Let doctor_id := resolve_doctor_id d (context self).
Let start_utc := resolve_start_utc d nlu_result (context self).

(** The branch, once the user object is built: four checks, then the request. *)
Lemma exec_schedule_appointment_run :
  exec_schedule_appointment env (PDict d) nlu_result info (entered (PDict tc) self)
  = if negb (truthy doctor_id) then (entered (PDict tc) self, Ok (tool_error err_which_doctor))
    else if negb (truthy start_utc) then (entered (PDict tc) self, Ok (tool_error err_when))
    else if negb (truthy (dict_get usr "name" PNone))
    then (entered (PDict tc) self, Ok (tool_error err_name))
    else if negb (truthy (dict_get usr "email" PNone))
    then (entered (PDict tc) self, Ok (tool_error err_email))
    else
      let call :=
        MkSchedArgs doctor_id start_utc usr (dict_get d "endUtc" PNone)
                    (dict_get d "durationMinutes" (PInt 30))
                    (py_or (dict_get d "reason" PNone) (of_opt_str (reason (context self))))
                    (dict_get d "notes" PNone)
                    (py_or (dict_get d "symptoms" PNone) (context_symptoms (context self))) in
      let s1 := MkAgent true (context self) (conversation_history self)
                        (trace (entered (PDict tc) self) ++ [EvSchedule call]) in
      match schedule_appointment env call with
      | Ok result =>
          (s1, Ok (tool_ok "schedule_appointment" (PSched result) (schedule_summary result)))
      | Raise e => (s1, Raise e)
      end.
Proof.
  unfold exec_schedule_appointment, bind, lift, get_context, as_dict.
  cbv zeta. change (context (entered (PDict tc) self)) with (context self).
  rewrite user_resolved. fold doctor_id start_utc.
  destruct (negb (truthy doctor_id)); [reflexivity | ].
  destruct (negb (truthy start_utc)); [reflexivity | ].
  destruct (negb (truthy (dict_get usr "name" PNone))); [reflexivity | ].
  destruct (negb (truthy (dict_get usr "email" PNone))); [reflexivity | ].
  unfold emit, ret. simpl.
  destruct (schedule_appointment env _); reflexivity.
Qed.

End ScheduleBranch.

Lemma schedule_errors_distinct :
  NoDup [err_which_doctor; err_when; err_name; err_email].
Proof.
  repeat constructor; simpl; intuition discriminate.
Qed.

(** C5. In the schedule_appointment branch (the probe passed, the user
    object was built), the required fields are checked in the order doctor
    id, start time, user name, user email, and each missing field yields its
    own error; so when the doctor id is missing the result is the
    "which doctor" error whatever else is missing. The four messages are
    pairwise distinct. *)
Theorem schedule_appointment_checks_in_order :
  forall env tc d location nlu_result info self usr,
    dict_get tc "name" PNone = PStr "schedule_appointment" ->
    dict_get tc "arguments" (PDict []) = PDict d ->
    (_api_connection_tested self = true \/ test_connection env = true) ->
    resolve_user d info (context self) = Ok usr ->
    let doctor_id := resolve_doctor_id d (context self) in
    let start_utc := resolve_start_utc d nlu_result (context self) in
    let name := dict_get usr "name" PNone in
    let email := dict_get usr "email" PNone in
    let result := snd (_execute_tool env (PDict tc) location nlu_result info self) in
    (truthy doctor_id = false -> result = Ok (tool_error err_which_doctor))
    /\ (truthy doctor_id = true -> truthy start_utc = false ->
        result = Ok (tool_error err_when))
    /\ (truthy doctor_id = true -> truthy start_utc = true -> truthy name = false ->
        result = Ok (tool_error err_name))
    /\ (truthy doctor_id = true -> truthy start_utc = true -> truthy name = true ->
        truthy email = false -> result = Ok (tool_error err_email))
    /\ NoDup [err_which_doctor; err_when; err_name; err_email].
Proof.
  intros env tc d location nlu_result info self usr Hname Hargs Hprobe Husr.
  cbv zeta.
  rewrite (execute_tool_schedule env tc d location nlu_result info self Hname Hargs Hprobe).
  unfold try_except.
  rewrite (exec_schedule_appointment_run env tc d nlu_result info self usr Husr).
  repeat split.
  - intros ->. reflexivity.
  - intros -> ->. reflexivity.
  - intros -> -> ->. reflexivity.
  - intros -> -> -> ->. reflexivity.
  - apply schedule_errors_distinct.
Qed.

Lemma schedule_appointment_checks_in_order_witness :
  snd (_execute_tool (Demo.env_of (Raise Demo.decode_error) (Ok "Sure.") true
                                  (Ok Demo.booked) Demo.no_json)
                     (PDict [("name", PStr "schedule_appointment"); ("arguments", PDict [])])
                     PNone None (Extract.UserInfo None None None None) __init__)
  = Ok (tool_error err_which_doctor).
Proof.
  refine (proj1 (schedule_appointment_checks_in_order
                   (Demo.env_of (Raise Demo.decode_error) (Ok "Sure.") true
                                (Ok Demo.booked) Demo.no_json)
                   [("name", PStr "schedule_appointment"); ("arguments", PDict [])]
                   [] PNone None (Extract.UserInfo None None None None) __init__ []
                   _ _ _ _) _).
  - reflexivity.
  - reflexivity.
  - right. reflexivity.
  - reflexivity.
  - reflexivity.
Defined.



(* ===================================================================== *)
(** ** Properties: what steps 1-5 leave alone *)
(* ===================================================================== *)

Lemma absorb_nlu_frame nlu_result c :
  last_search_results (absorb_nlu nlu_result c) = last_search_results c
  /\ available_slots (absorb_nlu nlu_result c) = available_slots c
  /\ selected_doctor_id (absorb_nlu nlu_result c) = selected_doctor_id c.
Proof.
  unfold absorb_nlu. destruct nlu_result as [n | ]; [ | auto].
  destruct (truthy_str (nlu_specialty n)), (nlu_dateRange n); auto.
Qed.

Lemma absorb_user_info_frame info c :
  last_search_results (absorb_user_info info c) = last_search_results c
  /\ available_slots (absorb_user_info info c) = available_slots c
  /\ selected_doctor_id (absorb_user_info info c) = selected_doctor_id c.
Proof.
  unfold absorb_user_info.
  destruct (truthy_str (Extract.ui_name info)), (truthy_str (Extract.ui_email info)),
    (truthy_str (Extract.ui_symptoms info)), (truthy_str (Extract.ui_reason info)); auto.
Qed.

Lemma select_doctor_frame message c :
  available_slots (select_doctor message c) = available_slots c
  /\ last_search_results (select_doctor message c) = last_search_results c
  /\ preferred_time (select_doctor message c) = preferred_time c.
Proof.
  unfold select_doctor.
  destruct (last_search_results c) as [[ | doc doctors] | ] eqn:E; auto.
  destruct (truthy_str (Extract._match_doctor_name message (doc :: doctors))); simpl; auto.
Qed.

Lemma select_slot_frame message c :
  available_slots (select_slot message c) = available_slots c
  /\ selected_doctor_id (select_slot message c) = selected_doctor_id c.
Proof.
  unfold select_slot.
  destruct (available_slots c) as [[ | slot slots] | ] eqn:E; auto.
  destruct (chosen_slot message (slot :: slots)) as [[n range] | ]; auto.
Qed.

Lemma select_doctor_selects message c doctors id :
  last_search_results c = Some doctors ->
  Extract._match_doctor_name message doctors = Some id ->
  PyStr.nonempty id = true ->
  selected_doctor_id (select_doctor message c) = Some id.
Proof.
  intros Hl Hm Hid. unfold select_doctor. rewrite Hl.
  destruct doctors as [ | doc doctors]; [discriminate Hm | ].
  rewrite Hm. simpl. rewrite Hid. reflexivity.
Qed.

(** C8. When the doctor matcher finds a doctor of [last_search_results] in
    the utterance, step 4 overwrites [selected_doctor_id] with that doctor's
    id, also when another doctor was selected before, and [available_slots]
    is left as it was, by step 4 alone and by steps 1-5 together. *)
Theorem doctor_reselection_keeps_available_slots :
  forall env message c doctors id,
    last_search_results c = Some doctors ->
    Extract._match_doctor_name message doctors = Some id ->
    PyStr.nonempty id = true ->
    selected_doctor_id (select_doctor message c) = Some id
    /\ available_slots (select_doctor message c) = available_slots c
    /\ selected_doctor_id (absorb env message c) = Some id
    /\ available_slots (absorb env message c) = available_slots c.
Proof.
  intros env message c doctors id Hl Hm Hid.
  split; [eapply select_doctor_selects; eassumption | ].
  split; [apply select_doctor_frame | ].
  unfold absorb.
  set (c1 := absorb_nlu (nlu_of env message) c).
  set (c2 := absorb_user_info (Extract._extract_user_info message) c1).
  assert (Hl2 : last_search_results c2 = Some doctors).
  { unfold c2, c1.
    rewrite (proj1 (absorb_user_info_frame _ _)), (proj1 (absorb_nlu_frame _ _)). exact Hl. }
  assert (Ha2 : available_slots c2 = available_slots c).
  { unfold c2, c1.
    rewrite (proj1 (proj2 (absorb_user_info_frame _ _))),
      (proj1 (proj2 (absorb_nlu_frame _ _))). reflexivity. }
  split.
  - rewrite (proj2 (select_slot_frame _ _)).
    eapply select_doctor_selects; eassumption.
  - rewrite (proj1 (select_slot_frame _ _)), (proj1 (select_doctor_frame _ _)). exact Ha2.
Qed.

Lemma doctor_reselection_keeps_available_slots_witness :
  selected_doctor_id (select_doctor "what about Dr. Leila Noor" Demo.slotted_context) = Some "d2"
  /\ available_slots (select_doctor "what about Dr. Leila Noor" Demo.slotted_context)
     = Some [Demo.morning]
  /\ selected_doctor_id (absorb Demo.quiet_env "what about Dr. Leila Noor" Demo.slotted_context)
     = Some "d2"
  /\ available_slots (absorb Demo.quiet_env "what about Dr. Leila Noor" Demo.slotted_context)
     = Some [Demo.morning].
Proof.
  apply (doctor_reselection_keeps_available_slots
           Demo.quiet_env "what about Dr. Leila Noor" Demo.slotted_context
           [Demo.amina_said; Demo.leila_noor] "d2").
  - reflexivity.
  - vm_compute. reflexivity.
  - reflexivity.
Defined.

(** The stale slots survive a whole turn in which the other doctor is named. *)
Example stale_slots_after_turn :
  let self := MkAgent true Demo.slotted_context [] [] in
  let self' := fst (process_message Demo.quiet_env "what about Dr. Leila Noor" PNone self) in
  selected_doctor_id (context self') = Some "d2"
  /\ available_slots (context self') = Some [Demo.morning]
  /\ trace self' = [].
Proof. vm_compute. auto. Qed.

(* ===================================================================== *)
(** ** Properties: the connectivity probe is sent at most once *)
(* ===================================================================== *)

Lemma probe_settled_refl s : probe_settled s s.
Proof. intros H. auto. Qed.

Lemma probe_settled_trans a b c : probe_settled a b -> probe_settled b c -> probe_settled a c.
Proof.
  intros Hab Hbc Ha. destruct (Hab Ha) as [Hb E1]. destruct (Hbc Hb) as [Hc E2].
  split; [exact Hc | congruence].
Qed.

Lemma probe_settled_emit ev : is_probe ev = false -> respects probe_settled (emit ev).
Proof.
  intros Hev s Hs. simpl. split; [exact Hs | ].
  rewrite filter_app. simpl. rewrite Hev. apply app_nil_r.
Qed.

Lemma probe_settled_modify_context f : respects probe_settled (modify_context f).
Proof. intros s Hs. simpl. auto. Qed.

Lemma probe_settled_append_turn t : respects probe_settled (append_turn t).
Proof. intros s Hs. simpl. auto. Qed.

Lemma probe_settled_probe_once env : respects probe_settled (probe_once env).
Proof. intros s Hs. unfold probe_once. rewrite Hs. simpl. auto. Qed.

Ltac probe_leaf :=
  first [ apply probe_settled_emit; reflexivity
        | apply probe_settled_modify_context
        | apply probe_settled_append_turn
        | apply probe_settled_probe_once
        | assumption ].

Ltac probe_auto := respects_auto probe_settled_refl probe_settled_trans probe_leaf.

Lemma probe_settled_run_tool env tool_call location nlu_result info :
  respects probe_settled (run_tool env tool_call location nlu_result info).
Proof.
  unfold run_tool, dispatch, exec_search_doctors, exec_check_availability,
    exec_schedule_appointment, exec_geocode.
  probe_auto.
Qed.

Lemma probe_settled_execute_tool env tool_call location nlu_result info :
  respects probe_settled (_execute_tool env tool_call location nlu_result info).
Proof.
  unfold _execute_tool.
  pose proof (probe_settled_run_tool env tool_call location nlu_result info).
  probe_auto.
Qed.

Lemma probe_settled_process_message env message location :
  respects probe_settled (process_message env message location).
Proof.
  unfold process_message, turn_body, decide, run_tool_call, implicit_search,
    slot_autobook, full_autobook.
  pose proof (probe_settled_execute_tool env) as Hexec.
  respects_auto probe_settled_refl probe_settled_trans ltac:(first [apply Hexec | probe_leaf]).
Qed.

Lemma probe_settled_reset self : probe_settled self (reset_conversation self).
Proof. intros H. simpl. auto. Qed.

Lemma probe_settled_step env op self : probe_settled self (step env op self).
Proof.
  destruct op; simpl.
  - apply probe_settled_process_message.
  - apply probe_settled_reset.
  - apply probe_settled_execute_tool.
Qed.

Lemma probe_settled_run env ops : forall self, probe_settled self (run env ops self).
Proof.
  induction ops as [ | op ops IH]; intros self; simpl.
  - apply probe_settled_refl.
  - eapply probe_settled_trans; [apply probe_settled_step | apply IH].
Qed.

(** Whatever the probe answers, the first tool call sets the flag. *)
Lemma execute_tool_sets_flag env tool_call location nlu_result info self :
  _api_connection_tested (fst (_execute_tool env tool_call location nlu_result info self)) = true.
Proof.
  unfold _execute_tool, bind, emit, probe_once. simpl.
  destruct (_api_connection_tested self) eqn:Hflag; simpl.
  - apply (probe_settled_run_tool env tool_call location nlu_result info
             (MkAgent true (context self) (conversation_history self)
                      (trace self ++ [EvExecute tool_call]))).
    reflexivity.
  - destruct (test_connection env); simpl; [ | reflexivity].
    apply (probe_settled_run_tool env tool_call location nlu_result info
             (MkAgent true (context self) (conversation_history self)
                      ((trace self ++ [EvExecute tool_call]) ++ [EvProbe]))).
    reflexivity.
Qed.

(** C10. [reset_conversation] does not touch [_api_connection_tested].
    Hence, once any tool call has run (which sets the flag whatever the probe
    answered), a reset followed by any further turns, resets and tool calls,
    against any collaborators, leaves the flag set and sends no further health
    probe, although the context and the history were cleared. *)
Theorem reset_keeps_connection_tested :
  forall env env' tool_call location nlu_result info self ops,
    let used := fst (_execute_tool env tool_call location nlu_result info self) in
    let later := run env' ops (reset_conversation used) in
    _api_connection_tested (reset_conversation self) = _api_connection_tested self
    /\ _api_connection_tested (reset_conversation used) = true
    /\ context (reset_conversation used) = context __init__
    /\ _api_connection_tested later = true
    /\ filter is_probe (trace later) = filter is_probe (trace used).
Proof.
  intros env env' tool_call location nlu_result info self ops used later.
  assert (Hused : _api_connection_tested used = true) by apply execute_tool_sets_flag.
  split; [reflexivity | ].
  split; [exact Hused | ].
  split; [reflexivity | ].
  apply (probe_settled_run env' ops (reset_conversation used)). exact Hused.
Qed.

(* ===================================================================== *)
(** ** Properties: which events a computation can add to the trace *)
(* ===================================================================== *)

Section SameOn.
Variable p : Event -> bool.

Lemma same_on_refl s : same_on p s s.
Proof. reflexivity. Qed.

Lemma same_on_trans a b c : same_on p a b -> same_on p b c -> same_on p a c.
Proof. unfold same_on. congruence. Qed.

Lemma same_on_emit ev : p ev = false -> respects (same_on p) (emit ev).
Proof.
  intros Hev s. unfold same_on. simpl.
  rewrite filter_app. simpl. rewrite Hev. apply app_nil_r.
Qed.

Lemma same_on_modify_context f : respects (same_on p) (modify_context f).
Proof. intros s. reflexivity. Qed.

Lemma same_on_append_turn t : respects (same_on p) (append_turn t).
Proof. intros s. reflexivity. Qed.

Hypothesis p_search : forall a b c d, p (EvSearch a b c d) = false.
Hypothesis p_availability : forall a b c d, p (EvAvailability a b c d) = false.
Hypothesis p_geocode : forall q, p (EvGeocode q) = false.

Lemma same_on_exec_search_doctors env args location nlu_result :
  respects (same_on p) (exec_search_doctors env args location nlu_result).
Proof.
  unfold exec_search_doctors.
  respects_auto same_on_refl same_on_trans
    ltac:(first [apply same_on_emit; apply p_search | apply same_on_modify_context]).
Qed.

Lemma same_on_exec_check_availability env args :
  respects (same_on p) (exec_check_availability env args).
Proof.
  unfold exec_check_availability.
  respects_auto same_on_refl same_on_trans
    ltac:(first [apply same_on_emit; apply p_availability | apply same_on_modify_context]).
Qed.

Lemma same_on_exec_geocode env args : respects (same_on p) (exec_geocode env args).
Proof.
  unfold exec_geocode.
  respects_auto same_on_refl same_on_trans ltac:(apply same_on_emit; apply p_geocode).
Qed.

Lemma same_on_exec_schedule_appointment env args nlu_result info :
  (forall call, p (EvSchedule call) = false) ->
  respects (same_on p) (exec_schedule_appointment env args nlu_result info).
Proof.
  intros p_schedule. unfold exec_schedule_appointment.
  respects_auto same_on_refl same_on_trans ltac:(apply same_on_emit; apply p_schedule).
Qed.

(** Past the probe, a tool call adds no [p]-event, unless it is a
    schedule_appointment call and [p] selects the backend request. *)
Lemma same_on_run_tool env tool_call location nlu_result info :
  (is_str (tool_name_of tool_call) "schedule_appointment" = false
   \/ forall call, p (EvSchedule call) = false) ->
  respects (same_on p) (run_tool env tool_call location nlu_result info).
Proof.
  intros Hsched. unfold run_tool.
  destruct tool_call as [ | b | z | q | s | l | tc];
    try (intros s0; reflexivity).
  simpl tool_name_of in Hsched. intros s0. unfold bind at 1 2, lift. simpl.
  apply (respects_try_except _ same_on_trans);
    [ | intros e; apply (respects_ret _ same_on_refl)].
  unfold dispatch.
  destruct (is_str (dict_get tc "name" PNone) "search_doctors");
    [apply same_on_exec_search_doctors | ].
  destruct (is_str (dict_get tc "name" PNone) "check_availability");
    [apply same_on_exec_check_availability | ].
  destruct (is_str (dict_get tc "name" PNone) "schedule_appointment").
  - destruct Hsched as [H | H]; [discriminate H | ].
    apply same_on_exec_schedule_appointment. exact H.
  - destruct (is_str (dict_get tc "name" PNone) "geocode");
      [apply same_on_exec_geocode | apply (respects_ret _ same_on_refl)].
Qed.

Hypothesis p_probe : p EvProbe = false.

(** The whole executor adds the entry event and, for [p], nothing else. *)
Lemma execute_tool_trace env tool_call location nlu_result info self :
  (is_str (tool_name_of tool_call) "schedule_appointment" = false
   \/ forall call, p (EvSchedule call) = false) ->
  filter p (trace (fst (_execute_tool env tool_call location nlu_result info self)))
  = (filter p (trace self) ++ filter p [EvExecute tool_call])%list.
Proof.
  intros Hsched.
  pose proof (same_on_run_tool env tool_call location nlu_result info Hsched) as Hrun.
  unfold _execute_tool, bind, emit, probe_once. simpl fst at 1.
  cbv beta iota.
  destruct (_api_connection_tested self) eqn:Hflag; cbv beta iota; simpl negb; cbv iota.
  - rewrite Hrun. simpl trace. apply filter_app.
  - destruct (test_connection env); simpl negb; cbv iota.
    + rewrite Hrun. simpl trace. rewrite filter_app. simpl (filter p [EvProbe]).
      rewrite p_probe, app_nil_r. apply filter_app.
    + simpl. rewrite filter_app. simpl (filter p [EvProbe]).
      rewrite p_probe, app_nil_r. apply filter_app.
Qed.

End SameOn.

Lemma dict_get_set_other d key key' v default :
  String.eqb key key' = false ->
  dict_get (dict_set d key v) key' default = dict_get d key' default.
Proof.
  intros Hk. unfold dict_get. induction d as [ | [k w] d IH]; simpl.
  - rewrite Hk. reflexivity.
  - destruct (String.eqb k key) eqn:E; simpl.
    + apply String.eqb_eq in E. subst k. rewrite Hk. reflexivity.
    + destruct (String.eqb k key'); [reflexivity | exact IH].
Qed.

(** Filling in the specialty does not change the name of the tool. *)
Lemma enhance_tool_call_name tool_call nlu_result tool_call' :
  enhance_tool_call tool_call nlu_result = Ok tool_call' ->
  tool_name_of tool_call' = tool_name_of tool_call.
Proof.
  unfold enhance_tool_call.
  destruct tool_call as [ | b | z | q | s | l | tc]; simpl; try discriminate.
  destruct (is_str (dict_get tc "name" PNone) "search_doctors");
    [ | intros H; injection H as <-; reflexivity].
  destruct (as_dict (dict_get tc "arguments" (PDict []))) as [d | e]; [ | discriminate].
  destruct (negb (truthy (dict_get d "specialty" PNone)));
    [ | intros H; injection H as <-; reflexivity].
  destruct nlu_result as [n | ]; [ | intros H; injection H as <-; reflexivity].
  destruct (truthy_str (nlu_specialty n)); [ | intros H; injection H as <-; reflexivity].
  destruct (lookup "arguments" tc); intros H; injection H as <-; [ | reflexivity].
  simpl. apply dict_get_set_other. reflexivity.
Qed.

(* ===================================================================== *)
(** ** Properties: when schedule_appointment is not invoked *)
(* ===================================================================== *)

Section NoBooking.
Variable env : Env.

Let R := same_on is_schedule_event.

Lemma quiet_execute_tool tool_call location nlu_result info :
  is_str (tool_name_of tool_call) "schedule_appointment" = false ->
  respects R (_execute_tool env tool_call location nlu_result info).
Proof.
  intros Hname s. unfold R, same_on.
  rewrite (execute_tool_trace is_schedule_event) by (auto; reflexivity).
  simpl. rewrite Hname. apply app_nil_r.
Qed.

Lemma quiet_run_tool_call parsed tool_call assistant_message location nlu_result info :
  is_str (tool_name_of tool_call) "schedule_appointment" = false ->
  respects R (run_tool_call env parsed tool_call assistant_message location nlu_result info).
Proof.
  intros Hname. unfold run_tool_call.
  apply (respects_bind_lift _ (same_on_refl _)). intros tool_call' Henh.
  apply (respects_bind _ (same_on_trans _)).
  - apply quiet_execute_tool. rewrite (enhance_tool_call_name _ _ _ Henh). exact Hname.
  - intros tool_result. cbv zeta.
    destruct (truthy_str (t_error tool_result)); apply (respects_ret _ (same_on_refl _)).
Qed.

Lemma quiet_implicit_search message assistant_message location nlu_result info :
  respects R (implicit_search env message assistant_message location nlu_result info).
Proof.
  unfold implicit_search.
  respects_auto (same_on_refl is_schedule_event) (same_on_trans is_schedule_event)
    ltac:(apply quiet_execute_tool; reflexivity).
Qed.

Lemma quiet_decide message assistant_message location nlu_result info :
  (forall tool_call, requested_tool env assistant_message = Some tool_call ->
                     is_str (tool_name_of tool_call) "schedule_appointment" = false) ->
  respects R (decide env message assistant_message location nlu_result info).
Proof.
  intros Hreq. unfold decide.
  apply (respects_try_except _ (same_on_trans _)); [ | intros e; apply quiet_implicit_search].
  unfold requested_tool in Hreq.
  destruct (has_braces assistant_message); [ | apply (respects_ret _ (same_on_refl _))].
  apply (respects_bind_lift _ (same_on_refl _)). intros parsed Hparsed.
  rewrite Hparsed in Hreq.
  destruct (lookup "tool" parsed) as [tool_call | ];
    [ | apply (respects_ret _ (same_on_refl _))].
  apply quiet_run_tool_call. apply Hreq. reflexivity.
Qed.

Lemma chosen_slot_none message slots :
  Extract._parse_slot_selection message = None -> chosen_slot message slots = None.
Proof. intros H. unfold chosen_slot. rewrite H. reflexivity. Qed.

Lemma slot_autobook_idle message location nlu_result info st :
  Extract._parse_slot_selection message = None ->
  forall s, slot_autobook env message location nlu_result info st s = (s, Ok st).
Proof.
  intros Hslot s. unfold slot_autobook. destruct st as [assistant_message tool_result].
  unfold bind, get_context.
  destruct (available_slots (context s)) as [[ | slot slots] | ]; try reflexivity.
  rewrite (chosen_slot_none _ _ Hslot).
  destruct (_ && _); reflexivity.
Qed.

Lemma full_autobook_idle message location nlu_result info st :
  should_book message info = false ->
  forall s, full_autobook env message location nlu_result info st s = (s, Ok st).
Proof.
  intros Hbook s. unfold full_autobook. destruct st as [assistant_message tool_result].
  unfold bind, get_context. rewrite Hbook.
  destruct (preferred_time (context s)); [ | reflexivity].
  destruct (_ && _); reflexivity.
Qed.

End NoBooking.

(** C3, as amended. When the utterance carries no slot number, no confirming
    phrase and no e-mail address, and the language model's reply does not
    itself ask for schedule_appointment, a turn neither enters the executor
    for schedule_appointment nor sends the scheduling request, whatever the
    session state (in particular with full booking state). *)
Theorem no_booking_without_trigger :
  forall env message location self,
    Extract._parse_slot_selection message = None ->
    any_phrase confirming_phrases (PyStr.lower message) = false ->
    truthy_str (Extract.ui_email (Extract._extract_user_info message)) = false ->
    (forall assistant_message tool_call,
        ollama_chat env (conversation_history self ++ [MkTurn user message])%list
        = Ok assistant_message ->
        requested_tool env assistant_message = Some tool_call ->
        is_str (tool_name_of tool_call) "schedule_appointment" = false) ->
    filter is_schedule_event (trace (fst (process_message env message location self)))
    = filter is_schedule_event (trace self).
Proof.
  intros env message location self Hslot Hphrase Hemail Hreq.
  rewrite process_message_unfold.
  change (filter is_schedule_event (trace self))
    with (filter is_schedule_event (trace (at_chat env message self))).
  apply (respects_try_except_at (same_on is_schedule_event) (same_on_trans _)).
  - unfold turn_body, bind at 1 2, get_history, lift. simpl fst at 2. cbv beta iota.
    change (conversation_history (at_chat env message self))
      with (conversation_history self ++ [MkTurn user message])%list.
    destruct (ollama_chat env (conversation_history self ++ [MkTurn user message])%list)
      as [assistant_message | e] eqn:Hchat; [ | reflexivity].
    apply (respects_bind _ (same_on_trans is_schedule_event)).
    + apply quiet_decide. intros tool_call. apply Hreq. reflexivity.
    + intros st1 s. unfold same_on, bind.
      rewrite (slot_autobook_idle env message location _ _ st1 Hslot s).
      rewrite full_autobook_idle; [reflexivity | ].
      unfold should_book. rewrite Hphrase, Hemail. reflexivity.
  - intros e.
    apply (respects_bind _ (same_on_trans is_schedule_event));
      [apply same_on_append_turn | intros; apply (respects_ret _ (same_on_refl _))].
Qed.

Lemma no_booking_without_trigger_witness :
  filter is_schedule_event
         (trace (fst (process_message Demo.quiet_env "hmm" Demo.here Demo.full_agent)))
  = filter is_schedule_event (trace Demo.full_agent).
Proof.
  apply no_booking_without_trigger.
  - vm_compute. reflexivity.
  - vm_compute. reflexivity.
  - vm_compute. reflexivity.
  - intros assistant_message tool_call Hchat Hreq.
    simpl in Hchat. injection Hchat as <-.
    vm_compute in Hreq. discriminate Hreq.
Defined.

(** C3 as stated fails: with full booking state and an utterance without slot
    number, confirming phrase or e-mail, a reply of the language model that
    carries a schedule_appointment tool call is executed, and the scheduling
    request is sent. *)
Lemma booking_requested_by_the_model :
  let env := Demo.env_of (Raise Demo.decode_error) (Ok Demo.booking_reply) true
                         (Ok Demo.booked) Demo.json_booking in
  (truthy_str (selected_doctor_id (context Demo.full_agent)) = true
   /\ truthy_str (user_name (context Demo.full_agent)) = true
   /\ is_some (preferred_time (context Demo.full_agent)) = true
   /\ truthy_str (user_email (context Demo.full_agent)) = true)
  /\ Extract._parse_slot_selection "hmm" = None
  /\ any_phrase confirming_phrases (PyStr.lower "hmm") = false
  /\ Extract.ui_email (Extract._extract_user_info "hmm") = None
  /\ exists call,
      filter is_schedule_event
             (trace (fst (process_message env "hmm" Demo.here Demo.full_agent)))
      = [EvExecute (PDict [("name", PStr "schedule_appointment"); ("arguments", PDict [])]);
         EvSchedule call]
      /\ sa_doctor_id call = PStr "d1".
Proof.
  vm_compute. repeat split. eexists. split; reflexivity.
Qed.

(* ===================================================================== *)
(** ** Properties: the implicit search trigger *)
(* ===================================================================== *)

(** A reply without both braces is never decoded and never reaches the
    exception handler that holds the implicit search. *)
Lemma decide_plain_reply env message assistant_message location nlu_result info s :
  has_braces assistant_message = false ->
  decide env message assistant_message location nlu_result info s
  = (s, Ok (assistant_message, None)).
Proof. intros H. unfold decide, try_except. rewrite H. reflexivity. Qed.

(** A reply that decodes to an object without a ["tool"] key does not reach
    the handler either. *)
Lemma decide_reply_without_tool env message assistant_message location nlu_result info s parsed :
  has_braces assistant_message = true ->
  json_loads env (json_span assistant_message) = Ok parsed ->
  lookup "tool" parsed = None ->
  decide env message assistant_message location nlu_result info s
  = (s, Ok (assistant_message, None)).
Proof.
  intros H1 H2 H3. unfold decide, try_except, bind, lift. rewrite H1, H2, H3. reflexivity.
Qed.

(** In the handler the search runs only in the "already given" branch: the
    [elif specialty and location] branch is unreachable. *)
Lemma implicit_search_needs_phrase env message assistant_message location nlu_result info s :
  any_phrase already_given_phrases (PyStr.lower message) = false ->
  implicit_search env message assistant_message location nlu_result info s
  = (s, Ok (assistant_message, None)).
Proof.
  intros Hphrase. unfold implicit_search, bind, get_context. cbv zeta. rewrite Hphrase.
  match goal with
  | |- context [truthy_str ?x || truthy_str ?y] =>
      destruct (truthy_str x); destruct (truthy_str y)
  end; destruct (truthy location); reflexivity.
Qed.

(** C1. The implicit search does not fire whenever no tool call was parsed:
    it lives in the handler of [except (json.JSONDecodeError, KeyError)].
    (1) With the NLU intent search_doctors, specialty "cardiologist", a
    location, and a plain-text reply of the language model, no tool runs and
    the reply is returned as it is.  (2) When the reply has braces but does
    not decode, the handler runs, yet without an "already given" phrase no
    search is made, although specialty and location are both available. *)
Theorem implicit_search_not_triggered :
  let nlu := Ok (MkNlu (Some "search_doctors") (Some "cardiologist") None) in
  let plain := Demo.env_of nlu (Ok "I can help you find a cardiologist.") true
                           (Ok Demo.booked) Demo.no_json in
  let broken := Demo.env_of nlu (Ok "{oops}") true (Ok Demo.booked) Demo.no_json in
  (snd (process_message plain "I need a cardiologist" Demo.here __init__)
   = Ok (Replied "I can help you find a cardiologist." None)
   /\ trace (fst (process_message plain "I need a cardiologist" Demo.here __init__)) = []
   /\ specialty (context (fst (process_message plain "I need a cardiologist" Demo.here __init__)))
      = Some "cardiologist")
  /\ (snd (process_message broken "I need a cardiologist" Demo.here __init__)
      = Ok (Replied "{oops}" None)
      /\ trace (fst (process_message broken "I need a cardiologist" Demo.here __init__)) = []).
Proof. vm_compute. repeat split. Qed.

(** With an "already given" phrase and an undecodable reply the search runs. *)
Example implicit_search_with_phrase :
  let env := Demo.env_of (Ok (MkNlu (Some "search_doctors") (Some "cardiologist") None))
                         (Ok "{oops}") true (Ok Demo.booked) Demo.no_json in
  filter is_execute
         (trace (fst (process_message env "I told you, a cardiologist" Demo.here __init__)))
  = [EvExecute (search_call (Some "cardiologist"))].
Proof. vm_compute. reflexivity. Qed.

(* ===================================================================== *)
(** ** Properties: the full-information auto-fire *)
(* ===================================================================== *)

Lemma is_execute_trace env tool_call location nlu_result info self :
  filter is_execute (trace (fst (_execute_tool env tool_call location nlu_result info self)))
  = (filter is_execute (trace self) ++ [EvExecute tool_call])%list.
Proof.
  apply (execute_tool_trace is_execute); try reflexivity.
  right. reflexivity.
Qed.

(** The turn is the part before the full-information auto-fire, then that
    auto-fire, then the assistant turn. *)
Lemma turn_body_split env message location s :
  turn_body env message location (nlu_of env message) (Extract._extract_user_info message) s
  = bind (before_full_autobook env message location)
         (fun st2 =>
            st3 <- full_autobook env message location (nlu_of env message)
                                 (Extract._extract_user_info message) st2 ;;
            append_turn (MkTurn assistant (fst st3)) ;;;
            ret (Replied (fst st3) (snd st3))) s.
Proof.
  unfold turn_body, before_full_autobook, bind, get_history, lift.
  destruct (ollama_chat env (conversation_history s)) as [assistant_message | e];
    [ | reflexivity].
  destruct (decide env message assistant_message location _ _ s) as [s1 [st1 | e]];
    [ | reflexivity].
  destruct (slot_autobook env message location _ _ st1 s1) as [s2 [st2 | e]]; reflexivity.
Qed.

(** An auto-booking call always returns a result: an error, or the result of
    schedule_appointment. *)
Lemma execute_booking_call env start_utc c location nlu_result info s :
  exists s' booking_result,
    _execute_tool env (booking_call start_utc c) location nlu_result info s
    = (s', Ok booking_result)
    /\ conversation_history s' = conversation_history s
    /\ (truthy_str (t_error booking_result) = true
        \/ (truthy_str (t_error booking_result) = false
            /\ t_tool booking_result = Some "schedule_appointment")).
Proof.
  destruct (_api_connection_tested s || test_connection env) eqn:Hprobe.
  - assert (Hp : _api_connection_tested s = true \/ test_connection env = true)
      by (apply orb_true_iff; exact Hprobe).
    unfold booking_call.
    erewrite execute_tool_schedule; [ | reflexivity | reflexivity | exact Hp].
    unfold try_except.
    erewrite exec_schedule_appointment_run; [ | reflexivity].
    destruct (negb (truthy _)); [eexists; eexists; split; [reflexivity | split; [reflexivity | left; reflexivity]] | ].
    destruct (negb (truthy _)); [eexists; eexists; split; [reflexivity | split; [reflexivity | left; reflexivity]] | ].
    destruct (negb (truthy _)); [eexists; eexists; split; [reflexivity | split; [reflexivity | left; reflexivity]] | ].
    destruct (negb (truthy _)); [eexists; eexists; split; [reflexivity | split; [reflexivity | left; reflexivity]] | ].
    cbv zeta. destruct (schedule_appointment env _) as [result | e]; simpl.
    + eexists; eexists; split; [reflexivity | split; [reflexivity | right; split; reflexivity]].
    + eexists; eexists; split; [reflexivity | split; [reflexivity | left; reflexivity]].
  - apply orb_false_iff in Hprobe. destruct Hprobe as [Hflag Hconn].
    unfold _execute_tool, bind, emit, probe_once. simpl. rewrite Hflag, Hconn. simpl.
    eexists; eexists; split; [reflexivity | split; [reflexivity | left; reflexivity]].
Qed.

(** *** A tool result can only come from an entry into the executor *)

Lemma grows_refl s : grows s s.
Proof. unfold grows. lia. Qed.

Lemma grows_trans a b c : grows a b -> grows b c -> grows a c.
Proof. unfold grows. lia. Qed.

Lemma executions_execute_tool env tool_call location nlu_result info s :
  executions (fst (_execute_tool env tool_call location nlu_result info s))
  = S (executions s).
Proof.
  unfold executions. rewrite is_execute_trace, length_app. simpl. lia.
Qed.

Lemma grows_execute_tool env tool_call location nlu_result info :
  respects grows (_execute_tool env tool_call location nlu_result info).
Proof. intros s. unfold grows. rewrite executions_execute_tool. lia. Qed.

Ltac grows_leaf env :=
  first [ apply (grows_execute_tool env)
        | intros ?s; apply grows_refl ].

Lemma grows_decide env message assistant_message location nlu_result info :
  respects grows (decide env message assistant_message location nlu_result info).
Proof.
  unfold decide, run_tool_call, implicit_search.
  respects_auto grows_refl grows_trans ltac:(grows_leaf env).
Qed.

Lemma run_tool_call_some env parsed tool_call assistant_message location nlu_result info
      s s' st :
  run_tool_call env parsed tool_call assistant_message location nlu_result info s
  = (s', Ok st) ->
  executions s' = S (executions s).
Proof.
  unfold run_tool_call, bind, lift, ret.
  destruct (enhance_tool_call tool_call nlu_result) as [tool_call' | e]; [ | discriminate].
  pose proof (executions_execute_tool env tool_call' location nlu_result info s) as Hx.
  destruct (_execute_tool env tool_call' location nlu_result info s) as [s1 [r | e]];
    [ | discriminate].
  simpl in Hx. cbv zeta.
  destruct (truthy_str (t_error r)); intros H; injection H; intros; subst s'; exact Hx.
Qed.

Lemma implicit_search_some env message assistant_message location nlu_result info
      s s' reply tool_result :
  implicit_search env message assistant_message location nlu_result info s
  = (s', Ok (reply, Some tool_result)) ->
  executions s' = S (executions s).
Proof.
  unfold implicit_search, bind, get_context, ret. cbv zeta.
  repeat match goal with
         | |- context [if ?b then _ else _] => destruct b
         | |- context [_execute_tool env ?tc location nlu_result info s] =>
             let Hx := fresh "Hx" in
             pose proof (executions_execute_tool env tc location nlu_result info s) as Hx;
             destruct (_execute_tool env tc location nlu_result info s) as [? [? | ?]];
             simpl in Hx
         end;
  intros H; try discriminate H; injection H; intros; subst s'; assumption.
Qed.

Lemma decide_some env message assistant_message location nlu_result info
      s s' reply tool_result :
  decide env message assistant_message location nlu_result info s
  = (s', Ok (reply, Some tool_result)) ->
  executions s < executions s'.
Proof.
  unfold decide, try_except.
  match goal with
  | |- context [match ?body s with _ => _ end] =>
      assert (Hresp : respects grows body);
      [ | assert (Hsome : forall s1 st, body s = (s1, Ok st) -> snd st <> None ->
                                        executions s1 = S (executions s));
          [ | pose proof (Hresp s) as Hgrow;
              destruct (body s) as [s1 [st | e]] eqn:Hbody ] ]
  end.
  - unfold run_tool_call.
    respects_auto grows_refl grows_trans ltac:(grows_leaf env).
  - intros s1 st. unfold ret. destruct (has_braces assistant_message).
    + unfold bind at 1, lift.
      destruct (json_loads env (json_span assistant_message)) as [parsed | e];
        [ | discriminate].
      destruct (lookup "tool" parsed) as [tool_call | ].
      * intros H _. eapply run_tool_call_some. exact H.
      * intros H. injection H; intros; subst st. exfalso. auto.
    + intros H. injection H; intros; subst st. exfalso. auto.
  - intros H. injection H; intros; subst s1 st.
    rewrite (Hsome s' _ eq_refl); [lia | discriminate].
  - simpl in Hgrow. unfold grows in Hgrow.
    destruct (json_or_key_error (exn_kind_of e)); [ | discriminate].
    intros H. apply implicit_search_some in H. lia.
Qed.

Lemma slot_autobook_some env message location nlu_result info reply0 tool_result0
      s s' reply tool_result :
  slot_autobook env message location nlu_result info (reply0, tool_result0) s
  = (s', Ok (reply, Some tool_result)) ->
  executions s <= executions s' /\ (tool_result0 = None -> executions s < executions s').
Proof.
  unfold slot_autobook, bind, get_context, ret, modify_context.
  destruct tool_result0 as [t0 | ].
  - simpl negb. rewrite andb_false_r.
    destruct (available_slots (context s)) as [[ | slot slots] | ];
      intros H; injection H; intros; subst s'; (split; [lia | discriminate]).
  - destruct (available_slots (context s)) as [[ | slot slots] | ];
      try (intros H; discriminate H).
    destruct (_ && _); [ | intros H; discriminate H].
    destruct (chosen_slot message (slot :: slots)) as [[slot_number range] | ];
      [ | intros H; discriminate H].
    match goal with
    | |- context [_execute_tool env ?tc location nlu_result info ?s0] =>
        pose proof (executions_execute_tool env tc location nlu_result info s0) as Hx;
        destruct (_execute_tool env tc location nlu_result info s0) as [s1 [r | e]]
    end; [ | intros H; discriminate H].
    simpl in Hx. unfold executions in Hx. simpl in Hx.
    destruct (negb (truthy_str (t_error r))); [ | intros H; discriminate H].
    intros H. injection H; intros; subst s'.
    unfold executions. simpl. fold (executions s) in *. split; [lia | intros _; lia].
Qed.

(** If the turn reaches the full-information auto-fire with a tool result,
    the executor was entered on the way. *)
Lemma before_full_autobook_some env message location s mid reply tool_result :
  before_full_autobook env message location s = (mid, Ok (reply, Some tool_result)) ->
  executions s < executions mid.
Proof.
  unfold before_full_autobook, bind at 1 2, get_history, lift.
  destruct (ollama_chat env (conversation_history s)) as [assistant_message | e];
    [ | discriminate].
  unfold bind.
  pose proof (grows_decide env message assistant_message location (nlu_of env message)
                (Extract._extract_user_info message) s) as Hgrow.
  destruct (decide env message assistant_message location (nlu_of env message)
              (Extract._extract_user_info message) s) as [s1 [[reply1 tr1] | e]] eqn:Hd;
    [ | discriminate].
  simpl in Hgrow. unfold grows in Hgrow.
  intros H. apply slot_autobook_some in H. destruct H as [Hle Hlt].
  destruct tr1 as [t1 | ].
  - apply decide_some in Hd. lia.
  - specialize (Hlt eq_refl). lia.
Qed.

Lemma full_autobook_fires env message location nlu_result info assistant_message s preferred :
  truthy_str (selected_doctor_id (context s)) = true ->
  truthy_str (user_name (context s)) = true ->
  preferred_time (context s) = Some preferred ->
  truthy_str (user_email (context s)) = true ->
  should_book message info = true ->
  full_autobook env message location nlu_result info (assistant_message, None) s
  = bind (_execute_tool env (booking_call (tr_start preferred) (context s))
                        location nlu_result info)
         (fun booking_result =>
            if negb (truthy_str (t_error booking_result)) then
              ret (assistant_message ++ PyStr.nl ++ PyStr.nl
                     ++ Extract.get_default (t_summary booking_result) "",
                   Some booking_result)
            else
              ret (assistant_message ++ PyStr.nl ++ PyStr.nl ++ "Error: "
                     ++ str_of_opt (t_error booking_result),
                   None)) s.
Proof.
  intros Hd Hn Hp He Hb. unfold full_autobook.
  unfold bind at 1, get_context. rewrite Hp, Hd, Hn, He, Hb. reflexivity.
Qed.

(** C2, as amended. In a turn where the language-model call returned and no
    tool was executed before the full-information auto-fire, if the session
    state then holds a selected doctor, a user name, a preferred time and a
    user e-mail, and the utterance contains a confirming phrase or an e-mail
    address, the executor is entered exactly once, with the
    schedule_appointment call built from that state.  When that call
    succeeds, its result is the returned [tool_result] and its tool name is
    schedule_appointment; when it returns an error (probe failed, a field
    rejected, backend failure), the returned [tool_result] is empty and the
    error is appended to the reply. *)
Theorem full_information_autobook :
  forall env message location self mid assistant_message tool_result preferred,
    before_full_autobook env message location (at_chat env message self)
    = (mid, Ok (assistant_message, tool_result)) ->
    filter is_execute (trace mid) = filter is_execute (trace self) ->
    truthy_str (selected_doctor_id (context mid)) = true ->
    truthy_str (user_name (context mid)) = true ->
    preferred_time (context mid) = Some preferred ->
    truthy_str (user_email (context mid)) = true ->
    should_book message (Extract._extract_user_info message) = true ->
    let call := booking_call (tr_start preferred) (context mid) in
    exists final booking_result,
      _execute_tool env call location (nlu_of env message)
                    (Extract._extract_user_info message) mid
      = (final, Ok booking_result)
      /\ filter is_execute (trace (fst (process_message env message location self)))
         = (filter is_execute (trace self) ++ [EvExecute call])%list
      /\ snd (process_message env message location self)
         = Ok (if truthy_str (t_error booking_result)
               then Replied (assistant_message ++ PyStr.nl ++ PyStr.nl ++ "Error: "
                               ++ str_of_opt (t_error booking_result)) None
               else Replied (assistant_message ++ PyStr.nl ++ PyStr.nl
                               ++ Extract.get_default (t_summary booking_result) "")
                            (Some booking_result))
      /\ (truthy_str (t_error booking_result) = false ->
          t_tool booking_result = Some "schedule_appointment").
Proof.
  intros env message location self mid assistant_message tool_result preferred
         Hbefore Hquiet Hd Hn Hp He Hb call.
  assert (Hnone : tool_result = None).
  { destruct tool_result as [t | ]; [exfalso | reflexivity].
    apply before_full_autobook_some in Hbefore.
    unfold executions in Hbefore. rewrite Hquiet in Hbefore.
    simpl in Hbefore. lia. }
  subst tool_result.
  destruct (execute_booking_call env (tr_start preferred) (context mid) location
              (nlu_of env message) (Extract._extract_user_info message) mid)
    as (final & booking_result & Hexec & Hhist & Hshape).
  exists final, booking_result.
  split; [exact Hexec | ].
  assert (Htrace : filter is_execute (trace final)
                   = (filter is_execute (trace self) ++ [EvExecute call])%list).
  { rewrite <- Hquiet.
    pose proof (is_execute_trace env call location (nlu_of env message)
                  (Extract._extract_user_info message) mid) as H.
    unfold call in H at 1. rewrite Hexec in H. exact H. }
  set (st3 := if truthy_str (t_error booking_result)
              then (assistant_message ++ PyStr.nl ++ PyStr.nl ++ "Error: "
                      ++ str_of_opt (t_error booking_result), @None ToolResult)
              else (assistant_message ++ PyStr.nl ++ PyStr.nl
                      ++ Extract.get_default (t_summary booking_result) "",
                    Some booking_result)).
  assert (Hfull : full_autobook env message location (nlu_of env message)
                    (Extract._extract_user_info message) (assistant_message, None) mid
                  = (final, Ok st3)).
  { rewrite (full_autobook_fires env message location _ _ assistant_message mid preferred
               Hd Hn Hp He Hb).
    rewrite (bind_ok _ _ _ _ _ Hexec). unfold st3.
    destruct (truthy_str (t_error booking_result)); reflexivity. }
  assert (Hturn : turn_body env message location (nlu_of env message)
                    (Extract._extract_user_info message) (at_chat env message self)
                  = (MkAgent (_api_connection_tested final) (context final)
                             (conversation_history final ++ [MkTurn assistant (fst st3)])
                             (trace final),
                     Ok (Replied (fst st3) (snd st3)))).
  { rewrite turn_body_split. rewrite (bind_ok _ _ _ _ _ Hbefore).
    rewrite (bind_ok _ _ _ _ _ Hfull). reflexivity. }
  rewrite process_message_unfold. unfold try_except. rewrite Hturn.
  simpl fst. simpl snd. simpl trace.
  split; [exact Htrace | ].
  unfold st3. destruct (truthy_str (t_error booking_result)) eqn:Herr; simpl.
  - split; [reflexivity | intros H; discriminate H].
  - split; [reflexivity | ].
    intros _. destruct Hshape as [H | [_ H]]; [discriminate H | exact H].
Qed.

Lemma full_information_autobook_witness :
  let env := Demo.quiet_env in
  let self := Demo.full_agent in
  let mid := fst (before_full_autobook env "yes go ahead" Demo.here
                                       (at_chat env "yes go ahead" self)) in
  let call := booking_call "2024-01-15T09:00:00Z" (context mid) in
  exists final booking_result,
    _execute_tool env call Demo.here (nlu_of env "yes go ahead")
                  (Extract._extract_user_info "yes go ahead") mid
    = (final, Ok booking_result)
    /\ filter is_execute (trace (fst (process_message env "yes go ahead" Demo.here self)))
       = (filter is_execute (trace self) ++ [EvExecute call])%list
    /\ snd (process_message env "yes go ahead" Demo.here self)
       = Ok (if truthy_str (t_error booking_result)
             then Replied ("Sure." ++ PyStr.nl ++ PyStr.nl ++ "Error: "
                             ++ str_of_opt (t_error booking_result)) None
             else Replied ("Sure." ++ PyStr.nl ++ PyStr.nl
                             ++ Extract.get_default (t_summary booking_result) "")
                          (Some booking_result))
    /\ (truthy_str (t_error booking_result) = false ->
        t_tool booking_result = Some "schedule_appointment").
Proof.
  cbv zeta.
  apply (full_information_autobook
           Demo.quiet_env "yes go ahead" Demo.here Demo.full_agent
           (fst (before_full_autobook Demo.quiet_env "yes go ahead" Demo.here
                                      (at_chat Demo.quiet_env "yes go ahead" Demo.full_agent)))
           "Sure." None
           (MkRange "2024-01-15T09:00:00Z" "2024-01-15T09:30:00Z")).
  - vm_compute. reflexivity.
  - vm_compute. reflexivity.
  - vm_compute. reflexivity.
  - vm_compute. reflexivity.
  - vm_compute. reflexivity.
  - vm_compute. reflexivity.
  - vm_compute. reflexivity.
Defined.

(** The spec's own scenario: full state, "yes go ahead", a working backend. *)
Example autobook_yes_go_ahead :
  let reply := snd (process_message Demo.quiet_env "yes go ahead" Demo.here Demo.full_agent) in
  exists response result,
    reply = Ok (Replied response (Some result))
    /\ t_tool result = Some "schedule_appointment".
Proof. vm_compute. eexists. eexists. split; reflexivity. Qed.

(** C2 as stated fails: with full booking state, the utterance
    "yes go ahead", and no tool executed earlier in the turn, a backend that
    rejects the request leaves the returned [tool_result] empty (so it names
    no tool), and the error is appended to the reply; the scheduling request
    was sent once. *)
Lemma autobook_backend_failure :
  let env := Demo.env_of (Raise Demo.decode_error) (Ok "Sure.") true
                         (Raise (Exn OtherError "API request failed with status 409: slot taken"))
                         Demo.no_json in
  let self := Demo.full_agent in
  (truthy_str (selected_doctor_id (context self)) = true
   /\ truthy_str (user_name (context self)) = true
   /\ is_some (preferred_time (context self)) = true
   /\ truthy_str (user_email (context self)) = true)
  /\ any_phrase confirming_phrases (PyStr.lower "yes go ahead") = true
  /\ trace (fst (before_full_autobook env "yes go ahead" Demo.here
                                      (at_chat env "yes go ahead" self))) = []
  /\ snd (process_message env "yes go ahead" Demo.here self)
     = Ok (Replied ("Sure." ++ PyStr.nl ++ PyStr.nl
                      ++ "Error: Tool execution failed: API request failed with status 409: slot taken")
                   None)
  /\ List.length (filter is_schedule_event
                         (trace (fst (process_message env "yes go ahead" Demo.here self)))) = 2.
Proof. vm_compute. repeat split. Qed.

(* ===================================================================== *)
(** ** Further properties: slot selection and doctor matching *)
(* ===================================================================== *)

Lemma chosen_slot_inv message slots n range :
  chosen_slot message slots = Some (n, range) ->
  Extract._parse_slot_selection message = Some n
  /\ 1 <= n <= List.length slots
  /\ exists slot, nth_error slots (n - 1) = Some slot /\ range = slot_range slot.
Proof.
  unfold chosen_slot.
  destruct (Extract._parse_slot_selection message) as [k | ]; [ | discriminate].
  destruct ((1 <=? k) && (k <=? List.length slots)) eqn:Hb; [ | discriminate].
  destruct (nth_error slots (k - 1)) as [slot | ] eqn:Hn; [ | discriminate].
  intros H. injection H; intros; subst n range.
  apply andb_true_iff in Hb. destruct Hb as [H1 H2].
  apply Nat.leb_le in H1. apply Nat.leb_le in H2.
  split; [reflexivity | split; [lia | ]].
  exists slot. split; [exact Hn | reflexivity].
Qed.

Lemma chosen_slot_out_of_range message slots n :
  Extract._parse_slot_selection message = Some n ->
  n = 0 \/ List.length slots < n ->
  chosen_slot message slots = None.
Proof.
  intros Hp Hn. unfold chosen_slot. rewrite Hp.
  destruct ((1 <=? n) && (n <=? List.length slots)) eqn:Hb; [ | reflexivity].
  apply andb_true_iff in Hb. destruct Hb as [H1 H2].
  apply Nat.leb_le in H1. apply Nat.leb_le in H2. lia.
Qed.

(** X1. Step 5 either leaves the context as it is or sets [preferred_time]
    to the range of the slot the utterance designates: slot numbers are
    1-based positions in [available_slots]; the number 0 and numbers beyond
    the list select nothing. *)
Theorem select_slot_in_range :
  forall message c,
    (select_slot message c = c
     \/ exists slots n slot,
         available_slots c = Some slots
         /\ Extract._parse_slot_selection message = Some n
         /\ 1 <= n <= List.length slots
         /\ nth_error slots (n - 1) = Some slot
         /\ select_slot message c = set_preferred_time (Some (slot_range slot)) c)
    /\ (forall n slots,
           Extract._parse_slot_selection message = Some n ->
           available_slots c = Some slots ->
           n = 0 \/ List.length slots < n ->
           select_slot message c = c).
Proof.
  intros message c. split.
  - unfold select_slot.
    destruct (available_slots c) as [[ | slot0 slots] | ] eqn:Ha; auto.
    destruct (chosen_slot message (slot0 :: slots)) as [[n range] | ] eqn:Hc; auto.
    right. apply chosen_slot_inv in Hc.
    destruct Hc as (Hp & Hn & slot & Hnth & ->).
    exists (slot0 :: slots), n, slot. auto.
  - intros n slots Hp Ha Hn. unfold select_slot. rewrite Ha.
    destruct slots as [ | slot0 slots]; [reflexivity | ].
    rewrite (chosen_slot_out_of_range _ _ _ Hp Hn). reflexivity.
Qed.

Lemma find_first {A} (f : A -> bool) (l : list A) (x : A) :
  find f l = Some x ->
  exists before after,
    l = (before ++ x :: after)%list /\ f x = true
    /\ forall y, In y before -> f y = false.
Proof.
  induction l as [ | a l IH]; simpl; [discriminate | ].
  destruct (f a) eqn:Hfa.
  - intros H. injection H as ->. exists [], l. simpl. intuition.
  - intros H. destruct (IH H) as (before & after & -> & Hx & Hb).
    exists (a :: before), after. simpl. split; [reflexivity | split; [exact Hx | ]].
    intros y [<- | Hy]; auto.
Qed.

(** X2. The doctor matcher returns the id of the first doctor, in list
    order, that passes the matching test: every doctor before it fails the
    test, and no later, possibly better, match is considered. *)
Theorem match_doctor_name_first_match :
  forall message doctors id,
    Extract._match_doctor_name message doctors = Some id ->
    exists before doctor after,
      doctors = (before ++ doctor :: after)%list
      /\ Extract.d_id doctor = Some id
      /\ Extract.doctor_matches (PyStr.lower message) doctor = true
      /\ forall other, In other before ->
                       Extract.doctor_matches (PyStr.lower message) other = false.
Proof.
  intros message doctors id. unfold Extract._match_doctor_name.
  destruct doctors as [ | d0 doctors]; [discriminate | ].
  destruct (find (Extract.doctor_matches (PyStr.lower message)) (d0 :: doctors))
    as [doctor | ] eqn:Hf; [ | discriminate].
  intros Hid. apply find_first in Hf.
  destruct Hf as (before & after & Hl & Hm & Hb).
  exists before, doctor, after. auto.
Qed.

Lemma match_doctor_name_first_match_witness :
  exists before doctor after,
    [Demo.amina_said; Demo.leila_noor] = (before ++ doctor :: after)%list
    /\ Extract.d_id doctor = Some "d2"
    /\ Extract.doctor_matches (PyStr.lower "what about Dr. Leila Noor") doctor = true
    /\ forall other, In other before ->
                     Extract.doctor_matches (PyStr.lower "what about Dr. Leila Noor") other
                     = false.
Proof.
  apply (match_doctor_name_first_match "what about Dr. Leila Noor"
           [Demo.amina_said; Demo.leila_noor] "d2").
  vm_compute. reflexivity.
Defined.

(** X3. An utterance that is itself a piece of a doctor's lower-cased name
    (a single letter, "dr", a blank) selects that doctor when it heads the
    list, provided the name has at least one word after the "Dr" prefix. *)
Theorem match_doctor_name_utterance_inside_name :
  forall message doctor rest,
    PyStr.contains (PyStr.lower message)
                   (PyStr.lower (Extract.get_default (Extract.d_name doctor) "")) = true ->
    PyStr.split_ws
      (name_without_prefix (PyStr.lower (Extract.get_default (Extract.d_name doctor) "")))
    <> [] ->
    Extract._match_doctor_name message (doctor :: rest) = Extract.d_id doctor.
Proof.
  intros message doctor rest Hin Hparts.
  unfold Extract._match_doctor_name. simpl find.
  assert (Hm : Extract.doctor_matches (PyStr.lower message) doctor = true).
  { unfold Extract.doctor_matches. cbv zeta.
    fold (name_without_prefix (PyStr.lower (Extract.get_default (Extract.d_name doctor) ""))).
    destruct (PyStr.split_ws _) as [ | first_name others]; [contradiction | ].
    rewrite Hin. reflexivity. }
  rewrite Hm. reflexivity.
Qed.

Lemma match_doctor_name_utterance_inside_name_witness :
  Extract._match_doctor_name "a" [Demo.amina_said; Demo.leila_noor] = Some "d1".
Proof.
  apply (match_doctor_name_utterance_inside_name "a" Demo.amina_said [Demo.leila_noor]).
  - vm_compute. reflexivity.
  - vm_compute. discriminate.
Defined.

Lemma find_exists {A} (f : A -> bool) (l : list A) (x : A) :
  In x l -> f x = true -> exists y, find f l = Some y /\ In y l /\ f y = true.
Proof.
  induction l as [ | a l IH]; simpl; [contradiction | ].
  intros Hin Hx. destruct (f a) eqn:Hfa.
  - exists a. auto.
  - destruct Hin as [-> | Hin]; [congruence | ].
    destruct (IH Hin Hx) as (y & Hy & Hiny & Hfy). exists y. auto.
Qed.

Lemma number_words_at_most_ten :
  forall wn, In wn Extract.number_words -> snd wn <= 10.
Proof.
  intros wn Hin. unfold Extract.number_words in Hin. simpl in Hin.
  repeat (destruct Hin as [<- | Hin]; [simpl; lia | ]). contradiction.
Qed.

(** X4. Number words are looked for as substrings and before digits: as soon
    as any number word occurs anywhere in the lower-cased utterance, even
    inside another word, the result is a number between 0 and 10 taken from
    the word table, and the digits of the utterance are not consulted. *)
Theorem parse_slot_selection_words_first :
  forall message word number,
    In (word, number) Extract.number_words ->
    PyStr.contains word (PyStr.strip (PyStr.lower message)) = true ->
    exists word' number',
      In (word', number') Extract.number_words
      /\ PyStr.contains word' (PyStr.strip (PyStr.lower message)) = true
      /\ Extract._parse_slot_selection message = Some number'
      /\ number' <= 10.
Proof.
  intros message word number Hin Hc.
  destruct (find_exists
              (fun wn => PyStr.contains (fst wn) (PyStr.strip (PyStr.lower message)))
              Extract.number_words (word, number) Hin Hc)
    as ([word' number'] & Hf & Hin' & Hc').
  exists word', number'. split; [exact Hin' | split; [exact Hc' | ]].
  split.
  - unfold Extract._parse_slot_selection. cbv zeta. rewrite Hf. reflexivity.
  - apply (number_words_at_most_ten (word', number') Hin').
Qed.

Lemma parse_slot_selection_words_first_witness :
  exists word' number',
    In (word', number') Extract.number_words
    /\ PyStr.contains word' (PyStr.strip (PyStr.lower "Someone said slot 12")) = true
    /\ Extract._parse_slot_selection "Someone said slot 12" = Some number'
    /\ number' <= 10.
Proof.
  apply (parse_slot_selection_words_first "Someone said slot 12" "one" 1).
  - simpl. auto.
  - vm_compute. reflexivity.
Defined.

(* ===================================================================== *)
(** ** Further properties: what the executor returns *)
(* ===================================================================== *)

Section Returns.
Context {A : Type} (P : A -> Prop).

Lemma returns_ret (a : A) : P a -> returns P (ret a).
Proof. intros Ha s s' b H. injection H; intros; subst. exact Ha. Qed.

Lemma returns_raise (e : exn) : returns P (@raise A e).
Proof. intros s s' b H. discriminate H. Qed.

Lemma returns_bind {B} (m : M B) (f : B -> M A) :
  (forall b, returns P (f b)) -> returns P (bind m f).
Proof.
  intros Hf s s' a. unfold bind. destruct (m s) as [s1 [b | e]].
  - apply Hf.
  - discriminate.
Qed.

Lemma returns_bind_lift {B} (r : res B) (f : B -> M A) :
  (forall b, r = Ok b -> returns P (f b)) -> returns P (bind (lift r) f).
Proof.
  intros Hf s s' a. unfold bind, lift. destruct r as [b | e].
  - apply Hf. reflexivity.
  - discriminate.
Qed.

Lemma returns_try_except (body : M A) caught (handler : exn -> M A) :
  returns P body -> (forall e, returns P (handler e)) ->
  returns P (try_except body caught handler).
Proof.
  intros Hb Hh s s' a. unfold try_except.
  destruct (body s) as [s1 [b | e]] eqn:E.
  - intros H. injection H; intros; subst. eapply Hb. exact E.
  - destruct (caught (exn_kind_of e)); [apply Hh | discriminate].
Qed.

End Returns.

Ltac returns_step leaf :=
  lazymatch goal with
  | |- returns _ (bind _ _) => apply returns_bind; intros
  | |- returns _ (try_except _ _ _) => apply returns_try_except; [ | intros ]
  | |- returns _ (ret _) => apply returns_ret; leaf
  | |- returns _ (raise _) => apply returns_raise
  | |- returns _ (if ?b then _ else _) => destruct b
  | |- returns _ (match ?x with _ => _ end) => destruct x
  end.

Ltac returns_auto leaf := cbv zeta; repeat (returns_step leaf; cbv zeta).

Ltac result_shape :=
  first [ left; eexists; split; [reflexivity | reflexivity]
        | right; eexists; eexists; reflexivity ].

Lemma exec_search_doctors_shape env args location nlu_result :
  returns (fun r => is_error_result r \/ is_success_result "search_doctors" r)
          (exec_search_doctors env args location nlu_result).
Proof. unfold exec_search_doctors. returns_auto result_shape. Qed.

Lemma exec_check_availability_shape env args :
  returns (fun r => is_error_result r \/ is_success_result "check_availability" r)
          (exec_check_availability env args).
Proof. unfold exec_check_availability. returns_auto result_shape. Qed.

Lemma exec_schedule_appointment_shape env args nlu_result info :
  returns (fun r => is_error_result r \/ is_success_result "schedule_appointment" r)
          (exec_schedule_appointment env args nlu_result info).
Proof. unfold exec_schedule_appointment. returns_auto result_shape. Qed.

Lemma exec_geocode_shape env args :
  returns (fun r => is_error_result r \/ is_success_result "geocode" r)
          (exec_geocode env args).
Proof. unfold exec_geocode. returns_auto result_shape. Qed.

Lemma is_str_eq v lit : is_str v lit = true -> v = PStr lit.
Proof.
  destruct v; simpl; try discriminate.
  intros H. apply String.eqb_eq in H. subst. reflexivity.
Qed.

Lemma returns_weaken {A} (P Q : A -> Prop) (m : M A) :
  (forall a, P a -> Q a) -> returns P m -> returns Q m.
Proof. intros HPQ Hm s s' a H. apply HPQ. eapply Hm. exact H. Qed.

(** X5. Whatever tool call it is given, and whatever the collaborators do,
    a result returned by [_execute_tool] has exactly one of two shapes: an
    error with a non-empty message and no tool, result or summary; or a
    success naming the tool that was asked for, one of the four known tools,
    with no error. *)
Theorem execute_tool_result_shape :
  forall env tool_call location nlu_result info,
    returns (fun r =>
               is_error_result r
               \/ exists tool,
                   In tool ["search_doctors"; "check_availability";
                            "schedule_appointment"; "geocode"]
                   /\ tool_name_of tool_call = PStr tool
                   /\ is_success_result tool r)
            (_execute_tool env tool_call location nlu_result info).
Proof.
  intros env tool_call location nlu_result info.
  unfold _execute_tool.
  apply returns_bind. intros _. apply returns_bind. intros connected.
  destruct (negb connected); [apply returns_ret; result_shape | ].
  unfold run_tool.
  destruct tool_call as [ | b | z | q | s | l | tc];
    try (intros s0 s' a H; discriminate H).
  simpl py_get. simpl tool_name_of.
  apply returns_bind_lift. intros name Hname. injection Hname as <-.
  apply returns_bind_lift. intros args _.
  apply returns_try_except;
    [ | intros e; apply returns_ret; left; eexists; split; reflexivity].
  unfold dispatch.
  destruct (is_str (dict_get tc "name" PNone) "search_doctors") eqn:E1.
  { apply is_str_eq in E1. rewrite E1.
    eapply returns_weaken; [ | apply exec_search_doctors_shape].
    intros r [H | H]; [left; exact H | right].
    exists "search_doctors". split; [simpl; intuition | split; [reflexivity | exact H]]. }
  destruct (is_str (dict_get tc "name" PNone) "check_availability") eqn:E2.
  { apply is_str_eq in E2. rewrite E2.
    eapply returns_weaken; [ | apply exec_check_availability_shape].
    intros r [H | H]; [left; exact H | right].
    exists "check_availability". split; [simpl; intuition | split; [reflexivity | exact H]]. }
  destruct (is_str (dict_get tc "name" PNone) "schedule_appointment") eqn:E3.
  { apply is_str_eq in E3. rewrite E3.
    eapply returns_weaken; [ | apply exec_schedule_appointment_shape].
    intros r [H | H]; [left; exact H | right].
    exists "schedule_appointment". split; [simpl; intuition | split; [reflexivity | exact H]]. }
  destruct (is_str (dict_get tc "name" PNone) "geocode") eqn:E4.
  { apply is_str_eq in E4. rewrite E4.
    eapply returns_weaken; [ | apply exec_geocode_shape].
    intros r [H | H]; [left; exact H | right].
    exists "geocode". split; [simpl; intuition | split; [reflexivity | exact H]]. }
  apply returns_ret. left. eexists. split; reflexivity.
Qed.

Lemma execute_tool_result_shape_witness :
  is_error_result (tool_error err_which_doctor)
  \/ exists tool,
      In tool ["search_doctors"; "check_availability"; "schedule_appointment"; "geocode"]
      /\ tool_name_of (PDict [("name", PStr "schedule_appointment"); ("arguments", PDict [])])
         = PStr tool
      /\ is_success_result tool (tool_error err_which_doctor).
Proof.
  refine (execute_tool_result_shape Demo.quiet_env
            (PDict [("name", PStr "schedule_appointment"); ("arguments", PDict [])])
            PNone None (Extract.UserInfo None None None None) __init__ _ _ _).
  vm_compute. reflexivity.
Defined.

(** Past the probe, a dict tool call is dispatched under the executor's [try]. *)
Lemma execute_tool_past_probe env tc location nlu_result info self :
  _api_connection_tested self = true \/ test_connection env = true ->
  _execute_tool env (PDict tc) location nlu_result info self
  = try_except (dispatch env (dict_get tc "name" PNone) (dict_get tc "arguments" (PDict []))
                         location nlu_result info)
               any_exception tool_failed (entered (PDict tc) self).
Proof.
  intros Hprobe.
  unfold _execute_tool, run_tool, bind, emit, probe_once, entered. simpl.
  destruct (_api_connection_tested self) eqn:Hflag; simpl.
  - reflexivity.
  - destruct Hprobe as [H | H]; [discriminate H | ]. rewrite H. simpl.
    rewrite <- app_assoc. reflexivity.
Qed.

(** With the probe failing on the first call, nothing of the call is looked at. *)
Lemma execute_tool_probe_fails env tool_call location nlu_result info self :
  _api_connection_tested self = false -> test_connection env = false ->
  _execute_tool env tool_call location nlu_result info self
  = (entered tool_call self, Ok (tool_error err_no_connection)).
Proof.
  intros Hflag Hconn.
  unfold _execute_tool, bind, emit, probe_once, entered. simpl.
  rewrite Hflag, Hconn. simpl. rewrite <- app_assoc. reflexivity.
Qed.

(** X6. The executor returns a result for every tool call that is a JSON
    object, whatever its content and whatever the backend does: failures
    inside a branch are turned into error results.  A tool call that is not
    an object ([null], a string, a list) makes it raise [AttributeError], but
    only once the connectivity probe is behind it: with a failing first probe
    the call is answered with the connection error without being looked at. *)
Theorem execute_tool_returns_on_objects :
  forall env location nlu_result info self,
    (forall tc, exists self' result,
        _execute_tool env (PDict tc) location nlu_result info self = (self', Ok result))
    /\ (forall tool_call,
           as_dict tool_call = Raise (attribute_error tool_call "get") ->
           (_api_connection_tested self = true \/ test_connection env = true ->
            _execute_tool env tool_call location nlu_result info self
            = (entered tool_call self, Raise (attribute_error tool_call "get")))
           /\ (_api_connection_tested self = false -> test_connection env = false ->
               _execute_tool env tool_call location nlu_result info self
               = (entered tool_call self, Ok (tool_error err_no_connection)))).
Proof.
  intros env location nlu_result info self. split.
  - intros tc.
    destruct (_api_connection_tested self || test_connection env) eqn:Hprobe.
    + apply orb_true_iff in Hprobe.
      rewrite (execute_tool_past_probe env tc location nlu_result info self Hprobe).
      apply try_except_all_returns. intros e s. eexists. eexists. reflexivity.
    + apply orb_false_iff in Hprobe. destruct Hprobe as [Hflag Hconn].
      rewrite (execute_tool_probe_fails env _ location nlu_result info self Hflag Hconn).
      eexists. eexists. reflexivity.
  - intros tool_call Hnot. split.
    + intros Hprobe.
      destruct tool_call as [ | b | z | q | s | l | tc]; try discriminate Hnot;
        unfold _execute_tool, run_tool, bind, emit, probe_once, entered; simpl;
        (destruct (_api_connection_tested self) eqn:Hflag; simpl;
         [reflexivity
         | destruct Hprobe as [H | H]; [discriminate H | ]; rewrite H; simpl;
           rewrite <- app_assoc; reflexivity]).
    + intros Hflag Hconn. apply execute_tool_probe_fails; assumption.
Qed.

(* ===================================================================== *)
(** ** Further properties: what the executor writes *)
(* ===================================================================== *)

Lemma same_profile_refl s : same_profile s s.
Proof. unfold same_profile. intuition. Qed.

Lemma same_profile_trans a b c : same_profile a b -> same_profile b c -> same_profile a c.
Proof. unfold same_profile. intuition congruence. Qed.

Lemma same_session_refl s : same_session s s.
Proof. unfold same_session. intuition. Qed.

Lemma same_session_trans a b c : same_session a b -> same_session b c -> same_session a c.
Proof. unfold same_session. intuition congruence. Qed.

Ltac profile_leaf :=
  intros ?s; unfold same_profile, probe_once; simpl;
  try destruct (_api_connection_tested _); simpl; solve [intuition].

Lemma same_profile_execute_tool env tool_call location nlu_result info :
  respects same_profile (_execute_tool env tool_call location nlu_result info).
Proof.
  unfold _execute_tool, run_tool, dispatch, exec_search_doctors, exec_check_availability,
    exec_schedule_appointment, exec_geocode.
  respects_auto same_profile_refl same_profile_trans profile_leaf.
Qed.

Ltac session_leaf :=
  intros ?s; unfold same_session, probe_once; simpl;
  try destruct (_api_connection_tested _); simpl; solve [intuition].

Lemma same_session_exec_schedule_appointment env args nlu_result info :
  respects same_session (exec_schedule_appointment env args nlu_result info).
Proof.
  unfold exec_schedule_appointment.
  respects_auto same_session_refl same_session_trans session_leaf.
Qed.

Lemma same_session_exec_geocode env args : respects same_session (exec_geocode env args).
Proof.
  unfold exec_geocode.
  respects_auto same_session_refl same_session_trans session_leaf.
Qed.

Lemma same_session_other_tools env tool_call location nlu_result info :
  is_str (tool_name_of tool_call) "search_doctors" = false ->
  is_str (tool_name_of tool_call) "check_availability" = false ->
  respects same_session (_execute_tool env tool_call location nlu_result info).
Proof.
  intros H1 H2. unfold _execute_tool.
  apply (respects_bind _ same_session_trans); [session_leaf | intros _].
  apply (respects_bind _ same_session_trans); [session_leaf | intros connected].
  destruct (negb connected); [apply (respects_ret _ same_session_refl) | ].
  unfold run_tool.
  destruct tool_call as [ | b | z | q | s | l | tc]; try (intros s0; apply same_session_refl).
  simpl tool_name_of in H1, H2. simpl py_get.
  intros s0. unfold bind at 1 2, lift. simpl.
  apply (respects_try_except _ same_session_trans);
    [ | intros e; apply (respects_ret _ same_session_refl)].
  unfold dispatch. rewrite H1, H2.
  destruct (is_str (dict_get tc "name" PNone) "schedule_appointment");
    [apply same_session_exec_schedule_appointment | ].
  destruct (is_str (dict_get tc "name" PNone) "geocode");
    [apply same_session_exec_geocode | apply (respects_ret _ same_session_refl)].
Qed.

(** X7. The executor writes only two fields of the session:
    [last_search_results] and [available_slots].  Specialty, user name, user
    e-mail, preferred time, selected doctor, symptoms, reason and the history
    are the same after any tool call, returned or raised; and a call of any
    tool other than search_doctors and check_availability (so also a
    successful schedule_appointment) leaves the whole context as it was. *)
Theorem execute_tool_frame :
  forall env tool_call location nlu_result info self,
    same_profile self (fst (_execute_tool env tool_call location nlu_result info self))
    /\ (is_str (tool_name_of tool_call) "search_doctors" = false ->
        is_str (tool_name_of tool_call) "check_availability" = false ->
        context (fst (_execute_tool env tool_call location nlu_result info self))
        = context self).
Proof.
  intros env tool_call location nlu_result info self. split.
  - apply same_profile_execute_tool.
  - intros H1 H2.
    apply (same_session_other_tools env tool_call location nlu_result info H1 H2 self).
Qed.

(* ===================================================================== *)
(** ** Further properties: the search_doctors branch *)
(* ===================================================================== *)

Section SearchBranch.
Variable env : Env.
Variables (tc d : pydict) (location : pyval) (nlu_result : option NluResult)
          (info : Extract.user_info) (self : Agent).

Hypothesis tool_is_search : dict_get tc "name" PNone = PStr "search_doctors".
Hypothesis arguments_are : dict_get tc "arguments" (PDict []) = PDict d.
Hypothesis probe_passes : _api_connection_tested self = true \/ test_connection env = true.

Lemma execute_tool_search :
  _execute_tool env (PDict tc) location nlu_result info self
  = try_except (exec_search_doctors env (PDict d) location nlu_result)
               any_exception tool_failed (entered (PDict tc) self).
Proof.
  rewrite (execute_tool_past_probe env tc location nlu_result info self probe_passes).
  rewrite tool_is_search, arguments_are. reflexivity.
Qed.

Lemma search_without_specialty :
  truthy (search_specialty d nlu_result) = false ->
  _execute_tool env (PDict tc) location nlu_result info self
  = (entered (PDict tc) self, Ok (tool_error err_specialty_required)).
Proof.
  intros Hs. rewrite execute_tool_search.
  unfold try_except, exec_search_doctors, bind, lift, as_dict. cbv zeta.
  fold (search_specialty d nlu_result). rewrite Hs. reflexivity.
Qed.

Lemma search_without_location :
  truthy (search_specialty d nlu_result) = true ->
  truthy location = false ->
  truthy (dict_get d "near" PNone) = false ->
  _execute_tool env (PDict tc) location nlu_result info self
  = (entered (PDict tc) self, Ok (tool_error err_location_required)).
Proof.
  intros Hs Hl Hn. rewrite execute_tool_search.
  unfold try_except, exec_search_doctors, bind, lift, as_dict. cbv zeta.
  fold (search_specialty d nlu_result). rewrite Hs, Hl, Hn. reflexivity.
Qed.

Variable n : pydict.
Hypothesis specialty_given : truthy (search_specialty d nlu_result) = true.
Hypothesis near_is : search_near d location = PDict n.
Hypothesis near_given : truthy (PDict n) = true.

Let lat := py_or (dict_get n "lat" PNone) (dict_get n "latitude" PNone).
Let lng := py_or (dict_get n "lng" PNone) (dict_get n "longitude" PNone).
Let radius_km := dict_get d "radiusKm" (PInt 10).
Let request := EvSearch (search_specialty d nlu_result) lat lng radius_km.

Lemma location_check_passes :
  negb (truthy location) && negb (truthy (dict_get d "near" PNone)) = false.
Proof.
  unfold search_near, py_or in near_is.
  destruct (truthy (dict_get d "near" PNone)) eqn:Hn.
  - apply andb_false_r.
  - rewrite near_is, near_given. reflexivity.
Qed.

Lemma search_with_location :
  _execute_tool env (PDict tc) location nlu_result info self
  = match search_doctors env (search_specialty d nlu_result) lat lng radius_km with
    | Ok result =>
        let doctors := match sr_doctors result with Some l => l | None => [] end in
        (updated (set_last_search_results (Some doctors)) (requested request (PDict tc) self),
         Ok (tool_ok "search_doctors" (PSearch result)
                     (search_summary env (search_specialty d nlu_result) doctors)))
    | Raise e =>
        (requested request (PDict tc) self,
         Ok (tool_error ("Tool execution failed: " ++ exn_msg e)))
    end.
Proof.
  rewrite execute_tool_search.
  unfold try_except, exec_search_doctors, bind, lift, as_dict. cbv zeta.
  fold (search_specialty d nlu_result). rewrite specialty_given.
  rewrite location_check_passes.
  fold (search_near d location). rewrite near_is, near_given.
  simpl negb. cbv iota. simpl py_get. cbv iota beta.
  unfold emit, modify_context, ret, updated, requested. simpl.
  subst lat lng radius_km request.
  destruct (search_doctors env _ _ _ _); reflexivity.
Qed.

End SearchBranch.

(** X8. A search_doctors call that has a specialty and a location sends one
    search request.  If the backend answers, the doctors of the answer, an
    absent or empty list included, replace [last_search_results] (an empty
    answer is stored as an empty list and told as "I couldn't find any ...")
    and the rest of the context is untouched; if the backend fails, the
    result is "Tool execution failed: ..." and [last_search_results] keeps
    its earlier value. *)
Theorem search_doctors_stores_results :
  forall env tc d location nlu_result info self n,
    dict_get tc "name" PNone = PStr "search_doctors" ->
    dict_get tc "arguments" (PDict []) = PDict d ->
    (_api_connection_tested self = true \/ test_connection env = true) ->
    truthy (search_specialty d nlu_result) = true ->
    search_near d location = PDict n ->
    truthy (PDict n) = true ->
    let specialty := search_specialty d nlu_result in
    let lat := py_or (dict_get n "lat" PNone) (dict_get n "latitude" PNone) in
    let lng := py_or (dict_get n "lng" PNone) (dict_get n "longitude" PNone) in
    let radius_km := dict_get d "radiusKm" (PInt 10) in
    let after := _execute_tool env (PDict tc) location nlu_result info self in
    trace (fst after)
    = (trace (entered (PDict tc) self) ++ [EvSearch specialty lat lng radius_km])%list
    /\ match search_doctors env specialty lat lng radius_km with
       | Ok result =>
           let doctors := match sr_doctors result with Some l => l | None => [] end in
           snd after = Ok (tool_ok "search_doctors" (PSearch result)
                                   (search_summary env specialty doctors))
           /\ context (fst after) = set_last_search_results (Some doctors) (context self)
           /\ (doctors = [] ->
               search_summary env specialty doctors
               = "I couldn't find any " ++ py_str env specialty
                   ++ " doctors in your area within the search radius. Try:" ++ PyStr.nl
                   ++ "- Expanding your search radius" ++ PyStr.nl
                   ++ "- Checking a different specialty" ++ PyStr.nl
                   ++ "- Or specify a different location")
       | Raise e =>
           snd after = Ok (tool_error ("Tool execution failed: " ++ exn_msg e))
           /\ context (fst after) = context self
       end.
Proof.
  intros env tc d location nlu_result info self n Hname Hargs Hprobe Hs Hnear Hn.
  cbv zeta.
  rewrite (search_with_location env tc d location nlu_result info self Hname Hargs Hprobe
             n Hs Hnear Hn).
  destruct (search_doctors env _ _ _ _) as [result | e]; simpl.
  - split; [reflexivity | split; [reflexivity | split; [reflexivity | ]]].
    intros ->. reflexivity.
  - auto.
Qed.

Lemma search_doctors_stores_results_witness :
  let tc := [("name", PStr "search_doctors");
             ("arguments", PDict [("specialty", PStr "cardiology")])] in
  let after := _execute_tool Demo.quiet_env (PDict tc) Demo.here None
                             (Extract.UserInfo None None None None) Demo.full_agent in
  snd after = Ok (tool_ok "search_doctors" (PSearch (MkSearch (Some [])))
                          (search_summary Demo.quiet_env (PStr "cardiology") []))
  /\ last_search_results (context (fst after)) = Some [].
Proof.
  cbv zeta.
  pose proof (search_doctors_stores_results Demo.quiet_env
                [("name", PStr "search_doctors");
                 ("arguments", PDict [("specialty", PStr "cardiology")])]
                [("specialty", PStr "cardiology")] Demo.here None
                (Extract.UserInfo None None None None) Demo.full_agent
                [("lat", PFloat (36 # 1)); ("lng", PFloat (3 # 1))]
                eq_refl eq_refl (or_introl eq_refl) eq_refl eq_refl eq_refl) as H.
  cbv zeta in H. destruct H as [_ H]. simpl search_doctors in H.
  destruct H as (H1 & H2 & _). split; [exact H1 | ].
  rewrite H2. reflexivity.
Defined.

(** X9. search_doctors checks the specialty before the location: without a
    specialty (neither in the arguments nor from the NLU) the result is the
    "Specialty is required" error even when no location is known; with a
    specialty but neither a [near] argument nor a caller location it is the
    "Location is required" error.  In both cases no request is sent and the
    context is untouched. *)
Theorem search_doctors_missing_fields :
  forall env tc d location nlu_result info self,
    dict_get tc "name" PNone = PStr "search_doctors" ->
    dict_get tc "arguments" (PDict []) = PDict d ->
    (_api_connection_tested self = true \/ test_connection env = true) ->
    (truthy (search_specialty d nlu_result) = false ->
     _execute_tool env (PDict tc) location nlu_result info self
     = (entered (PDict tc) self, Ok (tool_error err_specialty_required)))
    /\ (truthy (search_specialty d nlu_result) = true ->
        truthy location = false ->
        truthy (dict_get d "near" PNone) = false ->
        _execute_tool env (PDict tc) location nlu_result info self
        = (entered (PDict tc) self, Ok (tool_error err_location_required)))
    /\ err_specialty_required <> err_location_required.
Proof.
  intros env tc d location nlu_result info self Hname Hargs Hprobe.
  split; [ | split].
  - apply search_without_specialty; assumption.
  - apply search_without_location; assumption.
  - discriminate.
Qed.

Lemma search_doctors_missing_fields_witness :
  _execute_tool Demo.quiet_env
                (PDict [("name", PStr "search_doctors"); ("arguments", PDict [])])
                PNone None (Extract.UserInfo None None None None) Demo.full_agent
  = (entered (PDict [("name", PStr "search_doctors"); ("arguments", PDict [])])
             Demo.full_agent,
     Ok (tool_error err_specialty_required)).
Proof.
  refine (proj1 (search_doctors_missing_fields Demo.quiet_env
                   [("name", PStr "search_doctors"); ("arguments", PDict [])] []
                   PNone None (Extract.UserInfo None None None None) Demo.full_agent
                   _ _ _) _).
  - reflexivity.
  - reflexivity.
  - left. reflexivity.
  - reflexivity.
Defined.

(** X10. Coordinates are read with [near.get("lat") or near.get("latitude")]
    (and likewise for the longitude), so a latitude of zero counts as absent:
    when the location has a zero or missing ["lat"] and no ["latitude"], the
    search request is sent with no latitude at all. *)
Theorem search_doctors_zero_latitude :
  forall env tc d location nlu_result info self n,
    dict_get tc "name" PNone = PStr "search_doctors" ->
    dict_get tc "arguments" (PDict []) = PDict d ->
    (_api_connection_tested self = true \/ test_connection env = true) ->
    truthy (search_specialty d nlu_result) = true ->
    search_near d location = PDict n ->
    truthy (PDict n) = true ->
    truthy (dict_get n "lat" PNone) = false ->
    lookup "latitude" n = None ->
    trace (fst (_execute_tool env (PDict tc) location nlu_result info self))
    = (trace (entered (PDict tc) self)
         ++ [EvSearch (search_specialty d nlu_result) PNone
                      (py_or (dict_get n "lng" PNone) (dict_get n "longitude" PNone))
                      (dict_get d "radiusKm" (PInt 10))])%list.
Proof.
  intros env tc d location nlu_result info self n Hname Hargs Hprobe Hs Hnear Hn Hlat Hnone.
  rewrite (search_with_location env tc d location nlu_result info self Hname Hargs Hprobe
             n Hs Hnear Hn).
  assert (Hl : py_or (dict_get n "lat" PNone) (dict_get n "latitude" PNone) = PNone).
  { unfold py_or. rewrite Hlat. unfold dict_get. rewrite Hnone. reflexivity. }
  rewrite Hl.
  destruct (search_doctors env _ _ _ _); reflexivity.
Qed.

Lemma search_doctors_zero_latitude_witness :
  let tc := [("name", PStr "search_doctors");
             ("arguments", PDict [("specialty", PStr "cardiology")])] in
  let equator := PDict [("lat", PFloat 0); ("lng", PFloat (9 # 1))] in
  trace (fst (_execute_tool Demo.quiet_env (PDict tc) equator None
                            (Extract.UserInfo None None None None) Demo.full_agent))
  = (trace (entered (PDict tc) Demo.full_agent)
       ++ [EvSearch (PStr "cardiology") PNone (PFloat (9 # 1)) (PInt 10)])%list.
Proof.
  cbv zeta.
  apply (search_doctors_zero_latitude Demo.quiet_env
           [("name", PStr "search_doctors");
            ("arguments", PDict [("specialty", PStr "cardiology")])]
           [("specialty", PStr "cardiology")]
           (PDict [("lat", PFloat 0); ("lng", PFloat (9 # 1))]) None
           (Extract.UserInfo None None None None) Demo.full_agent
           [("lat", PFloat 0); ("lng", PFloat (9 # 1))]);
    try reflexivity.
  left. reflexivity.
Defined.

(* ===================================================================== *)
(** ** Further properties: the check_availability branch *)
(* ===================================================================== *)

(** What a run of the branch can do to the context. *)
Lemma exec_check_availability_effect env args s :
  match exec_check_availability env args s with
  | (s', Ok r) =>
      (is_error_result r /\ context s' = context s)
      \/ (exists result,
             r = tool_ok "check_availability" (PAvail result)
                         (availability_summary env
                            (match ar_slots result with Some l => l | None => [] end))
             /\ context s'
                = set_available_slots
                    (stored_slots (match ar_slots result with Some l => l | None => [] end))
                    (context s))
  | (s', Raise e) => context s' = context s
  end.
Proof.
  unfold exec_check_availability, bind, lift, get_context, emit, modify_context, ret, as_dict.
  destruct args as [ | b | z | q | str | l | d]; try reflexivity.
  cbv zeta.
  destruct (preferred_time (context s)) as [preferred | ];
    repeat match goal with
           | |- context [if ?b then _ else _] => destruct b
           | |- context [plus_one_day env ?x] => destruct (plus_one_day env x)
           end;
    simpl;
    try reflexivity;
    try (left; split; [eexists; split; reflexivity | reflexivity]);
    repeat match goal with
           | |- context [plus_one_day env ?x] => destruct (plus_one_day env x); simpl
           | |- context [check_availability env ?a ?b ?c ?d0] =>
               destruct (check_availability env a b c d0) as [result | e]; simpl
           end;
    try reflexivity;
    try (left; split; [eexists; split; reflexivity | reflexivity]);
    try (destruct (ar_slots result) as [[ | slot slots] | ] eqn:Hslots; simpl;
         right; exists result; rewrite Hslots; split; reflexivity).
Qed.

(** X11. Past the probe, a check_availability call either returns an error
    and leaves the context untouched (a missing doctor or start time, a start
    time that cannot be parsed, a backend failure), or returns the backend's
    answer and stores its slots in [available_slots]: a non-empty list as it
    is, an empty or absent list as [None], never as an empty list.  Nothing
    else of the context changes. *)
Theorem check_availability_stores_slots :
  forall env tc location nlu_result info self,
    dict_get tc "name" PNone = PStr "check_availability" ->
    (_api_connection_tested self = true \/ test_connection env = true) ->
    let after := _execute_tool env (PDict tc) location nlu_result info self in
    exists result,
      snd after = Ok result
      /\ ((is_error_result result /\ context (fst after) = context self)
          \/ exists answer,
              let slots := match ar_slots answer with Some l => l | None => [] end in
              result = tool_ok "check_availability" (PAvail answer)
                               (availability_summary env slots)
              /\ context (fst after)
                 = set_available_slots (stored_slots slots) (context self)
              /\ available_slots (context (fst after)) <> Some []).
Proof.
  intros env tc location nlu_result info self Hname Hprobe. cbv zeta.
  rewrite (execute_tool_past_probe env tc location nlu_result info self Hprobe).
  rewrite Hname. unfold dispatch. simpl is_str. cbv iota.
  unfold try_except.
  pose proof (exec_check_availability_effect env (dict_get tc "arguments" (PDict []))
                (entered (PDict tc) self)) as H.
  destruct (exec_check_availability env _ (entered (PDict tc) self)) as [s' [r | e]].
  - exists r. split; [reflexivity | ]. simpl.
    destruct H as [[Herr Hctx] | (answer & Hr & Hctx)].
    + left. split; [exact Herr | exact Hctx].
    + right. exists answer. cbv zeta. split; [exact Hr | split; [exact Hctx | ]].
      rewrite Hctx. simpl.
      destruct (ar_slots answer) as [[ | slot slots] | ]; simpl; discriminate.
  - simpl. eexists. split; [reflexivity | ].
    left. split; [eexists; split; reflexivity | exact H].
Qed.

Lemma check_availability_stores_slots_witness :
  let tc := [("name", PStr "check_availability");
             ("arguments", PDict [("startUtc", PStr "2024-01-15T09:00:00Z");
                                  ("endUtc", PStr "2024-01-16T09:00:00Z")])] in
  let after := _execute_tool Demo.quiet_env (PDict tc) PNone None
                             (Extract.UserInfo None None None None)
                             (MkAgent true Demo.slotted_context [] []) in
  exists result,
    snd after = Ok result
    /\ ((is_error_result result /\ context (fst after) = Demo.slotted_context)
        \/ exists answer,
            let slots := match ar_slots answer with Some l => l | None => [] end in
            result = tool_ok "check_availability" (PAvail answer)
                             (availability_summary Demo.quiet_env slots)
            /\ context (fst after) = set_available_slots (stored_slots slots) Demo.slotted_context
            /\ available_slots (context (fst after)) <> Some []).
Proof.
  cbv zeta.
  apply (check_availability_stores_slots Demo.quiet_env
           [("name", PStr "check_availability");
            ("arguments", PDict [("startUtc", PStr "2024-01-15T09:00:00Z");
                                 ("endUtc", PStr "2024-01-16T09:00:00Z")])]
           PNone None (Extract.UserInfo None None None None)
           (MkAgent true Demo.slotted_context [] [])).
  - reflexivity.
  - left. reflexivity.
Defined.

(** With the empty answer of the demo backend the stale slots are dropped. *)
Example check_availability_clears_on_empty_answer :
  let tc := [("name", PStr "check_availability");
             ("arguments", PDict [("startUtc", PStr "2024-01-15T09:00:00Z");
                                  ("endUtc", PStr "2024-01-16T09:00:00Z")])] in
  available_slots
    (context (fst (_execute_tool Demo.quiet_env (PDict tc) PNone None
                                 (Extract.UserInfo None None None None)
                                 (MkAgent true Demo.slotted_context [] []))))
  = None.
Proof. vm_compute. reflexivity. Qed.

(** X12. When a check_availability call names a doctor (in its arguments or
    through the selected doctor of the context) and a start time but no end
    time, the request covers one day: its end is the start plus one day.  The
    start is the [startUtc] argument; without one it is the start of the
    context's preferred time. *)
Theorem check_availability_default_end :
  forall env tc d location nlu_result info self day_after,
    dict_get tc "name" PNone = PStr "check_availability" ->
    dict_get tc "arguments" (PDict []) = PDict d ->
    (_api_connection_tested self = true \/ test_connection env = true) ->
    truthy (dict_get d "endUtc" PNone) = false ->
    let doctor_id := py_or (dict_get d "doctorId" PNone)
                           (of_opt_str (selected_doctor_id (context self))) in
    truthy doctor_id = true ->
    let sent start_utc :=
      trace (fst (_execute_tool env (PDict tc) location nlu_result info self))
      = (trace (entered (PDict tc) self)
           ++ [EvAvailability doctor_id start_utc (PStr day_after)
                              (dict_get d "slotMinutes" (PInt 30))])%list in
    (truthy (dict_get d "startUtc" PNone) = true ->
     plus_one_day env (dict_get d "startUtc" PNone) = Ok day_after ->
     sent (dict_get d "startUtc" PNone))
    /\ (forall preferred,
           truthy (dict_get d "startUtc" PNone) = false ->
           preferred_time (context self) = Some preferred ->
           PyStr.nonempty (tr_start preferred) = true ->
           plus_one_day env (PStr (tr_start preferred)) = Ok day_after ->
           sent (PStr (tr_start preferred))).
Proof.
  intros env tc d location nlu_result info self day_after Hname Hargs Hprobe Hend
         doctor_id Hdoc sent.
  unfold sent.
  rewrite (execute_tool_past_probe env tc location nlu_result info self Hprobe).
  rewrite Hname, Hargs. unfold dispatch. simpl is_str. cbv iota.
  unfold try_except, exec_check_availability, bind, lift, get_context, as_dict,
    ret, emit, modify_context.
  cbv zeta.
  change (context (entered (PDict tc) self)) with (context self).
  fold doctor_id. rewrite Hend, Hdoc. simpl negb.
  split.
  - intros Hstart Hplus. rewrite Hstart. simpl negb.
    destruct (preferred_time (context self)); cbv beta iota; simpl fst; simpl snd;
      rewrite Hstart, Hend; simpl negb; cbv beta iota; rewrite Hplus; simpl;
      match goal with
      | |- context [check_availability env ?a ?b ?c ?d0] =>
          destruct (check_availability env a b c d0) as [result | e]
      end; try reflexivity;
      destruct (ar_slots result) as [[ | slot slots] | ]; reflexivity.
  - intros preferred Hstart Hpref Hne Hplus. rewrite Hstart, Hpref. simpl negb. cbv iota.
    rewrite Hplus. cbv beta iota. simpl fst. simpl snd. simpl truthy. rewrite Hne.
    simpl negb. cbv beta iota.
    destruct (PyStr.nonempty day_after); simpl negb; cbv beta iota; try rewrite Hplus;
      simpl;
      match goal with
      | |- context [check_availability env ?a ?b ?c ?d0] =>
          destruct (check_availability env a b c d0) as [result | e]
      end; try reflexivity;
      destruct (ar_slots result) as [[ | slot slots] | ]; reflexivity.
Qed.

Lemma check_availability_default_end_witness :
  let tc := [("name", PStr "check_availability");
             ("arguments", PDict [("startUtc", PStr "2024-01-15T09:00:00Z")])] in
  trace (fst (_execute_tool day_env (PDict tc) PNone None
                            (Extract.UserInfo None None None None) Demo.full_agent))
  = (trace (entered (PDict tc) Demo.full_agent)
       ++ [EvAvailability (PStr "d1") (PStr "2024-01-15T09:00:00Z")
                          (PStr "2024-01-16T09:00:00Z") (PInt 30)])%list.
Proof.
  cbv zeta.
  refine (proj1 (check_availability_default_end day_env
                   [("name", PStr "check_availability");
                    ("arguments", PDict [("startUtc", PStr "2024-01-15T09:00:00Z")])]
                   [("startUtc", PStr "2024-01-15T09:00:00Z")] PNone None
                   (Extract.UserInfo None None None None) Demo.full_agent
                   "2024-01-16T09:00:00Z" _ _ _ _ _) _ _);
    try reflexivity.
  left. reflexivity.
Defined.

(* ===================================================================== *)
(** ** Further properties: geocode and unknown tools *)
(* ===================================================================== *)

(** X13. A geocode call takes its query from ["query"], else from ["q"].
    Without either, the result is "Location query is required" and nothing
    is sent; with one, a single geocode request is sent for it, and the
    summary names the place the backend found, or the query itself when the
    answer carries no display name.  The context is untouched. *)
Theorem geocode_query :
  forall env tc d location nlu_result info self,
    dict_get tc "name" PNone = PStr "geocode" ->
    dict_get tc "arguments" (PDict []) = PDict d ->
    (_api_connection_tested self = true \/ test_connection env = true) ->
    let query := py_or (dict_get d "query" PNone) (dict_get d "q" PNone) in
    let after := _execute_tool env (PDict tc) location nlu_result info self in
    (truthy query = false ->
     after = (entered (PDict tc) self, Ok (tool_error "Location query is required")))
    /\ (truthy query = true ->
        fst after = requested (EvGeocode query) (PDict tc) self
        /\ (forall result,
               geocode env query = Ok result ->
               snd after
               = Ok (tool_ok "geocode" (PGeo result)
                             ("Found location: "
                                ++ match geo_display_name result with
                                   | Some place => place
                                   | None => py_str env query
                                   end)))
        /\ (forall e,
               geocode env query = Raise e ->
               snd after = Ok (tool_error ("Tool execution failed: " ++ exn_msg e)))).
Proof.
  intros env tc d location nlu_result info self Hname Hargs Hprobe query after.
  unfold after.
  rewrite (execute_tool_past_probe env tc location nlu_result info self Hprobe).
  rewrite Hname, Hargs. unfold dispatch. simpl is_str. cbv iota.
  unfold try_except, exec_geocode, bind, lift, as_dict, emit, ret. cbv zeta.
  fold query. split.
  - intros Hq. rewrite Hq. reflexivity.
  - intros Hq. rewrite Hq. simpl negb. cbv iota beta.
    destruct (geocode env query) as [result | e]; simpl.
    + split; [reflexivity | split].
      * intros result' H. injection H as <-. reflexivity.
      * intros e H. discriminate H.
    + split; [reflexivity | split].
      * intros result H. discriminate H.
      * intros e' H. injection H as <-. reflexivity.
Qed.

Lemma geocode_query_witness :
  let tc := [("name", PStr "geocode"); ("arguments", PDict [("q", PStr "Algiers")])] in
  let after := _execute_tool day_env (PDict tc) PNone None
                             (Extract.UserInfo None None None None) Demo.full_agent in
  fst after = requested (EvGeocode (PStr "Algiers")) (PDict tc) Demo.full_agent
  /\ snd after = Ok (tool_ok "geocode" (PGeo (MkGeo (Some "Algiers, Algeria")))
                             "Found location: Algiers, Algeria").
Proof.
  cbv zeta.
  pose proof (geocode_query day_env
                [("name", PStr "geocode"); ("arguments", PDict [("q", PStr "Algiers")])]
                [("q", PStr "Algiers")] PNone None
                (Extract.UserInfo None None None None) Demo.full_agent
                eq_refl eq_refl (or_introl eq_refl)) as H.
  cbv zeta in H. destruct H as [_ H]. destruct (H eq_refl) as (H1 & H2 & _).
  split; [exact H1 | ]. apply (H2 (MkGeo (Some "Algiers, Algeria"))). reflexivity.
Defined.

(** X14. A tool call whose name is none of search_doctors,
    check_availability, schedule_appointment and geocode (a misspelt name, a
    missing name, a name that is not a string) is answered with
    "Unknown tool: <name>"; its arguments are not looked at, nothing is sent
    and the context is untouched. *)
Theorem unknown_tool_is_rejected :
  forall env tc location nlu_result info self,
    (_api_connection_tested self = true \/ test_connection env = true) ->
    let name := dict_get tc "name" PNone in
    is_str name "search_doctors" = false ->
    is_str name "check_availability" = false ->
    is_str name "schedule_appointment" = false ->
    is_str name "geocode" = false ->
    _execute_tool env (PDict tc) location nlu_result info self
    = (entered (PDict tc) self, Ok (tool_error ("Unknown tool: " ++ py_str env name))).
Proof.
  intros env tc location nlu_result info self Hprobe name H1 H2 H3 H4.
  rewrite (execute_tool_past_probe env tc location nlu_result info self Hprobe).
  unfold dispatch. fold name. rewrite H1, H2, H3, H4. reflexivity.
Qed.

Lemma unknown_tool_is_rejected_witness :
  _execute_tool Demo.quiet_env (PDict [("arguments", PDict [])]) PNone None
                (Extract.UserInfo None None None None) Demo.full_agent
  = (entered (PDict [("arguments", PDict [])]) Demo.full_agent,
     Ok (tool_error "Unknown tool: None")).
Proof.
  apply (unknown_tool_is_rejected Demo.quiet_env [("arguments", PDict [])] PNone None
           (Extract.UserInfo None None None None) Demo.full_agent);
    try reflexivity.
  left. reflexivity.
Defined.

(* ===================================================================== *)
(** ** Further properties: what a turn does to the history *)
(* ===================================================================== *)

Lemma turn_body_prefix env message location nlu_result info s :
  turn_body env message location nlu_result info s
  = bind (turn_prefix env message location nlu_result info)
         (fun st3 => append_turn (MkTurn assistant (fst st3)) ;;;
                     ret (Replied (fst st3) (snd st3))) s.
Proof.
  unfold turn_body, turn_prefix, bind, get_history, lift.
  destruct (ollama_chat env (conversation_history s)) as [assistant_message | e];
    [ | reflexivity].
  destruct (decide env message assistant_message location nlu_result info s)
    as [s1 [st1 | e]]; [ | reflexivity].
  destruct (slot_autobook env message location nlu_result info st1 s1) as [s2 [st2 | e]];
    [ | reflexivity].
  destruct (full_autobook env message location nlu_result info st2 s2) as [s3 [st3 | e]];
    reflexivity.
Qed.

Lemma same_history_refl s : same_history s s.
Proof. reflexivity. Qed.

Lemma same_history_trans a b c : same_history a b -> same_history b c -> same_history a c.
Proof. unfold same_history. congruence. Qed.

Lemma same_history_execute_tool env tool_call location nlu_result info :
  respects same_history (_execute_tool env tool_call location nlu_result info).
Proof.
  intros s. apply (same_profile_execute_tool env tool_call location nlu_result info s).
Qed.

Lemma same_history_turn_prefix env message location nlu_result info :
  respects same_history (turn_prefix env message location nlu_result info).
Proof.
  unfold turn_prefix, decide, run_tool_call, implicit_search, slot_autobook, full_autobook.
  pose proof (same_history_execute_tool env) as Hexec.
  respects_auto same_history_refl same_history_trans
    ltac:(first [apply Hexec | intros ?s; reflexivity]).
Qed.


(* ===================================================================== *)
(** ** Further properties: what a turn never takes back *)
(* ===================================================================== *)












(* ===================================================================== *)
(** ** Further properties: a tool call that is not an object *)
(* ===================================================================== *)

Lemma enhance_tool_call_not_an_object tool_call nlu_result :
  as_dict tool_call = Raise (attribute_error tool_call "get") ->
  enhance_tool_call tool_call nlu_result = Raise (attribute_error tool_call "get").
Proof.
  destruct tool_call; intros H; try reflexivity. discriminate H.
Qed.

(** X17. When the language model's reply decodes to an object whose ["tool"]
    entry is not itself an object ([null], a string, a number, a list), the
    turn fails before any tool is run: the model's text is dropped, the reply
    is the apology with Python's attribute error, and only steps 1-5 and the
    two history turns are left behind. *)
Theorem tool_entry_not_an_object :
  forall env message location self assistant_message parsed tool_call,
    ollama_chat env (conversation_history self ++ [MkTurn user message])%list
    = Ok assistant_message ->
    has_braces assistant_message = true ->
    json_loads env (json_span assistant_message) = Ok parsed ->
    lookup "tool" parsed = Some tool_call ->
    as_dict tool_call = Raise (attribute_error tool_call "get") ->
    let error := "'" ++ type_name tool_call ++ "' object has no attribute 'get'" in
    process_message env message location self
    = (MkAgent (_api_connection_tested self)
               (absorb env message (context self))
               (conversation_history self
                  ++ [MkTurn user message;
                      MkTurn assistant ("Sorry, I encountered an error: " ++ error)])%list
               (trace self),
       Ok (Failed ("Sorry, I encountered an error: " ++ error) error)).
Proof.
  intros env message location self assistant_message parsed tool_call
         Hchat Hbraces Hjson Htool Hnot error.
  rewrite process_message_unfold. unfold try_except at 1.
  assert (Hbody :
            turn_body env message location (nlu_of env message)
                      (Extract._extract_user_info message) (at_chat env message self)
            = (at_chat env message self, Raise (attribute_error tool_call "get"))).
  { unfold turn_body, bind at 1 2, get_history, lift.
    change (conversation_history (at_chat env message self))
      with (conversation_history self ++ [MkTurn user message])%list.
    rewrite Hchat.
    assert (Hdecide :
              decide env message assistant_message location (nlu_of env message)
                     (Extract._extract_user_info message) (at_chat env message self)
              = (at_chat env message self, Raise (attribute_error tool_call "get"))).
    { unfold decide, try_except. rewrite Hbraces.
      unfold bind at 1, lift. rewrite Hjson, Htool.
      unfold run_tool_call, bind at 1, lift.
      rewrite (enhance_tool_call_not_an_object _ _ Hnot). reflexivity. }
    rewrite (bind_raise _ _ _ _ _ Hdecide). reflexivity. }
  rewrite Hbody. simpl. unfold at_chat, bind, append_turn, ret. simpl.
  rewrite <- app_assoc. reflexivity.
Qed.

Lemma tool_entry_not_an_object_witness :
  let reply := "{" ++ PyStr.dq ++ "tool" ++ PyStr.dq ++ ": null}" in
  let env := Demo.env_of (Raise Demo.decode_error) (Ok reply) true (Ok Demo.booked)
                         (fun _ => Ok [("tool", PNone)]) in
  process_message env "book it" Demo.here Demo.full_agent
  = (MkAgent true Demo.full_context
             [MkTurn system system_prompt; MkTurn user "book it";
              MkTurn assistant
                     "Sorry, I encountered an error: 'NoneType' object has no attribute 'get'"]
             [],
     Ok (Failed "Sorry, I encountered an error: 'NoneType' object has no attribute 'get'"
                "'NoneType' object has no attribute 'get'")).
Proof.
  intros reply env.
  exact (tool_entry_not_an_object env "book it" Demo.here Demo.full_agent reply
           [("tool", PNone)] PNone eq_refl eq_refl eq_refl eq_refl eq_refl).
Defined.

(* ===================================================================== *)
(** ** Further properties: how many tools a turn runs *)
(* ===================================================================== *)

(** The executor lets only [AttributeError] through: everything raised inside
    a branch is caught. *)
Lemma execute_tool_raises_other env tool_call location nlu_result info s s' e :
  _execute_tool env tool_call location nlu_result info s = (s', Raise e) ->
  exn_kind_of e = OtherError.
Proof.
  unfold _execute_tool, run_tool, bind, emit, probe_once, lift, ret, try_except.
  simpl.
  destruct (_api_connection_tested s); simpl.
  - destruct tool_call; simpl; try (intros H; injection H; intros; subst e; reflexivity).
    match goal with
    | |- context [dispatch env ?a ?b ?c ?d0 ?e0 ?s0] =>
        destruct (dispatch env a b c d0 e0 s0) as [s1 [r | e1]]
    end; intros H; discriminate H.
  - destruct (test_connection env); simpl; [ | intros H; discriminate H].
    destruct tool_call; simpl; try (intros H; injection H; intros; subst e; reflexivity).
    match goal with
    | |- context [dispatch env ?a ?b ?c ?d0 ?e0 ?s0] =>
        destruct (dispatch env a b c d0 e0 s0) as [s1 [r | e1]]
    end; intros H; discriminate H.
Qed.

Lemma execute_tool_on_object env tc location nlu_result info s :
  exists s' result,
    _execute_tool env (PDict tc) location nlu_result info s = (s', Ok result).
Proof.
  destruct (_api_connection_tested s || test_connection env) eqn:Hprobe.
  - apply orb_true_iff in Hprobe.
    rewrite (execute_tool_past_probe env tc location nlu_result info s Hprobe).
    apply try_except_all_returns. intros e s0. eexists. eexists. reflexivity.
  - apply orb_false_iff in Hprobe. destruct Hprobe as [Hflag Hconn].
    rewrite (execute_tool_probe_fails env _ location nlu_result info s Hflag Hconn).
    eexists. eexists. reflexivity.
Qed.

(** A requested tool call enters the executor once, or fails before it. *)
Lemma run_tool_call_executions env parsed tool_call assistant_message location nlu_result
      info s :
  let after := run_tool_call env parsed tool_call assistant_message location nlu_result
                             info s in
  match snd after with
  | Ok st => executions (fst after) = S (executions s) /\ snd st <> None
  | Raise e => exn_kind_of e = OtherError /\ executions (fst after) <= S (executions s)
  end.
Proof.
  unfold run_tool_call, bind, lift, ret.
  destruct (enhance_tool_call tool_call nlu_result) as [tool_call' | e] eqn:He; simpl.
  - pose proof (executions_execute_tool env tool_call' location nlu_result info s) as Hx.
    destruct (_execute_tool env tool_call' location nlu_result info s) as [s1 [r | e]] eqn:Hr;
      simpl in *.
    + destruct (truthy_str (t_error r)); simpl; split; try assumption; discriminate.
    + split; [ | lia]. eapply execute_tool_raises_other. exact Hr.
  - split; [ | lia].
    unfold enhance_tool_call in He.
    destruct tool_call; simpl in He; try (injection He; intros; subst e; reflexivity).
    destruct (is_str _ _); [ | discriminate He].
    match type of He with
    | context [as_dict ?a] => destruct a; simpl in He;
                              try (injection He; intros; subst e; reflexivity)
    end.
    repeat match type of He with
           | context [if ?b then _ else _] => destruct b
           | context [match ?x with _ => _ end] => destruct x
           end; discriminate He.
Qed.

(** The implicit search enters the executor once and hands back its result,
    or does nothing and hands back none. *)
Lemma implicit_search_executions env message assistant_message location nlu_result info s :
  let after := implicit_search env message assistant_message location nlu_result info s in
  exists st, snd after = Ok st
             /\ ((snd st = None /\ fst after = s)
                 \/ (snd st <> None /\ executions (fst after) = S (executions s))).
Proof.
  unfold implicit_search, bind, get_context, ret. cbv zeta.
  repeat match goal with
         | |- context [if ?b then _ else _] => destruct b
         | |- context [_execute_tool env (search_call ?sp) location nlu_result info s] =>
             let Hx := fresh "Hx" in
             pose proof (executions_execute_tool env (search_call sp) location nlu_result
                                                 info s) as Hx;
             destruct (execute_tool_on_object env
                         [("name", PStr "search_doctors");
                          ("arguments", PDict [("specialty", of_opt_str sp)])]
                         location nlu_result info s)
               as [s1 [r Hs]];
             unfold search_call in *; rewrite Hs in *; simpl in Hx
         end;
    simpl; eexists; (split; [reflexivity | ]); simpl;
    solve [ left; split; reflexivity | right; split; [discriminate | assumption] ].
Qed.

(** Lines 174-243 enter the executor at most once; when they hand back no
    tool result they have not entered it at all. *)
Lemma decide_executions env message assistant_message location nlu_result info s :
  let after := decide env message assistant_message location nlu_result info s in
  executions (fst after) <= S (executions s)
  /\ forall st, snd after = Ok st -> snd st = None -> executions (fst after) = executions s.
Proof.
  unfold decide, try_except. cbv zeta.
  destruct (has_braces assistant_message).
  - unfold bind, lift.
    destruct (json_loads env (json_span assistant_message)) as [parsed | e].
    + destruct (lookup "tool" parsed) as [tool_call | ].
      * pose proof (run_tool_call_executions env parsed tool_call assistant_message location
                      nlu_result info s) as Hrun.
        cbv zeta in Hrun.
        destruct (run_tool_call env parsed tool_call assistant_message location nlu_result
                                info s) as [s1 [st | e]]; simpl in *.
        -- destruct Hrun as [Hx Hsome]. split; [lia | ].
           intros st' H Hnone. injection H; intros; subst st'. contradiction.
        -- destruct Hrun as [Hkind Hx]. rewrite Hkind. simpl. split; [exact Hx | ].
           intros st' H. discriminate H.
      * simpl. split; [lia | reflexivity].
    + destruct (json_or_key_error (exn_kind_of e)).
      * pose proof (implicit_search_executions env message assistant_message location
                      nlu_result info s) as Himp.
        cbv zeta in Himp. destruct Himp as [st [Hst Hcases]].
        destruct (implicit_search env message assistant_message location nlu_result info s)
          as [s1 r]; simpl in *. subst r.
        destruct Hcases as [[Hnone Hsame] | [Hsome Hx]].
        -- subst s1. split; [lia | reflexivity].
        -- split; [lia | ]. intros st' H Hnone. injection H; intros; subst st'. contradiction.
      * simpl. split; [lia | ]. intros st' H. discriminate H.
  - simpl. split; [lia | reflexivity].
Qed.

(** Each auto-fire enters the executor at most once, and not at all when a
    tool result is already there. *)
Lemma slot_autobook_executions env message location nlu_result info st s :
  let after := slot_autobook env message location nlu_result info st s in
  executions (fst after) <= S (executions s)
  /\ (snd st <> None -> after = (s, Ok st)).
Proof.
  destruct st as [assistant_message tool_result].
  unfold slot_autobook, bind, get_context, ret, modify_context.
  destruct (available_slots (context s)) as [[ | slot slots] | ];
    try (simpl; split; [lia | reflexivity]).
  destruct tool_result as [t | ].
  - simpl negb. rewrite andb_false_r. simpl. split; [lia | reflexivity].
  - destruct (_ && _); [ | simpl; split; [lia | reflexivity]].
    destruct (chosen_slot message (slot :: slots)) as [[slot_number range] | ];
      [ | simpl; split; [lia | reflexivity]].
    match goal with
    | |- context [_execute_tool env ?tc location nlu_result info ?s0] =>
        pose proof (executions_execute_tool env tc location nlu_result info s0) as Hx;
        destruct (_execute_tool env tc location nlu_result info s0) as [s1 [r | e]]
    end; simpl in Hx; unfold executions in Hx; simpl in Hx; fold (executions s) in Hx.
    + destruct (negb (truthy_str (t_error r))); simpl;
        (split; [unfold executions in *; simpl; lia | intros H; exfalso; apply H; reflexivity]).
    + simpl. split; [unfold executions in *; lia | intros H; exfalso; apply H; reflexivity].
Qed.

Lemma full_autobook_executions env message location nlu_result info st s :
  let after := full_autobook env message location nlu_result info st s in
  executions (fst after) <= S (executions s)
  /\ (snd st <> None -> after = (s, Ok st)).
Proof.
  destruct st as [assistant_message tool_result].
  unfold full_autobook, bind, get_context, ret.
  destruct (preferred_time (context s)) as [preferred | ];
    [ | simpl; split; [lia | reflexivity]].
  destruct tool_result as [t | ].
  - simpl negb. rewrite andb_false_r. simpl. split; [lia | reflexivity].
  - destruct (_ && _); [ | simpl; split; [lia | reflexivity]].
    destruct (should_book message info); [ | simpl; split; [lia | reflexivity]].
    match goal with
    | |- context [_execute_tool env ?tc location nlu_result info ?s0] =>
        pose proof (executions_execute_tool env tc location nlu_result info s0) as Hx;
        destruct (_execute_tool env tc location nlu_result info s0) as [s1 [r | e]]
    end; simpl in Hx.
    + destruct (negb (truthy_str (t_error r))); simpl;
        (split; [lia | intros H; exfalso; apply H; reflexivity]).
    + simpl. split; [lia | intros H; exfalso; apply H; reflexivity].
Qed.

Lemma turn_prefix_executions env message location nlu_result info s :
  executions (fst (turn_prefix env message location nlu_result info s))
  <= executions s + 2.
Proof.
  unfold turn_prefix, bind at 1 2, get_history, lift.
  destruct (ollama_chat env (conversation_history s)) as [assistant_message | e];
    [ | simpl; lia].
  pose proof (decide_executions env message assistant_message location nlu_result info s)
    as Hd.
  cbv zeta in Hd. destruct Hd as [Hd1 Hd0].
  destruct (decide env message assistant_message location nlu_result info s)
    as [s1 [st1 | e]] eqn:Ed; simpl in Hd1, Hd0.
  - rewrite (bind_ok _ _ _ _ _ Ed).
    destruct st1 as [reply1 [t1 | ]].
    + assert (Hne : snd (reply1, Some t1) <> None) by discriminate.
      destruct (slot_autobook_executions env message location nlu_result info
                                         (reply1, Some t1) s1) as [_ Hs0].
      rewrite (bind_ok _ _ _ _ _ (Hs0 Hne)).
      destruct (full_autobook_executions env message location nlu_result info
                                         (reply1, Some t1) s1) as [_ Hf0].
      rewrite (Hf0 Hne). simpl. lia.
    + specialize (Hd0 _ eq_refl eq_refl).
      destruct (slot_autobook_executions env message location nlu_result info
                                         (reply1, None) s1) as [Hs1 _].
      destruct (slot_autobook env message location nlu_result info (reply1, None) s1)
        as [s2 [st2 | e]] eqn:Es; simpl in Hs1.
      * rewrite (bind_ok _ _ _ _ _ Es).
        destruct (full_autobook_executions env message location nlu_result info st2 s2)
          as [Hf1 _].
        lia.
      * rewrite (bind_raise _ _ _ _ _ Es). simpl. lia.
  - rewrite (bind_raise _ _ _ _ _ Ed). simpl. lia.
Qed.

(** X18. A turn enters the tool executor at most twice, and twice does
    happen: when the slot booking of lines 245-290 comes back with an error
    and the utterance also carries a confirming phrase, the booking of lines
    292-331 sends the same request again within the same turn. *)
Theorem process_message_at_most_two_tool_calls :
  (forall env message location self,
      executions (fst (process_message env message location self))
      <= executions self + 2)
  /\ (let env := Demo.env_of (Raise Demo.decode_error) (Ok "Sure.") true
                              (Raise (Exn OtherError "slot taken")) Demo.no_json in
      let self := MkAgent true Demo.slotted_context [] [] in
      exists args,
        trace (fst (process_message env "ok, the first one" Demo.here self))
        = [EvExecute (booking_call "2024-01-15T09:00:00Z" Demo.slotted_context);
           EvSchedule args;
           EvExecute (booking_call "2024-01-15T09:00:00Z" Demo.slotted_context);
           EvSchedule args]).
Proof.
  split.
  - intros env message location self.
    rewrite process_message_unfold. unfold try_except. rewrite turn_body_prefix.
    pose proof (turn_prefix_executions env message location (nlu_of env message)
                  (Extract._extract_user_info message) (at_chat env message self)) as Hb.
    change (executions (at_chat env message self)) with (executions self) in Hb.
    destruct (turn_prefix env message location (nlu_of env message)
                          (Extract._extract_user_info message) (at_chat env message self))
      as [s1 [st | e]] eqn:E.
    + rewrite (bind_ok _ _ _ _ _ E). simpl in *. exact Hb.
    + rewrite (bind_raise _ _ _ _ _ E). simpl in *. exact Hb.
  - vm_compute. eexists. reflexivity.
Qed.

(* ===================================================================== *)
(** ** Further properties: invariants of a session *)
(* ===================================================================== *)

Lemma run_session_invariant (Inv : Agent -> Prop) :
  (forall env op s, Inv s -> Inv (step env op s)) ->
  forall steps s, Inv s -> Inv (run_session steps s).
Proof.
  intros Hstep steps. unfold run_session.
  induction steps as [ | [env op] steps IH]; intros s Hs; simpl.
  - exact Hs.
  - apply IH. apply Hstep. exact Hs.
Qed.

Lemma keeps_slots_refl s : keeps_slots_not_empty s s.
Proof. unfold keeps_slots_not_empty. auto. Qed.

Lemma keeps_slots_trans a b c :
  keeps_slots_not_empty a b -> keeps_slots_not_empty b c -> keeps_slots_not_empty a c.
Proof. unfold keeps_slots_not_empty. auto. Qed.

Lemma keeps_slots_exec_check_availability env args :
  respects keeps_slots_not_empty (exec_check_availability env args).
Proof.
  intros s. pose proof (exec_check_availability_effect env args s) as H.
  destruct (exec_check_availability env args s) as [s' [r | e]];
    unfold keeps_slots_not_empty, slots_not_empty; simpl.
  - destruct H as [[_ Hc] | [result [_ Hc]]]; rewrite Hc; [auto | ].
    intros _. simpl. destruct (match ar_slots result with Some l => l | None => [] end);
      discriminate.
  - rewrite H. auto.
Qed.

Lemma absorb_available_slots env message c :
  available_slots (absorb env message c) = available_slots c.
Proof.
  unfold absorb.
  rewrite (proj1 (select_slot_frame _ _)), (proj1 (select_doctor_frame _ _)),
    (proj1 (proj2 (absorb_user_info_frame _ _))), (proj1 (proj2 (absorb_nlu_frame _ _))).
  reflexivity.
Qed.

Lemma keeps_slots_absorb env message :
  respects keeps_slots_not_empty (modify_context (absorb env message)).
Proof.
  intros s. unfold keeps_slots_not_empty, slots_not_empty, modify_context. simpl.
  rewrite absorb_available_slots. auto.
Qed.

Ltac slots_leaf :=
  intros ?s; unfold keeps_slots_not_empty, slots_not_empty, probe_once; simpl;
  try destruct (_api_connection_tested _); simpl;
  solve [auto | intros _; discriminate].

Lemma keeps_slots_execute_tool env tool_call location nlu_result info :
  respects keeps_slots_not_empty (_execute_tool env tool_call location nlu_result info).
Proof.
  unfold _execute_tool, run_tool, dispatch, exec_search_doctors,
    exec_schedule_appointment, exec_geocode.
  pose proof (keeps_slots_exec_check_availability env) as Hcheck.
  respects_auto keeps_slots_refl keeps_slots_trans ltac:(first [apply Hcheck | slots_leaf]).
Qed.

Lemma keeps_slots_process_message env message location :
  respects keeps_slots_not_empty (process_message env message location).
Proof.
  unfold process_message, turn_body, decide, run_tool_call, implicit_search,
    slot_autobook, full_autobook.
  pose proof (keeps_slots_execute_tool env) as Hexec.
  pose proof (keeps_slots_absorb env message) as Habsorb.
  respects_auto keeps_slots_refl keeps_slots_trans
    ltac:(first [apply Hexec | apply Habsorb | slots_leaf]).
Qed.

(** X19. In no state a session can reach from a fresh agent is
    [available_slots] an empty list: it is [None] or a non-empty list, so the
    truth test [if self.context.get("available_slots")] of steps 5 and
    245-251 succeeds exactly when slots are stored, and indexing the stored
    list with slot number 1 never fails. *)
Theorem available_slots_never_empty :
  forall steps,
    let self := run_session steps __init__ in
    available_slots (context self) <> Some []
    /\ (is_some (available_slots (context self)) = true ->
        exists slot, option_map (fun slots => nth_error slots 0) (available_slots (context self))
                     = Some (Some slot)).
Proof.
  intros steps self.
  assert (H : slots_not_empty self).
  { apply run_session_invariant.
    - intros env [message location | | tool_call location nlu_result info] s Hs; simpl.
      + apply (keeps_slots_process_message env message location s Hs).
      + unfold slots_not_empty. simpl. discriminate.
      + apply (keeps_slots_execute_tool env tool_call location nlu_result info s Hs).
    - unfold slots_not_empty. simpl. discriminate. }
  split; [exact H | ].
  unfold slots_not_empty in H.
  destruct (available_slots (context self)) as [[ | slot slots] | ]; simpl.
  - contradiction.
  - intros _. exists slot. reflexivity.
  - discriminate.
Qed.

Lemma alternates_app turns more :
  alternates turns = true -> alternates (turns ++ more) = alternates more.
Proof.
  remember (List.length turns) as n eqn:Hn. revert turns Hn.
  induction n as [n IH] using lt_wf_ind. intros turns Hn.
  destruct turns as [ | first [ | second rest]]; simpl; try discriminate; [reflexivity | ].
  destruct (role first); try discriminate.
  destruct (role second); try discriminate.
  intros H. apply (IH (List.length rest)); [subst n; simpl; lia | reflexivity | exact H].
Qed.

Lemma dialogue_shaped_exchange history message reply :
  dialogue_shaped history = true ->
  dialogue_shaped (history ++ [MkTurn user message; MkTurn assistant reply]) = true.
Proof.
  destruct history as [ | [[ | | ] prompt] turns]; simpl; try discriminate.
  intros H. rewrite (alternates_app _ _ H). reflexivity.
Qed.

Lemma process_message_history env message location self :
  exists reply,
    conversation_history (fst (process_message env message location self))
    = (conversation_history self ++ [MkTurn user message; MkTurn assistant reply])%list.
Proof.
  rewrite process_message_unfold. unfold try_except.
  rewrite turn_body_prefix.
  pose proof (same_history_turn_prefix env message location (nlu_of env message)
                (Extract._extract_user_info message) (at_chat env message self)) as Hh.
  destruct (turn_prefix env message location (nlu_of env message)
              (Extract._extract_user_info message) (at_chat env message self))
    as [s3 [st3 | e]] eqn:E; unfold same_history in Hh; simpl in Hh.
  - rewrite (bind_ok _ _ _ _ _ E). simpl.
    eexists. rewrite Hh, <- app_assoc. reflexivity.
  - rewrite (bind_raise _ _ _ _ _ E). simpl.
    eexists. rewrite Hh, <- app_assoc. reflexivity.
Qed.

(** X20. In every state a session can reach from a fresh agent, the history
    is one system turn followed by complete exchanges, a user turn then an
    assistant turn: no failure leaves a user turn unanswered, no tool call
    adds a turn, and a reset leaves the system turn alone. *)
Theorem history_is_dialogue_shaped :
  forall steps,
    dialogue_shaped (conversation_history (run_session steps __init__)) = true.
Proof.
  intros steps.
  apply (run_session_invariant
           (fun s => dialogue_shaped (conversation_history s) = true)).
  - intros env [message location | | tool_call location nlu_result info] s Hs; simpl.
    + destruct (process_message_history env message location s) as [reply Hh].
      rewrite Hh. apply dialogue_shaped_exchange. exact Hs.
    + reflexivity.
    + destruct (same_profile_execute_tool env tool_call location nlu_result info s)
        as (_ & _ & _ & _ & _ & _ & _ & Hh).
      rewrite Hh. exact Hs.
  - reflexivity.
Qed.

(* ===================================================================== *)
(** ** Further properties: what is posted to the booking endpoint *)
(* ===================================================================== *)

Lemma truthy_user_object usr key :
  truthy (dict_get usr key PNone) = true -> truthy (PDict usr) = true.
Proof. destruct usr; [discriminate | reflexivity]. Qed.

Lemma optional_no_empty_entry key value :
  no_empty_entry (MCPClient.optional key value) = true.
Proof.
  unfold MCPClient.optional, no_empty_entry.
  destruct (truthy value) eqn:E; simpl; [rewrite E | ]; reflexivity.
Qed.

Lemma complete_request_payload call :
  complete_request call = true ->
  no_empty_entry (MCPClient.schedule_appointment_payload call) = true.
Proof.
  unfold complete_request. intros H.
  apply andb_true_iff in H. destruct H as [H Hemail].
  apply andb_true_iff in H. destruct H as [H Hname].
  apply andb_true_iff in H. destruct H as [Hdoctor Hstart].
  unfold MCPClient.schedule_appointment_payload, no_empty_entry.
  rewrite !forallb_app. cbn [forallb snd].
  rewrite Hdoctor, Hstart, (truthy_user_object _ _ Hname). cbn [andb].
  fold (no_empty_entry (MCPClient.optional "endUtc" (sa_end_utc call))).
  fold (no_empty_entry (MCPClient.optional "durationMinutes" (sa_duration_minutes call))).
  fold (no_empty_entry (MCPClient.optional "reason" (sa_reason call))).
  fold (no_empty_entry (MCPClient.optional "notes" (sa_notes call))).
  fold (no_empty_entry (MCPClient.optional "symptoms" (sa_symptoms call))).
  rewrite !optional_no_empty_entry. reflexivity.
Qed.

Lemma keeps_bookings_refl s : keeps_bookings_sound s s.
Proof. unfold keeps_bookings_sound. auto. Qed.

Lemma keeps_bookings_trans a b c :
  keeps_bookings_sound a b -> keeps_bookings_sound b c -> keeps_bookings_sound a c.
Proof. unfold keeps_bookings_sound. auto. Qed.

(** The request is sent only behind the four checks. *)
Lemma keeps_bookings_exec_schedule_appointment env args nlu_result info :
  respects keeps_bookings_sound (exec_schedule_appointment env args nlu_result info).
Proof.
  intros s. unfold exec_schedule_appointment, bind, lift, get_context, as_dict, emit, ret.
  destruct args as [ | b | z | q | str | l | d]; try apply keeps_bookings_refl.
  cbv zeta.
  destruct (resolve_user d info (context s)) as [usr | e]; [ | apply keeps_bookings_refl].
  destruct (truthy (resolve_doctor_id d (context s))) eqn:Hdoctor;
    [ | apply keeps_bookings_refl].
  destruct (truthy (resolve_start_utc d nlu_result (context s))) eqn:Hstart;
    [ | apply keeps_bookings_refl].
  destruct (truthy (dict_get usr "name" PNone)) eqn:Hname; [ | apply keeps_bookings_refl].
  destruct (truthy (dict_get usr "email" PNone)) eqn:Hemail; [ | apply keeps_bookings_refl].
  simpl negb. cbv iota.
  match goal with
  | |- context [EvSchedule ?c] =>
      assert (Hsound : booking_is_sound (EvSchedule c) = true);
      [ assert (Hc : complete_request c = true)
          by (unfold complete_request; simpl; rewrite Hdoctor, Hstart, Hname, Hemail;
              reflexivity);
        unfold booking_is_sound; rewrite Hc, (complete_request_payload _ Hc); reflexivity
      | destruct (schedule_appointment env c) as [result | e];
        unfold keeps_bookings_sound; simpl; intros H;
        rewrite forallb_app, H; cbn [forallb andb]; rewrite Hsound; reflexivity ]
  end.
Qed.

Ltac bookings_leaf :=
  intros ?s; unfold keeps_bookings_sound, probe_once; simpl;
  try destruct (_api_connection_tested _); simpl;
  rewrite ?forallb_app; simpl;
  let H := fresh "H" in intros H; rewrite ?H; reflexivity.

Lemma keeps_bookings_execute_tool env tool_call location nlu_result info :
  respects keeps_bookings_sound (_execute_tool env tool_call location nlu_result info).
Proof.
  unfold _execute_tool, run_tool, dispatch, exec_search_doctors, exec_check_availability,
    exec_geocode.
  pose proof (keeps_bookings_exec_schedule_appointment env) as Hsched.
  respects_auto keeps_bookings_refl keeps_bookings_trans
    ltac:(first [apply Hsched | bookings_leaf]).
Qed.

Lemma keeps_bookings_process_message env message location :
  respects keeps_bookings_sound (process_message env message location).
Proof.
  unfold process_message, turn_body, decide, run_tool_call, implicit_search,
    slot_autobook, full_autobook.
  pose proof (keeps_bookings_execute_tool env) as Hexec.
  respects_auto keeps_bookings_refl keeps_bookings_trans
    ltac:(first [apply Hexec | bookings_leaf]).
Qed.

(** X21. Whatever a session does, every booking request it sends names a
    doctor, a start time and a user with a name and an e-mail address, and
    the JSON body [MCPClient.schedule_appointment] builds from it has no
    [null], empty or zero entry: optional fields are left out rather than
    sent empty (a [durationMinutes] of 0 is dropped, not posted). *)
Theorem booking_requests_are_complete :
  forall steps,
    forallb booking_is_sound (trace (run_session steps __init__)) = true.
Proof.
  intros steps.
  apply (run_session_invariant (fun s => forallb booking_is_sound (trace s) = true)).
  - intros env [message location | | tool_call location nlu_result info] s Hs; simpl.
    + apply (keeps_bookings_process_message env message location s Hs).
    + exact Hs.
    + apply (keeps_bookings_execute_tool env tool_call location nlu_result info s Hs).
  - reflexivity.
Qed.

(* ===================================================================== *)
(** ** Further properties: conversations of the HTTP chat endpoint *)
(* ===================================================================== *)







